(** * The Jailhouse loader driver (driver.c): cell lifecycle and
      enable/disable, as a state-passing model.

    The kernel globals of driver.c ([enabled], [hypervisor_mem],
    [hv_core_percpu_size], [offlined_cpus], [error_code], the [cells] list)
    are the fields of one record, together with the kernel objects the driver
    acts on (the online mask, the vmalloc areas, the kobjects below
    [cells_dir], the module reference count) and a log of the calls that
    leave the driver (CPU hotplug, hypercalls, mappings, memory writes).

    What the kernel, the user process and the hypervisor answer during one
    ioctl is an [env] record: the model is a function of the state, the
    argument and those answers. *)

From Stdlib Require Import ZArith NArith List Bool Lia FinFun.
From Stdlib.Strings Require Import Byte.
Import ListNotations.

Local Open Scope Z_scope.

(** ** errno values (include/uapi/asm-generic/errno-base.h) *)

Definition ENOENT : Z := 2.
Definition EINTR : Z := 4.
Definition ENOMEM : Z := 12.
Definition EFAULT : Z := 14.
Definition EBUSY : Z := 16.
Definition EEXIST : Z := 17.
Definition EINVAL : Z := 22.

(** ** C integer conversions used by the CPU iteration *)

Definition UINT_MODULUS : Z := 2 ^ 32.
Definition ULONG_MODULUS : Z := 2 ^ 64.

(** [(int)u] for an [unsigned int] u. *)
Definition int_of_uint (u : N) : Z :=
  let z := Z.of_N u mod UINT_MODULUS in
  if z <? 2 ^ 31 then z else z - UINT_MODULUS.

(** [(unsigned long)i] for an [int] i. *)
Definition ulong_of_int (i : Z) : N := Z.to_N (i mod ULONG_MODULUS).

(** [(unsigned int)l] for an [unsigned long] l. *)
Definition uint_of_ulong (l : N) : N := (l mod 2 ^ 32)%N.

Definition ulong (z : Z) : Z := z mod ULONG_MODULUS.

(** ** CPU masks: a bitmap, one bit per CPU number *)

Definition cpumask := N.

Definition cpu_isset (cpu : N) (mask : cpumask) : bool := N.testbit mask cpu.
Definition cpu_set (cpu : N) (mask : cpumask) : cpumask := N.setbit mask cpu.
Definition cpu_clear (cpu : N) (mask : cpumask) : cpumask := N.clearbit mask cpu.

(** [find_next_bit(addr, size, offset)]: the first set bit at or after
    [offset] and below [size]; [size] when there is none. *)
Fixpoint find_next_bit_from (fuel : nat) (addr size offset : N) : N :=
  match fuel with
  | O => size
  | S fuel' =>
      if (size <=? offset)%N then size
      else if N.testbit addr offset then offset
      else find_next_bit_from fuel' addr size (offset + 1)%N
  end.

Definition find_next_bit (addr size offset : N) : N :=
  find_next_bit_from (N.to_nat (size - offset)) addr size offset.

(** The set bits of a mask in ascending order: what [for_each_cpu_mask]
    visits.  The loop bodies of the driver clear only the bit being visited,
    so the bits visited are those set when the loop starts. *)
Definition N_range (n : nat) : list N := map N.of_nat (seq 0 n).

Definition cpumask_list (mask : cpumask) : list N :=
  filter (fun cpu => cpu_isset cpu mask) (N_range (N.to_nat (N.size mask))).

(** ** The configuration blob (struct jailhouse_cell_desc and what follows it)

    The header that declares the layout is not part of driver.c; the blob is
    taken decoded: the name array, the size in bytes of the CPU bitmap, the
    bitmap, and the memory regions [jailhouse_cell_mem_regions] points to.

    jailhouse_cell_create and jailhouse_cell_destroy copy [config_size]
    bytes, a number the user process chooses, and compare it with nothing
    before they write [name[JAILHOUSE_CELL_NAME_MAXLEN]] and read the CPU
    bitmap and the regions.  A decoded record stands for a buffer that holds
    the descriptor and everything it declares; a request whose [config_size]
    is smaller than that, where the driver writes and reads beyond its
    allocation, has no counterpart here. *)

Record jailhouse_memory := mkMemory {
  phys_start : Z;
  virt_start : Z;
  mem_size : Z
}.

Record jailhouse_cell_desc := mkCellDesc {
  name : list byte;          (* char name[JAILHOUSE_CELL_NAME_MAXLEN+1] *)
  cpu_set_size : N;          (* __u32, bytes *)
  cell_cpu_set : N;          (* jailhouse_cell_cpu_set(config) *)
  mem_regions : list jailhouse_memory   (* num_memory_regions entries *)
}.

(** [config->cpu_set_size * 8], an unsigned int product. *)
Definition cpu_set_bits (config : jailhouse_cell_desc) : N :=
  uint_of_ulong (cpu_set_size config * 8).

(** cell_cpumask_next(int n, config) *)
Definition cell_cpumask_next (n : Z) (config : jailhouse_cell_desc) : N :=
  uint_of_ulong
    (find_next_bit (cell_cpu_set config) (cpu_set_bits config)
                   (ulong_of_int (n + 1))).

(** for_each_cell_cpu(cpu, config): the CPUs in the order the loop visits
    them.  [cpu] starts as [(unsigned)-1]; each round computes the next CPU
    and stops when it is not below the bitmap's length. *)
Fixpoint for_each_cell_cpu_from (fuel : nat) (cpu : N)
         (config : jailhouse_cell_desc) : list N :=
  match fuel with
  | O => []
  | S fuel' =>
      let cpu' := cell_cpumask_next (int_of_uint cpu) config in
      if (cpu' <? cpu_set_bits config)%N
      then cpu' :: for_each_cell_cpu_from fuel' cpu' config
      else []
  end.

Definition for_each_cell_cpu (config : jailhouse_cell_desc) : list N :=
  for_each_cell_cpu_from (S (N.to_nat (cpu_set_bits config)))
                         4294967295%N config.

(** ** C strings *)

Definition is_nul (b : byte) : bool := Byte.eqb b x00.

(** The characters before the first NUL. *)
Fixpoint c_string (s : list byte) : list byte :=
  match s with
  | [] => []
  | b :: s' => if is_nul b then [] else b :: c_string s'
  end.

(** strcmp: the difference of the first pair of bytes that differ, the end
    of a string being its NUL. *)
Fixpoint strcmp (a b : list byte) : Z :=
  match a, b with
  | [], [] => 0
  | [], y :: _ => if is_nul y then 0 else - Z.of_N (Byte.to_N y)
  | x :: _, [] => if is_nul x then 0 else Z.of_N (Byte.to_N x)
  | x :: a', y :: b' =>
      if Byte.eqb x y
      then (if is_nul x then 0 else strcmp a' b')
      else Z.of_N (Byte.to_N x) - Z.of_N (Byte.to_N y)
  end.

(** [config->name[JAILHOUSE_CELL_NAME_MAXLEN] = 0]: the last byte of the
    name array becomes NUL. *)
Definition terminate_name (config : jailhouse_cell_desc) : jailhouse_cell_desc :=
  mkCellDesc (removelast (name config) ++ [x00]) (cpu_set_size config)
             (cell_cpu_set config) (mem_regions config).

(** ** Cells, events and the driver state *)

(** struct cell: the kobject (its name) and the id; [entry] is the position
    in the [cells] list. *)
Record cell := mkCell {
  kobject_name : list byte;
  id : Z
}.

Inductive hypercall :=
| JAILHOUSE_HC_DISABLE
| JAILHOUSE_HC_CELL_CREATE
| JAILHOUSE_HC_CELL_DESTROY.

(** The calls that leave the driver, in the order they are made. *)
Inductive event :=
| EvCpuDown (cpu : N) (res : Z)
| EvCpuUp (cpu : N) (res : Z)
| EvHypercall (code : hypercall) (arg : Z) (res : Z)
| EvEntry (cpu : N) (res : Z)           (* header->entry(cpu) *)
| EvLeave (cpu : N) (res : Z)           (* jailhouse_call0(JAILHOUSE_HC_DISABLE) on cpu *)
| EvIoremap (phys size addr : Z)
| EvVunmap (addr : Z)
| EvMemcpy (offset len : Z)      (* bytes written from hypervisor_mem + offset *)
| EvMemset (offset len : Z)
| EvCopyFromUser (offset len : Z)
| EvCopyImage (addr source len : Z).   (* a payload copied to a mapping of cell memory *)

Record state := mkState {
  enabled : bool;
  hypervisor_mem : Z;              (* 0 is NULL *)
  hv_core_percpu_size : Z;
  offlined_cpus : cpumask;
  error_code : Z;
  cells : list cell;
  cpu_online_mask : cpumask;       (* the kernel's online mask *)
  vm_areas : list Z;               (* addresses of the live mappings *)
  kobjects : list (list byte);     (* the kobjects below cells_dir *)
  module_refs : Z;                 (* references on THIS_MODULE *)
  log : list event
}.

Definition set_enabled (b : bool) (s : state) : state :=
  mkState b (hypervisor_mem s) (hv_core_percpu_size s) (offlined_cpus s)
          (error_code s) (cells s) (cpu_online_mask s) (vm_areas s)
          (kobjects s) (module_refs s) (log s).

Definition set_hypervisor_mem (p : Z) (s : state) : state :=
  mkState (enabled s) p (hv_core_percpu_size s) (offlined_cpus s)
          (error_code s) (cells s) (cpu_online_mask s) (vm_areas s)
          (kobjects s) (module_refs s) (log s).

Definition set_hv_core_percpu_size (n : Z) (s : state) : state :=
  mkState (enabled s) (hypervisor_mem s) n (offlined_cpus s)
          (error_code s) (cells s) (cpu_online_mask s) (vm_areas s)
          (kobjects s) (module_refs s) (log s).

Definition set_offlined_cpus (m : cpumask) (s : state) : state :=
  mkState (enabled s) (hypervisor_mem s) (hv_core_percpu_size s) m
          (error_code s) (cells s) (cpu_online_mask s) (vm_areas s)
          (kobjects s) (module_refs s) (log s).

Definition set_error_code (c : Z) (s : state) : state :=
  mkState (enabled s) (hypervisor_mem s) (hv_core_percpu_size s)
          (offlined_cpus s) c (cells s) (cpu_online_mask s) (vm_areas s)
          (kobjects s) (module_refs s) (log s).

Definition set_cells (l : list cell) (s : state) : state :=
  mkState (enabled s) (hypervisor_mem s) (hv_core_percpu_size s)
          (offlined_cpus s) (error_code s) l (cpu_online_mask s) (vm_areas s)
          (kobjects s) (module_refs s) (log s).

Definition set_cpu_online_mask (m : cpumask) (s : state) : state :=
  mkState (enabled s) (hypervisor_mem s) (hv_core_percpu_size s)
          (offlined_cpus s) (error_code s) (cells s) m (vm_areas s)
          (kobjects s) (module_refs s) (log s).

Definition set_vm_areas (l : list Z) (s : state) : state :=
  mkState (enabled s) (hypervisor_mem s) (hv_core_percpu_size s)
          (offlined_cpus s) (error_code s) (cells s) (cpu_online_mask s) l
          (kobjects s) (module_refs s) (log s).

Definition set_kobjects (l : list (list byte)) (s : state) : state :=
  mkState (enabled s) (hypervisor_mem s) (hv_core_percpu_size s)
          (offlined_cpus s) (error_code s) (cells s) (cpu_online_mask s)
          (vm_areas s) l (module_refs s) (log s).

Definition set_module_refs (n : Z) (s : state) : state :=
  mkState (enabled s) (hypervisor_mem s) (hv_core_percpu_size s)
          (offlined_cpus s) (error_code s) (cells s) (cpu_online_mask s)
          (vm_areas s) (kobjects s) n (log s).

Definition log_event (ev : event) (s : state) : state :=
  mkState (enabled s) (hypervisor_mem s) (hv_core_percpu_size s)
          (offlined_cpus s) (error_code s) (cells s) (cpu_online_mask s)
          (vm_areas s) (kobjects s) (module_refs s) (log s ++ [ev]).

(** ** What the surroundings answer during one ioctl *)

(** The firmware image as request_firmware delivers it: the size of the
    file and the header fields the driver reads. *)
Record firmware := mkFirmware {
  fw_size : Z;                 (* hypervisor->size *)
  fw_signature_ok : bool;      (* memcmp(header->signature, JAILHOUSE_SIGNATURE) == 0 *)
  core_size : Z;               (* header->core_size *)
  percpu_size : Z;             (* header->percpu_size *)
  entry : N -> Z               (* header->entry(cpu) *)
}.

Record env := mkEnv {
  lock_acquired : bool;        (* mutex_lock_interruptible(&lock) == 0 *)
  kmalloc_ok : bool;           (* kmalloc of the configuration buffer *)
  kzalloc_ok : bool;           (* kzalloc of the struct cell *)
  kobject_add_err : Z;         (* kobject_init_and_add *)
  try_module_get_ok : bool;
  request_firmware_err : Z;
  hypervisor : firmware;
  ioremap_addr : Z;            (* the area __get_vm_area hands out; 0 when it fails *)
  ioremap_range_err : Z;       (* ioremap_page_range on that area *)
  num_possible_cpus : Z;
  barrier_order : list N;      (* the online CPUs, in the order they complete *)
  cpu_down_res : N -> Z;
  cpu_up_res : N -> Z;
  hc_disable_res : N -> Z;     (* jailhouse_call0(JAILHOUSE_HC_DISABLE) on a CPU *)
  hc_res : hypercall -> Z -> Z;  (* jailhouse_call1(code, arg) *)
  config_pa : Z;               (* __pa(config) *)
  stack_garbage : Z            (* the value of an int that was never assigned *)
}.

(** ** Kernel services *)

Definition cpu_online (cpu : N) (s : state) : bool :=
  cpu_isset cpu (cpu_online_mask s).

(** cpu_down: on success the CPU leaves the online mask. *)
Definition cpu_down (e : env) (cpu : N) (s : state) : Z * state :=
  let r := cpu_down_res e cpu in
  let s1 := log_event (EvCpuDown cpu r) s in
  if r =? 0
  then (r, set_cpu_online_mask (cpu_clear cpu (cpu_online_mask s1)) s1)
  else (r, s1).

(** cpu_up: on success the CPU enters the online mask. *)
Definition cpu_up (e : env) (cpu : N) (s : state) : Z * state :=
  let r := cpu_up_res e cpu in
  let s1 := log_event (EvCpuUp cpu r) s in
  if r =? 0
  then (r, set_cpu_online_mask (cpu_set cpu (cpu_online_mask s1)) s1)
  else (r, s1).

Definition jailhouse_call1 (e : env) (code : hypercall) (arg : Z) (s : state)
  : Z * state :=
  let r := hc_res e code arg in
  (r, log_event (EvHypercall code arg r) s).

Fixpoint remove_first {A : Type} (eqb : A -> A -> bool) (x : A) (l : list A)
  : list A :=
  match l with
  | [] => []
  | y :: l' => if eqb x y then l' else y :: remove_first eqb x l'
  end.

Definition vunmap (addr : Z) (s : state) : state :=
  log_event (EvVunmap addr)
            (set_vm_areas (remove_first Z.eqb addr (vm_areas s)) s).

(** jailhouse_ioremap: [addr] is the area __get_vm_area hands out, 0 when
    it fails, [range_err] the result of ioremap_page_range on that area;
    when the latter fails the area is unmapped again and NULL returned.
    The [virt] argument only tells the kernel where to look for an area. *)
Definition jailhouse_ioremap (addr range_err : Z) (phys size : Z) (s : state)
  : Z * state :=
  let s1 := log_event (EvIoremap phys size addr) s in
  if addr =? 0 then (0, s1) else
  let s2 := set_vm_areas (addr :: vm_areas s1) s1 in
  if negb (range_err =? 0) then (0, vunmap addr s2)
  else (addr, s2).

Definition list_byte_eqb (a b : list byte) : bool :=
  if list_eq_dec Byte.byte_eq_dec a b then true else false.

Definition kobject_put (kname : list byte) (s : state) : state :=
  set_kobjects (remove_first list_byte_eqb kname (kobjects s)) s.

(** ** Cell bookkeeping of the driver *)

Inductive ptr_or_err (A : Type) :=
| IS_ERR (err : Z)
| PTR (a : A).
Arguments IS_ERR {A} err.
Arguments PTR {A} a.

(** The name kobject_init_and_add gives a kobject: kobject_set_name_vargs
    (lib/kobject.c) replaces every '/' of the formatted name by '!'. *)
Definition kobject_set_name (n : list byte) : list byte :=
  map (fun b => if Byte.eqb b x2f then x21 else b) n.

(** create_cell: a zeroed struct cell whose kobject is added below cells_dir
    under the configuration's name, formatted with "%s": the characters
    before the first NUL, with '/' replaced. *)
Definition create_cell (e : env) (cell_desc : jailhouse_cell_desc) (s : state)
  : ptr_or_err cell * state :=
  if negb (kzalloc_ok e) then (IS_ERR (- ENOMEM), s)
  else if negb (kobject_add_err e =? 0) then (IS_ERR (kobject_add_err e), s)
  else let c := mkCell (kobject_set_name (c_string (name cell_desc))) 0 in
       (PTR c, set_kobjects (kobject_name c :: kobjects s) s).

(** register_cell: list_add_tail. *)
Definition register_cell (c : cell) (s : state) : state :=
  set_cells (cells s ++ [c]) s.

(** find_cell: the first cell of the list whose name compares equal. *)
Definition find_cell (cell_desc : jailhouse_cell_desc) (s : state)
  : option cell :=
  find (fun c => strcmp (kobject_name c) (name cell_desc) =? 0) (cells s).

Definition cell_eqb (a b : cell) : bool :=
  list_byte_eqb (kobject_name a) (kobject_name b) && (id a =? id b).

(** delete_cell: list_del and kobject_put. *)
Definition delete_cell (c : cell) (s : state) : state :=
  kobject_put (kobject_name c)
              (set_cells (remove_first cell_eqb c (cells s)) s).

(** ** Enabling the hypervisor *)

Definition PAGE_SIZE : Z := 4096.
Definition PAGE_MASK : Z := Z.lnot (PAGE_SIZE - 1).

(** PAGE_ALIGN on an unsigned long. *)
Definition PAGE_ALIGN (addr : Z) : Z :=
  Z.land (ulong (addr + PAGE_SIZE - 1)) PAGE_MASK.

(** The argument of JAILHOUSE_ENABLE as the user process presents it. *)
Record jailhouse_system := mkSystem {
  system_readable : bool;      (* copy_from_user(&config_header, arg, ...) succeeds *)
  system_config_readable : bool;   (* the copy of config_size bytes succeeds *)
  hypervisor_memory : jailhouse_memory;
  system : jailhouse_cell_desc;
  system_config_size : Z       (* jailhouse_system_config_size(&config_header) *)
}.

(** on_each_cpu with the wait for [call_done]: the function has run on every
    online CPU when the wait is over.  [None]: a CPU never completes. *)
Fixpoint on_each_cpu (f : N -> state -> option state) (cpus : list N)
         (s : state) : option state :=
  match cpus with
  | [] => Some s
  | cpu :: rest =>
      match f cpu s with
      | None => None
      | Some s1 => on_each_cpu f rest s1
      end
  end.

Definition enter_hypervisor (header : firmware) (cpu : N) (s : state)
  : option state :=
  let err := entry header cpu in
  let s1 := log_event (EvEntry cpu err) s in
  Some (if negb (err =? 0) then set_error_code err s1 else s1).

Definition module_put (s : state) : state :=
  set_module_refs (module_refs s - 1) s.

(** The exit labels of jailhouse_enable, each falling through to the next
    (error_unlock only releases the mutex). *)
Definition error_put_module (s : state) : state := module_put s.

Definition error_free_cell (root_cell : cell) (s : state) : state :=
  error_put_module (kobject_put (kobject_name root_cell) s).

Definition error_release_fw (root_cell : cell) (s : state) : state :=
  error_free_cell root_cell s.

Definition error_unmap (root_cell : cell) (s : state) : state :=
  error_release_fw root_cell (vunmap (hypervisor_mem s) s).

(** A write into the mapped region stays below [size] bytes. *)
Definition write_within (size : Z) (ev : event) : bool :=
  match ev with
  | EvMemcpy offset len
  | EvMemset offset len
  | EvCopyFromUser offset len =>
      (0 <=? offset) && (0 <=? len) && (offset + len <=? size)
  | _ => true
  end.
Arguments write_within : simpl never.

(** jailhouse_enable.  [None], no defined outcome: create_cell returned an
    ERR_PTR, which the test [!root_cell] lets through, and every path from
    there dereferences it; or one of the writes into the mapping of
    [hv_mem->size] bytes (the copy of the firmware file, the zero-fill of
    the rest, the copy of the configuration) does not stay within it. *)
Definition jailhouse_enable (e : env) (arg : jailhouse_system) (s : state)
  : option (Z * state) :=
  if negb (system_readable arg) then Some (- EFAULT, s) else
  let config := terminate_name (system arg) in
  let hv_mem := hypervisor_memory arg in
  if negb (lock_acquired e) then Some (- EINTR, s) else
  if enabled s || negb (try_module_get_ok e) then Some (- EBUSY, s) else
  let s := set_module_refs (module_refs s + 1) s in
  match create_cell e config s with
  | (IS_ERR _, _) => None
  | (PTR root_cell, s) =>
    if negb (request_firmware_err e =? 0)
    then Some (request_firmware_err e, error_free_cell root_cell s) else
    let header := hypervisor e in
    if negb (fw_signature_ok header)
    then Some (- EINVAL, error_release_fw root_cell s) else
    let s := set_hv_core_percpu_size
               (ulong (PAGE_ALIGN (core_size header) +
                       ulong (num_possible_cpus e * percpu_size header))) s in
    let config_size := system_config_size arg in
    if mem_size hv_mem <=? ulong (hv_core_percpu_size s + config_size)
    then Some (- EINVAL, error_release_fw root_cell s) else
    let (p, s) := jailhouse_ioremap (ioremap_addr e) (ioremap_range_err e)
                                    (phys_start hv_mem) (mem_size hv_mem) s in
    let s := set_hypervisor_mem p s in
    if p =? 0 then Some (- EINVAL, error_release_fw root_cell s) else
    let copy := EvMemcpy 0 (fw_size header) in
    let fill := EvMemset (fw_size header)
                         (ulong (mem_size hv_mem - fw_size header)) in
    if negb (write_within (mem_size hv_mem) copy &&
             write_within (mem_size hv_mem) fill) then None else
    let s := log_event copy s in
    let s := log_event fill s in
    let config_copy := EvCopyFromUser (hv_core_percpu_size s) config_size in
    if negb (write_within (mem_size hv_mem) config_copy) then None else
    let s := log_event config_copy s in
    if negb (system_config_readable arg)
    then Some (- EFAULT, error_unmap root_cell s) else
    let s := set_error_code 0 s in
    match on_each_cpu (enter_hypervisor header) (barrier_order e) s with
    | None => None
    | Some s =>
      if negb (error_code s =? 0)
      then Some (error_code s, error_unmap root_cell s) else
      let s := set_enabled true s in
      let s := register_cell (mkCell (kobject_name root_cell) 0) s in
      Some (0, s)
    end
  end.

(** ** Disabling the hypervisor *)

(** leave_hypervisor.  The loop that touches the pages counts an unsigned
    long down from hv_core_percpu_size in steps of PAGE_SIZE until it is 0:
    it ends only when the size is a multiple of PAGE_SIZE. *)
Definition leave_hypervisor (e : env) (cpu : N) (s : state) : option state :=
  if negb (hv_core_percpu_size s mod PAGE_SIZE =? 0) then None else
  let err := hc_disable_res e cpu in
  let s1 := log_event (EvLeave cpu err) s in
  Some (if negb (err =? 0) then set_error_code err s1 else s1).

(** The body of the loop over offlined_cpus in jailhouse_disable. *)
Definition disable_cpu_up (e : env) (s : state) (cpu : N) : state :=
  let (_, s1) := cpu_up e cpu s in
  set_offlined_cpus (cpu_clear cpu (offlined_cpus s1)) s1.

Definition jailhouse_disable (e : env) (s : state) : option (Z * state) :=
  if negb (lock_acquired e) then Some (- EINTR, s) else
  if negb (enabled s) then Some (- EINVAL, s) else
  let s := set_error_code 0 s in
  match on_each_cpu (leave_hypervisor e) (barrier_order e) s with
  | None => None
  | Some s =>
    let err := error_code s in
    if negb (err =? 0) then Some (err, s) else
    let s := vunmap (hypervisor_mem s) s in
    let s := fold_left (disable_cpu_up e) (cpumask_list (offlined_cpus s)) s in
    let s := fold_left (fun s c => delete_cell c s) (cells s) s in
    let s := set_enabled false s in
    let s := module_put s in
    Some (err, s)
  end.

(** ** Creating a cell *)

Record jailhouse_preload_image := mkImage {
  source_address : Z;
  image_size : Z;
  target_address : Z
}.

(** One entry of [arg->image] as the user process presents it, with what the
    kernel answers while it is loaded. *)
Record user_image := mkUserImage {
  image_readable : bool;       (* copy_from_user(&image, uimage, ...) succeeds *)
  image : jailhouse_preload_image;
  image_area : Z;              (* the area __get_vm_area hands out; 0 when it fails *)
  image_range_err : Z;         (* ioremap_page_range on that area *)
  payload_readable : bool      (* the copy of the payload succeeds *)
}.

(** The argument of JAILHOUSE_CELL_CREATE. *)
Record jailhouse_new_cell := mkNewCell {
  new_cell_readable : bool;    (* copy_from_user(&cell_params, arg, ...) succeeds *)
  new_config_readable : bool;  (* the copy of the configuration succeeds *)
  new_config : jailhouse_cell_desc;
  preload_images : list user_image    (* num_preload_images entries *)
}.

(** The region loop of load_image: the first region that contains the
    target address; [None] is the return of -EINVAL (no region, or the image
    does not fit the region found). *)
Fixpoint image_region (img : jailhouse_preload_image)
         (mem : list jailhouse_memory) : option (jailhouse_memory * Z) :=
  match mem with
  | [] => None
  | m :: rest =>
      let image_offset := ulong (target_address img - virt_start m) in
      if (virt_start m <=? target_address img) && (image_offset <? mem_size m)
      then if mem_size m - image_offset <? image_size img
           then None
           else Some (m, image_offset)
      else image_region img rest
  end.

Definition load_image (config : jailhouse_cell_desc) (uimage : user_image)
           (s : state) : Z * state :=
  if negb (image_readable uimage) then (- EFAULT, s) else
  let img := image uimage in
  match image_region img (mem_regions config) with
  | None => (- EINVAL, s)
  | Some (m, image_offset) =>
      let (image_mem, s) :=
        jailhouse_ioremap (image_area uimage) (image_range_err uimage)
                          (ulong (phys_start m + image_offset))
                          (image_size img) s in
      if image_mem =? 0 then (- EBUSY, s) else
      let s := log_event (EvCopyImage image_mem (source_address img)
                                      (image_size img)) s in
      let err := if negb (payload_readable uimage) then - EFAULT else 0 in
      (err, vunmap image_mem s)
  end.

(** How a loop with a [goto] in its body ends: it runs to its end, or it
    jumps to the label; the value is [err] at that point. *)
Inductive loop_exit :=
| Fallthrough (err : Z)
| Jump (err : Z).

(** The loop over the preload images; a failed image jumps to unlock_out. *)
Fixpoint load_images (config : jailhouse_cell_desc) (images : list user_image)
         (err : Z) (s : state) : loop_exit * state :=
  match images with
  | [] => (Fallthrough err, s)
  | uimage :: rest =>
      let (err1, s1) := load_image config uimage s in
      if negb (err1 =? 0) then (Jump err1, s1)
      else load_images config rest err1 s1
  end.

(** The first for_each_cell_cpu loop: every CPU of the set that is online is
    taken down and recorded; a failure jumps to error_cpu_online. *)
Fixpoint offline_cell_cpus (e : env) (cpus : list N) (err : Z) (s : state)
  : loop_exit * state :=
  match cpus with
  | [] => (Fallthrough err, s)
  | cpu :: rest =>
      if cpu_online cpu s then
        let (err1, s1) := cpu_down e cpu s in
        if negb (err1 =? 0) then (Jump err1, s1)
        else offline_cell_cpus e rest err1
               (set_offlined_cpus (cpu_set cpu (offlined_cpus s1)) s1)
      else offline_cell_cpus e rest err s
  end.

(** The body of the loop at error_cpu_online. *)
Definition rollback_cpu_up (e : env) (s : state) (cpu : N) : state :=
  if negb (cpu_online cpu s) then
    let (r, s1) := cpu_up e cpu s in
    if r =? 0 then set_offlined_cpus (cpu_clear cpu (offlined_cpus s1)) s1
    else s1
  else s.

Definition error_cpu_online (e : env) (config : jailhouse_cell_desc)
           (c : cell) (s : state) : state :=
  kobject_put (kobject_name c)
              (fold_left (rollback_cpu_up e) (for_each_cell_cpu config) s).

(** jailhouse_cell_create.  [err] is declared without a value: it starts as
    [stack_garbage e]. *)
Definition jailhouse_cell_create (e : env) (arg : jailhouse_new_cell)
           (s : state) : Z * state :=
  if negb (new_cell_readable arg) then (- EFAULT, s) else
  if negb (kmalloc_ok e) then (- ENOMEM, s) else
  if negb (new_config_readable arg) then (- EFAULT, s) else
  let config := terminate_name (new_config arg) in
  if negb (lock_acquired e) then (- EINTR, s) else
  if negb (enabled s) then (- EINVAL, s) else
  match find_cell config s with
  | Some _ => (- EEXIST, s)
  | None =>
    match load_images config (preload_images arg) (stack_garbage e) s with
    | (Jump err, s) => (err, s)
    | (Fallthrough err, s) =>
      match create_cell e config s with
      | (IS_ERR err, s) => (err, s)
      | (PTR c, s) =>
        match offline_cell_cpus e (for_each_cell_cpu config) err s with
        | (Jump err, s) => (err, error_cpu_online e config c s)
        | (Fallthrough err, s) =>
          let (id, s) :=
            jailhouse_call1 e JAILHOUSE_HC_CELL_CREATE (config_pa e) s in
          if id <? 0 then (id, error_cpu_online e config c s)
          else (err, register_cell (mkCell (kobject_name c) id) s)
        end
      end
    end
  end.

(** ** Destroying a cell *)

(** The argument of JAILHOUSE_CELL_DESTROY. *)
Record jailhouse_cell := mkCellArg {
  cell_readable : bool;        (* copy_from_user(&cell_params, arg, ...) succeeds *)
  cell_config_readable : bool; (* the copy of the configuration succeeds *)
  cell_config : jailhouse_cell_desc
}.

(** The body of the for_each_cell_cpu loop of jailhouse_cell_destroy. *)
Definition destroy_cpu_up (e : env) (s : state) (cpu : N) : state :=
  if cpu_isset cpu (offlined_cpus s) then
    let (_, s1) := cpu_up e cpu s in
    set_offlined_cpus (cpu_clear cpu (offlined_cpus s1)) s1
  else s.

Definition jailhouse_cell_destroy (e : env) (arg : jailhouse_cell) (s : state)
  : Z * state :=
  if negb (cell_readable arg) then (- EFAULT, s) else
  if negb (kmalloc_ok e) then (- ENOMEM, s) else
  if negb (cell_config_readable arg) then (- EFAULT, s) else
  let config := terminate_name (cell_config arg) in
  if negb (lock_acquired e) then (- EINTR, s) else
  if negb (enabled s) then (- EINVAL, s) else
  match find_cell config s with
  | None => (- ENOENT, s)
  | Some c =>
    let (err, s) := jailhouse_call1 e JAILHOUSE_HC_CELL_DESTROY (id c) s in
    if negb (err =? 0) then (err, s) else
    let s := delete_cell c s in
    (err, fold_left (destroy_cpu_up e) (for_each_cell_cpu config) s)
  end.

(** ** The ioctl surface *)



(** ** Who owns which CPUs

    struct cell records a name and an id and nothing else: the driver keeps
    no CPU set per cell.  The CPU set of a cell is the one of the
    configuration it was created with; the list below follows the
    non-root cells through a run of create and destroy calls, each with
    that CPU set, in the order of the cell list. *)

Definition owner := (cell * list N)%type.

(** The entry of the cell leaves the list with the cell: the first entry
    that delete_cell's list_del would meet. *)
Fixpoint forget_owner (c : cell) (os : list owner) : list owner :=
  match os with
  | [] => []
  | o :: os' => if cell_eqb c (fst o) then os' else o :: forget_owner c os'
  end.

(** The CPU set the cell was created with. *)
Fixpoint owner_cpus (c : cell) (os : list owner) : option (list N) :=
  match os with
  | [] => None
  | o :: os' => if cell_eqb c (fst o) then Some (snd o) else owner_cpus c os'
  end.

(** The cell a successful create registers, with the CPU set of its
    configuration. *)
Definition owner_of (e : env) (config : jailhouse_cell_desc) : owner :=
  (mkCell (kobject_set_name (c_string (name (terminate_name config))))
          (hc_res e JAILHOUSE_HC_CELL_CREATE (config_pa e)),
   for_each_cell_cpu config).

(** The CPUs owned by the cells of the list. *)
Definition owned (os : list owner) (cpu : N) : Prop :=
  exists o, In o os /\ In cpu (snd o).

(** One call of a run, with what the kernel and the hypervisor answer
    during it. *)
Inductive cell_call :=
| Create (e : env) (arg : jailhouse_new_cell)
| Destroy (e : env) (arg : jailhouse_cell).

(** A run of create and destroy calls that all return 0, each create
    claiming only CPUs that are online when it is called, each destroy
    naming a registered cell other than the root cell (the first of the
    list) and presenting the CPU set that cell was created with. *)
Inductive matched_run : state -> list owner -> list cell_call ->
                        state -> list owner -> Prop :=
| run_nil s os : matched_run s os [] s os
| run_create s os e arg s1 calls s2 os2 :
    jailhouse_cell_create e arg s = (0, s1) ->
    (forall cpu, In cpu (for_each_cell_cpu (new_config arg)) ->
                 cpu_online cpu s = true) ->
    matched_run s1 (os ++ [owner_of e (new_config arg)]) calls s2 os2 ->
    matched_run s os (Create e arg :: calls) s2 os2
| run_destroy s os e arg c s1 calls s2 os2 :
    jailhouse_cell_destroy e arg s = (0, s1) ->
    find_cell (terminate_name (cell_config arg)) s = Some c ->
    hd_error (cells s) <> Some c ->
    owner_cpus c os = Some (for_each_cell_cpu (cell_config arg)) ->
    matched_run s1 (forget_owner c os) calls s2 os2 ->
    matched_run s os (Destroy e arg :: calls) s2 os2.

(** What the run starts from: the root cell first in the list, the other
    cells those of the owner list, the recorded CPUs those the owners
    claimed, none of them online, no CPU claimed twice. *)
Inductive pairwise_disjoint : list owner -> Prop :=
| disjoint_nil : pairwise_disjoint []
| disjoint_cons o os :
    (forall cpu, In cpu (snd o) -> ~ owned os cpu) ->
    pairwise_disjoint os ->
    pairwise_disjoint (o :: os).

Record conserved (s : state) (os : list owner) : Prop := mkConserved {
  cons_root : exists root others,
      cells s = root :: others /\ map fst os = others;
  cons_tracked : forall cpu,
      cpu_isset cpu (offlined_cpus s) = true <-> owned os cpu;
  cons_offline : forall cpu,
      cpu_isset cpu (offlined_cpus s) = true -> cpu_online cpu s = false;
  cons_disjoint : pairwise_disjoint os
}.

(** ** Concrete inputs *)

(** A name array of 32 bytes holding the given characters. *)
Definition name_array (chars : list byte) : list byte :=
  chars ++ repeat x00 (32 - length chars).

(** A configuration with one byte of CPU bitmap and no memory region. *)
Definition small_config (chars : list byte) (cpus : N) : jailhouse_cell_desc :=
  mkCellDesc (name_array chars) 1 cpus [].

Definition good_firmware : firmware :=
  mkFirmware 8192 true 8192 4096 (fun _ => 0).

(** Four CPUs, every kernel service succeeds, the hypervisor accepts. *)
Definition kind_env : env :=
  mkEnv true true true 0 true 0 good_firmware 4026531840 0 4
        [0%N; 1%N; 2%N; 3%N]
        (fun _ => 0) (fun _ => 0) (fun _ => 0)
        (fun code _ => match code with
                       | JAILHOUSE_HC_CELL_CREATE => 1
                       | _ => 0
                       end)
        1048576 (- 22).

(** The state after module load, CPUs 0 to 7 online. *)
Definition loaded_state : state :=
  mkState false 0 0 0%N 0 [] 255%N [] [] 0 [].

Definition root_name : list byte := [x72; x6f; x6f; x74].

(** 64 MiB of reserved memory, the root cell on CPUs 0 to 7. *)
Definition demo_system : jailhouse_system :=
  mkSystem true true (mkMemory 1073741824 0 67108864)
           (small_config root_name 255) 4096.

Definition state_of (r : option (Z * state)) (default : state) : state :=
  match r with
  | Some (_, s) => s
  | None => default
  end.

(** After a successful enable. *)
Definition enabled_state : state :=
  Eval vm_compute in
    state_of (jailhouse_enable kind_env demo_system loaded_state) loaded_state.

Definition cell_A (cpus : N) : jailhouse_cell_desc := small_config [x41] cpus.
Definition cell_B (cpus : N) : jailhouse_cell_desc := small_config [x42] cpus.

(** After cell A was created on CPUs 2 and 3. *)
Definition state_with_A : state :=
  Eval vm_compute in
    snd (jailhouse_cell_create kind_env (mkNewCell true true (cell_A 12) [])
                               enabled_state).

(** The same surroundings with another value left on the stack. *)
Definition with_stack_garbage (g : Z) (e : env) : env :=
  mkEnv (lock_acquired e) (kmalloc_ok e) (kzalloc_ok e) (kobject_add_err e)
        (try_module_get_ok e) (request_firmware_err e) (hypervisor e)
        (ioremap_addr e) (ioremap_range_err e) (num_possible_cpus e)
        (barrier_order e)
        (cpu_down_res e) (cpu_up_res e) (hc_disable_res e) (hc_res e)
        (config_pa e) g.

(** The same surroundings with other answers of the hypervisor. *)
Definition with_hc_res (f : hypercall -> Z -> Z) (e : env) : env :=
  mkEnv (lock_acquired e) (kmalloc_ok e) (kzalloc_ok e) (kobject_add_err e)
        (try_module_get_ok e) (request_firmware_err e) (hypervisor e)
        (ioremap_addr e) (ioremap_range_err e) (num_possible_cpus e)
        (barrier_order e)
        (cpu_down_res e) (cpu_up_res e) (hc_disable_res e) f
        (config_pa e) (stack_garbage e).

(** The same surroundings with other answers of cpu_up. *)
Definition with_cpu_up_res (f : N -> Z) (e : env) : env :=
  mkEnv (lock_acquired e) (kmalloc_ok e) (kzalloc_ok e) (kobject_add_err e)
        (try_module_get_ok e) (request_firmware_err e) (hypervisor e)
        (ioremap_addr e) (ioremap_range_err e) (num_possible_cpus e)
        (barrier_order e)
        (cpu_down_res e) f (hc_disable_res e) (hc_res e)
        (config_pa e) (stack_garbage e).

(** The request reached the body of jailhouse_cell_create or
    jailhouse_cell_destroy: the argument and the configuration were read, the
    buffer was allocated, the lock was taken. *)
Definition create_delivered (e : env) (arg : jailhouse_new_cell) : bool :=
  new_cell_readable arg && kmalloc_ok e && new_config_readable arg &&
  lock_acquired e.

Definition destroy_delivered (e : env) (arg : jailhouse_cell) : bool :=
  cell_readable arg && kmalloc_ok e && cell_config_readable arg &&
  lock_acquired e.

(** ** The barrier *)

(** What [error_code] holds after the function ran on the CPUs in the given
    order, each CPU with a nonzero status writing it. *)
Definition barrier_result (status : N -> Z) (cpus : list N) (init : Z) : Z :=
  fold_left (fun acc cpu => if status cpu =? 0 then acc else status cpu)
            cpus init.

(** Two states that differ at most in [error_code] and in the log. *)
Record same_resources (s s1 : state) : Prop := mkSame {
  same_enabled : enabled s1 = enabled s;
  same_hypervisor_mem : hypervisor_mem s1 = hypervisor_mem s;
  same_hv_core_percpu_size : hv_core_percpu_size s1 = hv_core_percpu_size s;
  same_offlined_cpus : offlined_cpus s1 = offlined_cpus s;
  same_cells : cells s1 = cells s;
  same_cpu_online_mask : cpu_online_mask s1 = cpu_online_mask s;
  same_vm_areas : vm_areas s1 = vm_areas s;
  same_kobjects : kobjects s1 = kobjects s;
  same_module_refs : module_refs s1 = module_refs s
}.

(** The size jailhouse_enable compares the reserved region with. *)
Definition enable_needed (e : env) (arg : jailhouse_system) : Z :=
  ulong (ulong (PAGE_ALIGN (core_size (hypervisor e)) +
                ulong (num_possible_cpus e * percpu_size (hypervisor e))) +
         system_config_size arg).

(** jailhouse_enable gets as far as the size check: the argument was read,
    the lock taken, the system is disabled, the module reference, the root
    cell and the firmware were obtained and the signature matches. *)
Definition enable_reaches_check (e : env) (arg : jailhouse_system)
           (s : state) : bool :=
  system_readable arg && lock_acquired e && negb (enabled s) &&
  try_module_get_ok e && kzalloc_ok e && (kobject_add_err e =? 0) &&
  (request_firmware_err e =? 0) && fw_signature_ok (hypervisor e).

(** The three writes of jailhouse_enable into the mapping stay within the
    size of the region. *)
Definition enable_writes_fit (e : env) (arg : jailhouse_system) : bool :=
  let size := mem_size (hypervisor_memory arg) in
  write_within size (EvMemcpy 0 (fw_size (hypervisor e))) &&
  write_within size (EvMemset (fw_size (hypervisor e))
                              (ulong (size - fw_size (hypervisor e)))) &&
  write_within size
    (EvCopyFromUser
       (ulong (PAGE_ALIGN (core_size (hypervisor e)) +
               ulong (num_possible_cpus e * percpu_size (hypervisor e))))
       (system_config_size arg)).

(** jailhouse_enable gets as far as the barrier: it passes the size check,
    maps the region, writes the firmware and the configuration into it
    without leaving it, and the configuration was readable. *)
Definition enable_reaches_barrier (e : env) (arg : jailhouse_system)
           (s : state) : bool :=
  enable_reaches_check e arg s &&
  negb (mem_size (hypervisor_memory arg) <=? enable_needed e arg) &&
  negb (ioremap_addr e =? 0) && (ioremap_range_err e =? 0) &&
  enable_writes_fit e arg && system_config_readable arg.

(** The same surroundings with other answers at the barrier. *)
Definition with_barrier (enter leave : N -> Z) (e : env) : env :=
  mkEnv (lock_acquired e) (kmalloc_ok e) (kzalloc_ok e) (kobject_add_err e)
        (try_module_get_ok e) (request_firmware_err e)
        (mkFirmware (fw_size (hypervisor e)) (fw_signature_ok (hypervisor e))
                    (core_size (hypervisor e)) (percpu_size (hypervisor e))
                    enter)
        (ioremap_addr e) (ioremap_range_err e) (num_possible_cpus e)
        (barrier_order e)
        (cpu_down_res e) (cpu_up_res e) leave (hc_res e)
        (config_pa e) (stack_garbage e).

(** ** The size check of jailhouse_enable *)

(** The sizes are those of unsigned long values and the sum the check
    compares with is computed without wrapping around. *)
Definition enable_sizes_exact (e : env) (arg : jailhouse_system) : bool :=
  (0 <=? fw_size (hypervisor e)) && (0 <=? core_size (hypervisor e)) &&
  (0 <=? percpu_size (hypervisor e)) && (0 <=? num_possible_cpus e) &&
  (0 <=? system_config_size arg) &&
  (mem_size (hypervisor_memory arg) <? ULONG_MODULUS) &&
  (core_size (hypervisor e) + PAGE_SIZE - 1 <? ULONG_MODULUS) &&
  (PAGE_ALIGN (core_size (hypervisor e)) +
   num_possible_cpus e * percpu_size (hypervisor e) +
   system_config_size arg <? ULONG_MODULUS).

(** The same surroundings with another firmware file. *)
Definition with_firmware (fw : firmware) (e : env) : env :=
  mkEnv (lock_acquired e) (kmalloc_ok e) (kzalloc_ok e) (kobject_add_err e)
        (try_module_get_ok e) (request_firmware_err e) fw
        (ioremap_addr e) (ioremap_range_err e) (num_possible_cpus e)
        (barrier_order e)
        (cpu_down_res e) (cpu_up_res e) (hc_disable_res e) (hc_res e)
        (config_pa e) (stack_garbage e).

(** A firmware file of 16 KiB whose header declares a core of 4 KiB and no
    per-CPU state. *)
Definition long_firmware : firmware :=
  mkFirmware 16384 true 4096 0 (fun _ => 0).

(** 12 KiB of reserved memory and a configuration of 4 KiB. *)
Definition tight_system : jailhouse_system :=
  mkSystem true true (mkMemory 1073741824 0 12288)
           (small_config root_name 255) 4096.



(** ** Notions for the CPU loops *)

Definition cpu_in (cpu : N) (cpus : list N) : bool :=
  existsb (N.eqb cpu) cpus.

(** cpu_up was called on the CPU among the logged events. *)
Definition cpu_up_logged (cpu : N) (evs : list event) : bool :=
  existsb (fun ev => match ev with
                     | EvCpuUp c _ => (c =? cpu)%N
                     | _ => false
                     end) evs.

(** load_image returns 0 on the image: it is readable, a region holds it,
    the mapping and the copy of the payload succeed. *)
Definition image_loads (config : jailhouse_cell_desc) (uimage : user_image)
  : bool :=
  image_readable uimage &&
  match image_region (image uimage) (mem_regions config) with
  | None => false
  | Some _ => negb (image_area uimage =? 0) &&
              (image_range_err uimage =? 0) && payload_readable uimage
  end.

(** jailhouse_cell_create gets as far as the CPU loop: the request was
    delivered, the system is enabled, the name is free, the images loaded
    and the cell object was constructed. *)
Definition create_reaches_cpus (e : env) (arg : jailhouse_new_cell)
           (s : state) : bool :=
  create_delivered e arg && enabled s &&
  match find_cell (terminate_name (new_config arg)) s with
  | Some _ => false
  | None => true
  end &&
  forallb (image_loads (terminate_name (new_config arg))) (preload_images arg)
  && kzalloc_ok e && (kobject_add_err e =? 0).

(** Taking down one of the online CPUs of the list fails. *)
Definition withdrawal_fails (e : env) (cpus : list N) (s : state) : Prop :=
  exists cpu, In cpu cpus /\ cpu_online cpu s = true /\
              cpu_down_res e cpu <> 0.

(** The hypervisor rejects the cell; bringing CPU 1 back up fails. *)
Definition rejecting_env : env :=
  with_cpu_up_res (fun cpu => if (cpu =? 1)%N then - EBUSY else 0)
    (with_hc_res (fun _ _ => - EBUSY) kind_env).

(** Two states that differ at most in the online mask, in offlined_cpus and
    in the log. *)
Record same_but_cpus (s s1 : state) : Prop := mkSameButCpus {
  sbc_enabled : enabled s1 = enabled s;
  sbc_hypervisor_mem : hypervisor_mem s1 = hypervisor_mem s;
  sbc_hv_core_percpu_size : hv_core_percpu_size s1 = hv_core_percpu_size s;
  sbc_error_code : error_code s1 = error_code s;
  sbc_cells : cells s1 = cells s;
  sbc_vm_areas : vm_areas s1 = vm_areas s;
  sbc_kobjects : kobjects s1 = kobjects s;
  sbc_module_refs : module_refs s1 = module_refs s
}.

(** The enabled system after CPU 5 was taken offline by other means (it is
    in no cell's record). *)
Definition state_cpu5_offline : state :=
  set_cpu_online_mask 223%N enabled_state.

(** The numbers [start], [start + 1], ... ([len] of them). *)
Fixpoint N_seq (start : N) (len : nat) : list N :=
  match len with
  | O => []
  | S len' => start :: N_seq (start + 1)%N len'
  end.

(** ** Notions for the image loop *)









(** ** Runs of ioctls *)





(** A configuration whose name array holds 31 times the letter A and then
    the given byte: no NUL when that byte is none. *)
Definition long_name_cell (last_byte : byte) : jailhouse_cell_desc :=
  mkCellDesc (repeat x41 31 ++ [last_byte]) 1 12 [].

(** ** The reboot notifier *)

Definition NOTIFY_DONE : Z := 0.

(** jailhouse_shutdown_notify: the return value, whether the emergency
    message was printed, and the state jailhouse_disable left. *)
Definition jailhouse_shutdown_notify (e : env) (s : state)
  : option (Z * bool * state) :=
  match jailhouse_disable e s with
  | None => None
  | Some (err, s1) =>
      Some (NOTIFY_DONE, negb (err =? 0) && negb (err =? - EINVAL), s1)
  end.

(** ** Loading and unloading the module *)

(** What the module registers with the kernel. *)
Inductive registration :=
| RootDevice
| AttributeGroup
| CellsDir
| MiscDevice
| RebootNotifier.

Definition registration_eqb (a b : registration) : bool :=
  match a, b with
  | RootDevice, RootDevice
  | AttributeGroup, AttributeGroup
  | CellsDir, CellsDir
  | MiscDevice, MiscDevice
  | RebootNotifier, RebootNotifier => true
  | _, _ => false
  end.

(** The answers of the kernel to jailhouse_init. *)
Record init_env := mkInitEnv {
  root_device_register_res : ptr_or_err Z;
  sysfs_create_group_err : Z;
  kobject_create_and_add_ok : bool;
  misc_register_err : Z
}.

Definition unregister (r : registration) (regs : list registration)
  : list registration :=
  remove_first registration_eqb r regs.

(** The exit labels of jailhouse_init, each falling through to the next. *)
Definition unreg_dev (regs : list registration) : list registration :=
  unregister RootDevice regs.

Definition remove_attrs (regs : list registration) : list registration :=
  unreg_dev (unregister AttributeGroup regs).

Definition remove_cells_dir (regs : list registration) : list registration :=
  remove_attrs (unregister CellsDir regs).

Definition jailhouse_init (ie : init_env) (regs : list registration)
  : Z * list registration :=
  match root_device_register_res ie with
  | IS_ERR err => (err, regs)
  | PTR _ =>
    let regs := RootDevice :: regs in
    let err := sysfs_create_group_err ie in
    if negb (err =? 0) then (err, unreg_dev regs) else
    let regs := AttributeGroup :: regs in
    if negb (kobject_create_and_add_ok ie)
    then (- ENOMEM, remove_attrs regs) else
    let regs := CellsDir :: regs in
    let err := misc_register_err ie in
    if negb (err =? 0) then (err, remove_cells_dir regs) else
    let regs := MiscDevice :: regs in
    let regs := RebootNotifier :: regs in
    (0, regs)
  end.

Definition jailhouse_exit (regs : list registration) : list registration :=
  let regs := unregister RebootNotifier regs in
  let regs := unregister MiscDevice regs in
  let regs := unregister CellsDir regs in
  let regs := unregister AttributeGroup regs in
  unregister RootDevice regs.

(** Every registration succeeds. *)
Definition kind_init_env : init_env := mkInitEnv (PTR 1) 0 true 0.

(** The hypervisor answers the disable hypercall of CPU 1 with -EINVAL. *)
Definition leave_invalid_on_1 (cpu : N) : Z :=
  if (cpu =? 1)%N then - EINVAL else 0.


(** A firmware whose header declares 1000 bytes of per-CPU state. *)
Definition odd_firmware : firmware :=
  mkFirmware 8192 true 8192 1000 (fun _ => 0).

(** No character of the name is a '/'. *)
Definition slash_free (n : list byte) : bool :=
  forallb (fun b => negb (Byte.eqb b x2f)) n.





(** * Properties *)

(** ** Strings and lookups *)

Lemma to_N_nul (b : byte) : is_nul b = false -> Byte.to_N b <> 0%N.
Proof.
  intros Hb Hz. unfold is_nul in Hb. apply Byte.eqb_false in Hb. apply Hb.
  assert (Hs : Byte.of_N (Byte.to_N b) = Byte.of_N (Byte.to_N x00))
    by (rewrite Hz; reflexivity).
  rewrite !Byte.of_to_N in Hs. congruence.
Qed.

Lemma to_N_differ (x y : byte) : Byte.eqb x y = false ->
  Z.of_N (Byte.to_N x) - Z.of_N (Byte.to_N y) <> 0.
Proof.
  intros Hxy Hz. apply Byte.eqb_false in Hxy. apply Hxy.
  assert (Hn : Byte.to_N x = Byte.to_N y) by lia.
  assert (Hs : Byte.of_N (Byte.to_N x) = Byte.of_N (Byte.to_N y))
    by (rewrite Hn; reflexivity).
  rewrite !Byte.of_to_N in Hs. congruence.
Qed.

(** strcmp answers 0 exactly on strings with the same characters. *)
Lemma strcmp_zero (a b : list byte) :
  strcmp a b = 0 <-> c_string a = c_string b.
Proof.
  revert b. induction a as [|x a IH]; intros [|y b]; simpl.
  - tauto.
  - destruct (is_nul y) eqn:Hy; [tauto|].
    apply to_N_nul in Hy. split; [lia | discriminate].
  - destruct (is_nul x) eqn:Hx; [tauto|].
    apply to_N_nul in Hx. split; [lia | discriminate].
  - destruct (Byte.eqb x y) eqn:Hxy.
    + apply Byte.byte_dec_bl in Hxy. subst y.
      destruct (is_nul x); [tauto|].
      rewrite IH. split; [congruence | intros H; injection H; auto].
    + split.
      * intros H. exfalso. exact (to_N_differ _ _ Hxy H).
      * intros H. exfalso. apply Byte.eqb_false in Hxy. apply Hxy.
        destruct (is_nul x) eqn:Hx, (is_nul y) eqn:Hy; try discriminate.
        -- unfold is_nul in Hx, Hy.
           apply Byte.byte_dec_bl in Hx, Hy. congruence.
        -- congruence.
Qed.

Lemma c_string_idem (a : list byte) : c_string (c_string a) = c_string a.
Proof.
  induction a as [|x a IH]; simpl; [reflexivity|].
  destruct (is_nul x) eqn:Hx; simpl; [reflexivity|].
  rewrite Hx, IH. reflexivity.
Qed.

(** Replacing '/' by '!' neither adds nor removes a NUL. *)
Lemma c_string_set_name (a : list byte) :
  c_string (kobject_set_name a) = kobject_set_name (c_string a).
Proof.
  induction a as [|x a IH]; simpl; [reflexivity|].
  destruct (Byte.eqb x x2f) eqn:Hx.
  - apply Byte.byte_dec_bl in Hx. subst x. simpl. rewrite IH. reflexivity.
  - destruct (is_nul x); simpl; [reflexivity|].
    rewrite Hx, IH. reflexivity.
Qed.

(** The name of a kobject holds no NUL. *)
Lemma kobject_name_plain (a : list byte) :
  c_string (kobject_set_name (c_string a)) = kobject_set_name (c_string a).
Proof. rewrite c_string_set_name, c_string_idem. reflexivity. Qed.

(** A name is kept as it is exactly when it holds no '/'. *)
Lemma kobject_set_name_same (a : list byte) :
  kobject_set_name a = a <-> slash_free a = true.
Proof.
  induction a as [|x a IH]; simpl; [tauto|].
  destruct (Byte.eqb x x2f) eqn:Hx; simpl.
  - apply Byte.byte_dec_bl in Hx. subst x.
    split; [discriminate | discriminate].
  - rewrite <- IH. split; [intros H; injection H; auto | congruence].
Qed.

Lemma find_cell_some (config : jailhouse_cell_desc) (s : state) (c : cell) :
  In c (cells s) ->
  c_string (kobject_name c) = c_string (name config) ->
  exists c', find_cell config s = Some c'.
Proof.
  unfold find_cell. intros Hin Heq.
  destruct (find _ (cells s)) as [c'|] eqn:Hf; [eauto|].
  exfalso. apply (find_none _ _ Hf) in Hin.
  apply strcmp_zero in Heq. rewrite Heq in Hin. discriminate.
Qed.

Lemma find_cell_none (config : jailhouse_cell_desc) (s : state) :
  (forall c, In c (cells s) ->
             c_string (kobject_name c) <> c_string (name config)) ->
  find_cell config s = None.
Proof.
  unfold find_cell. intros Hall.
  destruct (find _ (cells s)) as [c'|] eqn:Hf; [|reflexivity].
  exfalso. apply find_some in Hf. destruct Hf as [Hin Hz].
  apply (Hall _ Hin). apply strcmp_zero. lia.
Qed.

(** ** Enable on an enabled system (C6) *)

(** A return of 0 from jailhouse_enable leaves the system enabled. *)
Lemma enable_zero_enabled (e : env) (arg : jailhouse_system) (s s1 : state) :
  jailhouse_enable e arg s = Some (0, s1) -> enabled s1 = true.
Proof.
  unfold jailhouse_enable, EFAULT, EINTR, EBUSY, EINVAL.
  repeat match goal with
  | |- context [if ?b then _ else _] =>
      let H := fresh "Hc" in destruct b eqn:H
  | |- context [match create_cell ?a ?b ?c with _ => _ end] =>
      destruct (create_cell a b c) as [[?|?] ?]
  | |- context [let (_, _) := jailhouse_ioremap ?a ?r ?b ?c ?d in _] =>
      destruct (jailhouse_ioremap a r b c d) as [? ?]
  | |- context [match on_each_cpu ?a ?b ?c with _ => _ end] =>
      destruct (on_each_cpu a b c)
  end; intros H; try discriminate; inversion H; subst;
    try reflexivity; try lia;
    match goal with
    | Hn : negb (_ =? 0) = true |- _ =>
        apply Bool.negb_true_iff in Hn; apply Z.eqb_neq in Hn; congruence
    end.
Qed.

(** C6: on an enabled system jailhouse_enable changes nothing, whatever the
    argument and the surroundings, and once the argument was read and the
    lock taken its result is -EBUSY. *)
Theorem enable_twice_busy (e : env) (arg : jailhouse_system) (s : state) :
  enabled s = true ->
  (exists r, jailhouse_enable e arg s = Some (r, s) /\ r <> 0) /\
  (system_readable arg = true -> lock_acquired e = true ->
   jailhouse_enable e arg s = Some (- EBUSY, s)).
Proof.
  intros Hen. unfold jailhouse_enable. rewrite Hen. simpl. split.
  - destruct (system_readable arg); simpl.
    + destruct (lock_acquired e); simpl; eexists; split;
        try reflexivity; unfold EBUSY, EINTR; lia.
    + eexists; split; [reflexivity | unfold EFAULT; lia].
  - intros -> ->. reflexivity.
Qed.

Lemma enable_twice_busy_witness :
  enabled enabled_state = true /\
  jailhouse_enable kind_env demo_system enabled_state
  = Some (- EBUSY, enabled_state).
Proof.
  split; [reflexivity|].
  apply (enable_twice_busy kind_env demo_system enabled_state);
    reflexivity.
Defined.

(** ** The CPUs of a configuration *)

Lemma for_each_cell_cpu_from_name (fuel : nat) (cpu : N)
      (config : jailhouse_cell_desc) :
  for_each_cell_cpu_from fuel cpu (terminate_name config)
  = for_each_cell_cpu_from fuel cpu config.
Proof.
  revert cpu. induction fuel as [|fuel IH]; intros cpu; simpl; [reflexivity|].
  change (cell_cpumask_next (int_of_uint cpu) (terminate_name config))
    with (cell_cpumask_next (int_of_uint cpu) config).
  change (cpu_set_bits (terminate_name config)) with (cpu_set_bits config).
  rewrite IH. reflexivity.
Qed.

(** Terminating the name leaves the CPU set alone. *)
Lemma for_each_cell_cpu_name (config : jailhouse_cell_desc) :
  for_each_cell_cpu (terminate_name config) = for_each_cell_cpu config.
Proof. unfold for_each_cell_cpu. apply for_each_cell_cpu_from_name. Qed.

(** ** Name conflict (C7) *)

Lemma delivered_create (e : env) (arg : jailhouse_new_cell) :
  create_delivered e arg = true ->
  new_cell_readable arg = true /\ kmalloc_ok e = true /\
  new_config_readable arg = true /\ lock_acquired e = true.
Proof.
  unfold create_delivered. intros H.
  repeat (apply Bool.andb_true_iff in H; destruct H as [H ?]). auto.
Qed.

Lemma delivered_destroy (e : env) (arg : jailhouse_cell) :
  destroy_delivered e arg = true ->
  cell_readable arg = true /\ kmalloc_ok e = true /\
  cell_config_readable arg = true /\ lock_acquired e = true.
Proof.
  unfold destroy_delivered. intros H.
  repeat (apply Bool.andb_true_iff in H; destruct H as [H ?]). auto.
Qed.

(** C7: when the terminated name of the configuration is the name of a cell
    of the list, jailhouse_cell_create returns -EEXIST and the state is the
    one before the call, log included: no cpu_down, no hypercall, no cell
    added. *)
Theorem create_name_conflict (e : env) (arg : jailhouse_new_cell) (s : state)
        (c : cell) :
  create_delivered e arg = true ->
  enabled s = true ->
  In c (cells s) ->
  c_string (kobject_name c)
  = c_string (name (terminate_name (new_config arg))) ->
  jailhouse_cell_create e arg s = (- EEXIST, s).
Proof.
  intros Hd Hen Hin Hname.
  destruct (delivered_create _ _ Hd) as (H1 & H2 & H3 & H4).
  destruct (find_cell_some _ _ _ Hin Hname) as [c' Hf].
  unfold jailhouse_cell_create. rewrite H1, H2, H3, H4, Hen, Hf. reflexivity.
Qed.

Lemma create_name_conflict_witness :
  jailhouse_cell_create kind_env (mkNewCell true true (cell_A 3) [])
                        state_with_A
  = (- EEXIST, state_with_A).
Proof.
  apply (create_name_conflict kind_env (mkNewCell true true (cell_A 3) [])
                              state_with_A (mkCell [x41] 1));
    [reflexivity | reflexivity | | reflexivity].
  right. left. reflexivity.
Defined.

(** ** Destroy: unknown name, rejected by the hypervisor (C9) *)

(** C9: on an enabled system jailhouse_cell_destroy returns -ENOENT and
    leaves the state as it was when no cell of the list has the name; and
    when the hypervisor answers the destroy hypercall with a nonzero value,
    that value is returned and the state differs from the one before the
    call by the logged hypercall alone: the cell is in the list, its kobject
    exists, offlined_cpus and the online mask are untouched. *)
Theorem destroy_not_found_or_rejected (e : env) (arg : jailhouse_cell)
        (s : state) :
  destroy_delivered e arg = true ->
  enabled s = true ->
  ((forall c, In c (cells s) ->
              c_string (kobject_name c)
              <> c_string (name (terminate_name (cell_config arg)))) ->
   jailhouse_cell_destroy e arg s = (- ENOENT, s)) /\
  (forall c,
      find_cell (terminate_name (cell_config arg)) s = Some c ->
      hc_res e JAILHOUSE_HC_CELL_DESTROY (id c) <> 0 ->
      exists s1,
        jailhouse_cell_destroy e arg s
        = (hc_res e JAILHOUSE_HC_CELL_DESTROY (id c), s1) /\
        s1 = log_event (EvHypercall JAILHOUSE_HC_CELL_DESTROY (id c)
                          (hc_res e JAILHOUSE_HC_CELL_DESTROY (id c))) s /\
        In c (cells s1) /\ cells s1 = cells s /\
        kobjects s1 = kobjects s /\
        offlined_cpus s1 = offlined_cpus s /\
        cpu_online_mask s1 = cpu_online_mask s /\
        enabled s1 = true).
Proof.
  intros Hd Hen.
  destruct (delivered_destroy _ _ Hd) as (H1 & H2 & H3 & H4).
  split.
  - intros Hnone. apply find_cell_none in Hnone.
    unfold jailhouse_cell_destroy. rewrite H1, H2, H3, H4, Hen, Hnone.
    reflexivity.
  - intros c Hf Hrej.
    unfold jailhouse_cell_destroy. rewrite H1, H2, H3, H4, Hen, Hf. simpl.
    apply Z.eqb_neq in Hrej. rewrite Hrej. simpl.
    eexists. split; [reflexivity|]. split; [reflexivity|]. simpl.
    repeat split; auto.
    unfold find_cell in Hf. apply find_some in Hf. tauto.
Qed.

Lemma destroy_not_found_or_rejected_witness :
  jailhouse_cell_destroy kind_env (mkCellArg true true (cell_B 12))
                         state_with_A
  = (- ENOENT, state_with_A) /\
  fst (jailhouse_cell_destroy
         (with_hc_res (fun _ _ => - EBUSY) kind_env)
         (mkCellArg true true (cell_A 12)) state_with_A)
  = - EBUSY.
Proof.
  split.
  - apply (destroy_not_found_or_rejected kind_env
             (mkCellArg true true (cell_B 12)) state_with_A);
      [reflexivity | reflexivity |].
    intros c [<-|[<-|[]]]; simpl; discriminate.
  - destruct (destroy_not_found_or_rejected
                (with_hc_res (fun _ _ => - EBUSY) kind_env)
                (mkCellArg true true (cell_A 12)) state_with_A
                eq_refl eq_refl) as [_ Hrej].
    destruct (Hrej (mkCell [x41] 1) eq_refl) as (s1 & Hcall & _).
    + unfold EBUSY. simpl. lia.
    + rewrite Hcall. reflexivity.
Defined.

(** ** The status of a successful create (C4) *)

Lemma offline_cell_cpus_none_online (e : env) (cpus : list N) (err : Z)
      (s : state) :
  (forall cpu, In cpu cpus -> cpu_online cpu s = false) ->
  offline_cell_cpus e cpus err s = (Fallthrough err, s).
Proof.
  induction cpus as [|cpu cpus IH]; intros Hoff; simpl; [reflexivity|].
  rewrite (Hoff cpu (or_introl eq_refl)).
  apply IH. intros c Hc. apply Hoff. right. exact Hc.
Qed.

(** C4 on the code: a create without preload images whose CPU set holds no
    online CPU assigns nothing to [err]; when the hypervisor accepts the
    cell, the cell is registered and the call returns what the stack held. *)
Theorem create_returns_unassigned_err (e : env) (arg : jailhouse_new_cell)
        (s : state) :
  create_delivered e arg = true ->
  enabled s = true ->
  find_cell (terminate_name (new_config arg)) s = None ->
  preload_images arg = [] ->
  kzalloc_ok e = true ->
  kobject_add_err e = 0 ->
  (forall cpu, In cpu (for_each_cell_cpu (new_config arg)) ->
               cpu_online cpu s = false) ->
  0 <= hc_res e JAILHOUSE_HC_CELL_CREATE (config_pa e) ->
  exists s1,
    jailhouse_cell_create e arg s = (stack_garbage e, s1) /\
    cells s1
    = cells s ++ [mkCell
        (kobject_set_name (c_string (name (terminate_name (new_config arg)))))
        (hc_res e JAILHOUSE_HC_CELL_CREATE (config_pa e))].
Proof.
  intros Hd Hen Hfree Himg Hkz Hko Hoff Hacc.
  destruct (delivered_create _ _ Hd) as (H1 & H2 & H3 & H4).
  unfold jailhouse_cell_create.
  rewrite H1, H2, H3, H4, Hen, Hfree, Himg. simpl.
  unfold create_cell. rewrite Hkz, Hko. simpl.
  rewrite for_each_cell_cpu_name.
  rewrite offline_cell_cpus_none_online by exact Hoff.
  simpl. apply Z.ltb_ge in Hacc. rewrite Hacc.
  eexists. split; reflexivity.
Qed.

Lemma create_returns_unassigned_err_witness :
  exists s1,
    jailhouse_cell_create kind_env (mkNewCell true true (cell_B 0) [])
                          enabled_state
    = (- 22, s1) /\
    cells s1 = cells enabled_state ++ [mkCell [x42] 1].
Proof.
  apply (create_returns_unassigned_err kind_env
           (mkNewCell true true (cell_B 0) []) enabled_state);
    try reflexivity.
  - intros cpu [].
  - simpl. lia.
Defined.

(** ** A failed barrier (C3) *)

Lemma same_resources_refl (s : state) : same_resources s s.
Proof. constructor; reflexivity. Qed.

Lemma same_resources_trans (s s1 s2 : state) :
  same_resources s s1 -> same_resources s1 s2 -> same_resources s s2.
Proof.
  intros [] []. constructor; congruence.
Qed.

(** [error_code] after the barrier: untouched when every CPU reported 0,
    otherwise the nonzero status of one of the CPUs. *)
Lemma barrier_result_cases (status : N -> Z) (cpus : list N) (init : Z) :
  (barrier_result status cpus init = init /\
   forall cpu, In cpu cpus -> status cpu = 0) \/
  (exists cpu, In cpu cpus /\ status cpu <> 0 /\
               barrier_result status cpus init = status cpu).
Proof.
  unfold barrier_result. revert init.
  induction cpus as [|c cpus IH]; intros init; simpl.
  - left. split; [reflexivity | intros cpu []].
  - destruct (IH (if status c =? 0 then init else status c))
      as [[Hres Hzero]|[cpu (Hin & Hnz & Hres)]].
    + destruct (status c =? 0) eqn:Hc.
      * left. split; [exact Hres|].
        intros cpu [<-|Hin]; [apply Z.eqb_eq; exact Hc | auto].
      * right. exists c. apply Z.eqb_neq in Hc. auto.
    + right. exists cpu. auto.
Qed.


(** The enter barrier changes [error_code] and the log only. *)
Lemma enter_barrier (header : firmware) (cpus : list N) (s : state) :
  exists s1,
    on_each_cpu (enter_hypervisor header) cpus s = Some s1 /\
    same_resources s s1 /\
    error_code s1 = barrier_result (entry header) cpus (error_code s).
Proof.
  revert s. induction cpus as [|c cpus IH]; intros s; simpl.
  - exists s. auto using same_resources_refl.
  - destruct (IH (if negb (entry header c =? 0)
                  then set_error_code (entry header c)
                         (log_event (EvEntry c (entry header c)) s)
                  else log_event (EvEntry c (entry header c)) s))
      as (s1 & Hrun & Hsame & Herr).
    exists s1. split; [exact Hrun|]. split.
    + eapply same_resources_trans; [|exact Hsame].
      destruct (entry header c =? 0); constructor; reflexivity.
    + rewrite Herr. unfold barrier_result. simpl.
      destruct (entry header c =? 0); reflexivity.
Qed.

(** The leave barrier, when the page-touching loops end, changes
    [error_code] and the log only. *)
Lemma leave_barrier (e : env) (cpus : list N) (s : state) :
  hv_core_percpu_size s mod PAGE_SIZE = 0 ->
  exists s1,
    on_each_cpu (leave_hypervisor e) cpus s = Some s1 /\
    same_resources s s1 /\
    error_code s1 = barrier_result (hc_disable_res e) cpus (error_code s).
Proof.
  revert s. induction cpus as [|c cpus IH]; intros s Hpages; simpl.
  - exists s. auto using same_resources_refl.
  - unfold leave_hypervisor at 1.
    rewrite Hpages. simpl.
    destruct (IH (if negb (hc_disable_res e c =? 0)
                  then set_error_code (hc_disable_res e c)
                         (log_event (EvLeave c (hc_disable_res e c)) s)
                  else log_event (EvLeave c (hc_disable_res e c)) s))
      as (s1 & Hrun & Hsame & Herr).
    { destruct (hc_disable_res e c =? 0); exact Hpages. }
    exists s1. split; [exact Hrun|]. split.
    + eapply same_resources_trans; [|exact Hsame].
      destruct (hc_disable_res e c =? 0); constructor; reflexivity.
    + rewrite Herr. unfold barrier_result. simpl.
      destruct (hc_disable_res e c =? 0); reflexivity.
Qed.

Lemma remove_first_head_Z (a : Z) (l : list Z) :
  remove_first Z.eqb a (a :: l) = l.
Proof. simpl. rewrite Z.eqb_refl. reflexivity. Qed.

Lemma list_byte_eqb_refl (a : list byte) : list_byte_eqb a a = true.
Proof.
  unfold list_byte_eqb. destruct (list_eq_dec Byte.byte_eq_dec a a);
    [reflexivity | congruence].
Qed.

Lemma list_byte_eqb_eq (a b : list byte) : list_byte_eqb a b = true <-> a = b.
Proof.
  unfold list_byte_eqb. destruct (list_eq_dec Byte.byte_eq_dec a b);
    split; intros; congruence.
Qed.

Lemma kobject_put_added (n : list byte) (s : state) :
  kobjects (kobject_put n (set_kobjects (n :: kobjects s) s)) = kobjects s.
Proof.
  unfold kobject_put. simpl. rewrite list_byte_eqb_refl. reflexivity.
Qed.

Lemma reaches_check (e : env) (arg : jailhouse_system) (s : state) :
  enable_reaches_check e arg s = true ->
  system_readable arg = true /\ lock_acquired e = true /\
  enabled s = false /\ try_module_get_ok e = true /\ kzalloc_ok e = true /\
  kobject_add_err e = 0 /\ request_firmware_err e = 0 /\
  fw_signature_ok (hypervisor e) = true.
Proof.
  unfold enable_reaches_check. intros H.
  repeat (apply Bool.andb_true_iff in H; destruct H as [H ?]).
  repeat match goal with
         | Hz : (_ =? 0) = true |- _ => apply Z.eqb_eq in Hz
         | Hn : negb _ = true |- _ => apply Bool.negb_true_iff in Hn
         end.
  auto 10.
Qed.

Lemma reaches_barrier (e : env) (arg : jailhouse_system) (s : state) :
  enable_reaches_barrier e arg s = true ->
  enable_reaches_check e arg s = true /\
  (mem_size (hypervisor_memory arg) <=? enable_needed e arg) = false /\
  (ioremap_addr e =? 0) = false /\ system_config_readable arg = true.
Proof.
  unfold enable_reaches_barrier. intros H.
  apply Bool.andb_true_iff in H. destruct H as [H Hcfg].
  apply Bool.andb_true_iff in H. destruct H as [H _].
  apply Bool.andb_true_iff in H. destruct H as [H _].
  apply Bool.andb_true_iff in H. destruct H as [H Hmap].
  apply Bool.andb_true_iff in H. destruct H as [H Hsz].
  apply Bool.negb_true_iff in Hmap, Hsz. auto.
Qed.

(** What reaching the barrier says of the mapping and of the writes. *)
Lemma reaches_barrier_writes (e : env) (arg : jailhouse_system) (s : state) :
  enable_reaches_barrier e arg s = true ->
  (ioremap_range_err e =? 0) = true /\
  write_within (mem_size (hypervisor_memory arg))
               (EvMemcpy 0 (fw_size (hypervisor e))) = true /\
  write_within (mem_size (hypervisor_memory arg))
               (EvMemset (fw_size (hypervisor e))
                         (ulong (mem_size (hypervisor_memory arg)
                                 - fw_size (hypervisor e)))) = true /\
  write_within (mem_size (hypervisor_memory arg))
    (EvCopyFromUser
       (ulong (PAGE_ALIGN (core_size (hypervisor e)) +
               ulong (num_possible_cpus e * percpu_size (hypervisor e))))
       (system_config_size arg)) = true.
Proof.
  unfold enable_reaches_barrier, enable_writes_fit. intros H.
  apply Bool.andb_true_iff in H. destruct H as [H _].
  apply Bool.andb_true_iff in H. destruct H as [H Hfit].
  apply Bool.andb_true_iff in H. destruct H as [_ Hrange].
  cbv zeta in Hfit.
  apply Bool.andb_true_iff in Hfit. destruct Hfit as [Hfit W3].
  apply Bool.andb_true_iff in Hfit. destruct Hfit as [W1 W2].
  auto.
Qed.




(** ** The size check of enable (C5) *)

Lemma ulong_small (z : Z) : 0 <= z < ULONG_MODULUS -> ulong z = z.
Proof. intros H. unfold ulong. apply Z.mod_small. exact H. Qed.

(** PAGE_ALIGN rounds up to the next multiple of PAGE_SIZE when the
    addition does not wrap. *)
Lemma PAGE_ALIGN_bounds (x : Z) :
  0 <= x -> x + PAGE_SIZE - 1 < ULONG_MODULUS ->
  x <= PAGE_ALIGN x <= x + PAGE_SIZE - 1 /\ PAGE_ALIGN x mod PAGE_SIZE = 0.
Proof.
  intros H0 Hhi. unfold PAGE_ALIGN, PAGE_MASK.
  rewrite ulong_small by (unfold PAGE_SIZE in *; lia).
  rewrite <- Z.ldiff_land.
  change (PAGE_SIZE - 1) with (Z.ones 12).
  rewrite Z.ldiff_ones_r by lia.
  rewrite Z.shiftr_div_pow2, Z.shiftl_mul_pow2 by lia.
  change (2 ^ 12) with 4096. unfold PAGE_SIZE in *.
  pose proof (Z.div_mod (x + 4096 - 1) 4096 ltac:(lia)) as Hdm.
  pose proof (Z.mod_pos_bound (x + 4096 - 1) 4096 ltac:(lia)) as Hmb.
  split; [lia|]. apply Z.mod_mul. lia.
Qed.

(** Without wrap-around the sum of the check is the sum of the three
    sizes, and a region that passes the check holds a firmware file that is
    not longer than the core size of its header. *)
Lemma enable_sizes_fit (e : env) (arg : jailhouse_system) :
  enable_sizes_exact e arg = true ->
  let hv_core_percpu :=
    ulong (PAGE_ALIGN (core_size (hypervisor e)) +
           ulong (num_possible_cpus e * percpu_size (hypervisor e))) in
  enable_needed e arg
  = PAGE_ALIGN (core_size (hypervisor e)) +
    num_possible_cpus e * percpu_size (hypervisor e) +
    system_config_size arg /\
  hv_core_percpu
  = PAGE_ALIGN (core_size (hypervisor e)) +
    num_possible_cpus e * percpu_size (hypervisor e) /\
  0 <= num_possible_cpus e * percpu_size (hypervisor e) /\
  core_size (hypervisor e) <= PAGE_ALIGN (core_size (hypervisor e)) /\
  0 <= system_config_size arg /\ 0 <= fw_size (hypervisor e) /\
  mem_size (hypervisor_memory arg) < ULONG_MODULUS.
Proof.
  unfold enable_sizes_exact, enable_needed. intros H.
  repeat (apply Bool.andb_true_iff in H; destruct H as [H ?]).
  repeat match goal with
         | Hle : (_ <=? _) = true |- _ => apply Z.leb_le in Hle
         | Hlt : (_ <? _) = true |- _ => apply Z.ltb_lt in Hlt
         end.
  destruct (PAGE_ALIGN_bounds (core_size (hypervisor e))) as [[Hlo _] _];
    [assumption | assumption |].
  assert (Hprod : 0 <= num_possible_cpus e * percpu_size (hypervisor e))
    by (apply Z.mul_nonneg_nonneg; assumption).
  cbv zeta.
  rewrite (ulong_small (num_possible_cpus e * percpu_size (hypervisor e)))
    by lia.
  rewrite (ulong_small (PAGE_ALIGN (core_size (hypervisor e)) +
                        num_possible_cpus e * percpu_size (hypervisor e)))
    by lia.
  rewrite ulong_small by lia.
  repeat split; try assumption; lia.
Qed.

(** The enter barrier logs the entries and nothing else. *)
Lemma enter_barrier_log (header : firmware) (cpus : list N) (s : state) :
  exists s1 evs,
    on_each_cpu (enter_hypervisor header) cpus s = Some s1 /\
    log s1 = log s ++ evs /\
    forall ev, In ev evs -> exists cpu r, ev = EvEntry cpu r.
Proof.
  revert s. induction cpus as [|c cpus IH]; intros s; simpl.
  - exists s, []. rewrite app_nil_r. split; [reflexivity|].
    split; [reflexivity | intros ev []].
  - destruct (IH (if negb (entry header c =? 0)
                  then set_error_code (entry header c)
                         (log_event (EvEntry c (entry header c)) s)
                  else log_event (EvEntry c (entry header c)) s))
      as (s1 & evs & Hrun & Hlog & Hevs).
    exists s1, (EvEntry c (entry header c) :: evs).
    split; [exact Hrun|]. split.
    + rewrite Hlog. destruct (entry header c =? 0); simpl;
        rewrite <- app_assoc; reflexivity.
    + intros ev [<-|Hin]; [eauto | auto].
Qed.

(** When the sum of the check did not wrap, the region passes the check and
    the firmware file is not longer than the core size of its header, the
    three writes stay within the region. *)
Lemma enable_sizes_fit_writes (e : env) (arg : jailhouse_system) :
  enable_sizes_exact e arg = true ->
  enable_needed e arg < mem_size (hypervisor_memory arg) ->
  fw_size (hypervisor e) <= core_size (hypervisor e) ->
  enable_writes_fit e arg = true /\
  ulong (mem_size (hypervisor_memory arg) - fw_size (hypervisor e))
  = mem_size (hypervisor_memory arg) - fw_size (hypervisor e).
Proof.
  intros Hexact Hpass Hfw.
  destruct (enable_sizes_fit e arg Hexact)
    as (Hneed & Hcore & Hprod & Halign & Hcfg0 & Hfw0 & Hmem).
  cbv zeta in Hcore.
  assert (Hroom : PAGE_ALIGN (core_size (hypervisor e)) +
                  num_possible_cpus e * percpu_size (hypervisor e) +
                  system_config_size arg
                  < mem_size (hypervisor_memory arg))
    by (rewrite <- Hneed; exact Hpass).
  assert (Hfill : ulong (mem_size (hypervisor_memory arg)
                         - fw_size (hypervisor e))
                  = mem_size (hypervisor_memory arg)
                    - fw_size (hypervisor e))
    by (apply ulong_small; lia).
  split; [|exact Hfill].
  unfold enable_writes_fit, write_within. cbv zeta.
  rewrite Hfill, Hcore.
  rewrite !Bool.andb_true_iff, !Z.leb_le. lia.
Qed.

(** C5 on the code.  Once jailhouse_enable is at the check, a region whose
    size does not exceed the sum of the page-aligned core size, the per-CPU
    sizes and the configuration size (as the unsigned long arithmetic of the
    driver computes it) makes the call return -EINVAL with nothing mapped
    and no call made.  When the check passes, the sum did not wrap and the
    firmware file is not longer than the core size its header declares, the
    image copy covers [0, fw_size), the zero-fill the rest of the region,
    and every write of the call lies within the region.  But the check
    compares with the core size of the header, the copy takes the length of
    the file: a firmware file longer than the region passes the check when
    its header declares less, the copy of the file then leaves the mapping
    and the call has no defined outcome. *)
Theorem enable_size_check (e : env) (arg : jailhouse_system) (s : state) :
  enable_reaches_check e arg s = true ->
  (mem_size (hypervisor_memory arg) <= enable_needed e arg ->
   exists s1,
     jailhouse_enable e arg s = Some (- EINVAL, s1) /\
     vm_areas s1 = vm_areas s /\ log s1 = log s /\ enabled s1 = false) /\
  (enable_needed e arg < mem_size (hypervisor_memory arg) ->
   enable_sizes_exact e arg = true ->
   fw_size (hypervisor e) <= core_size (hypervisor e) ->
   exists r s1 evs,
     jailhouse_enable e arg s = Some (r, s1) /\
     log s1 = log s ++ evs /\
     (forall ev, In ev evs ->
                 write_within (mem_size (hypervisor_memory arg)) ev = true) /\
     (ioremap_addr e <> 0 -> ioremap_range_err e = 0 ->
      In (EvMemcpy 0 (fw_size (hypervisor e))) evs /\
      In (EvMemset (fw_size (hypervisor e))
                   (mem_size (hypervisor_memory arg) - fw_size (hypervisor e)))
         evs)) /\
  (enable_needed e arg < mem_size (hypervisor_memory arg) ->
   ioremap_addr e <> 0 -> ioremap_range_err e = 0 ->
   mem_size (hypervisor_memory arg) < fw_size (hypervisor e) ->
   write_within (mem_size (hypervisor_memory arg))
                (EvMemcpy 0 (fw_size (hypervisor e))) = false /\
   jailhouse_enable e arg s = None).
Proof.
  intros Hreach.
  destruct (reaches_check _ _ _ Hreach)
    as (H1 & H2 & H3 & H4 & H5 & H6 & H7 & H8).
  split; [|split].
  - intros Hsmall. apply Z.leb_le in Hsmall. unfold enable_needed in Hsmall.
    unfold jailhouse_enable, create_cell.
    rewrite H1, H2, H3, H4, H5, H6, H7, H8. simpl. rewrite Hsmall.
    eexists. split; [reflexivity|]. simpl. auto.
  - intros Hpass Hexact Hfw.
    destruct (enable_sizes_fit_writes e arg Hexact Hpass Hfw)
      as [Hfit Hfill].
    unfold enable_writes_fit in Hfit. cbv zeta in Hfit.
    apply Bool.andb_true_iff in Hfit. destruct Hfit as [Hfit W3].
    apply Bool.andb_true_iff in Hfit. destruct Hfit as [W1 W2].
    assert (Hwrites :
      forall evs,
        (forall ev, In ev evs ->
                    match ev with
                    | EvMemcpy _ _ | EvMemset _ _ | EvCopyFromUser _ _ => False
                    | _ => True
                    end) ->
        forall ev,
          In ev (EvMemcpy 0 (fw_size (hypervisor e))
                 :: EvMemset (fw_size (hypervisor e))
                      (ulong (mem_size (hypervisor_memory arg)
                              - fw_size (hypervisor e)))
                 :: EvCopyFromUser
                      (ulong (PAGE_ALIGN (core_size (hypervisor e)) +
                              ulong (num_possible_cpus e *
                                     percpu_size (hypervisor e))))
                      (system_config_size arg)
                 :: evs) ->
          write_within (mem_size (hypervisor_memory arg)) ev = true).
    { intros evs Hevs ev [<-|[<-|[<-|Hin]]]; [exact W1 | exact W2 | exact W3|].
      specialize (Hevs ev Hin). destruct ev; try reflexivity; contradiction. }
    apply Z.leb_gt in Hpass. unfold enable_needed in Hpass.
    unfold jailhouse_enable, create_cell.
    rewrite H1, H2, H3, H4, H5, H6, H7, H8. simpl. rewrite Hpass.
    unfold jailhouse_ioremap.
    destruct (ioremap_addr e =? 0) eqn:Hmap; simpl.
    + eexists. eexists. eexists.
      split; [reflexivity|]. simpl. split; [reflexivity|]. split.
      * intros ev [<-|[]]. reflexivity.
      * intros Hnz. apply Z.eqb_eq in Hmap. contradiction.
    + destruct (ioremap_range_err e =? 0) eqn:Hrange; simpl.
      2:{ eexists. eexists. eexists.
          split; [reflexivity|]. simpl. rewrite <- !app_assoc.
          split; [reflexivity|]. split.
          - intros ev [<-|[<-|[]]]; reflexivity.
          - intros _ Hz. apply Z.eqb_neq in Hrange. contradiction. }
      rewrite Hmap, W1, W2, W3. simpl.
      destruct (system_config_readable arg); simpl.
      * match goal with
        | |- context [on_each_cpu ?f ?cpus ?s0] =>
            destruct (enter_barrier_log (hypervisor e) cpus s0)
              as (s1 & evs & Hrun & Hlog & Hevs)
        end.
        rewrite Hrun. cbv beta iota. simpl in Hlog.
        destruct (error_code s1 =? 0); simpl.
        -- eexists. eexists. eexists. split; [reflexivity|].
           simpl. rewrite Hlog, <- !app_assoc. simpl.
           split; [reflexivity|]. split.
           ++ intros ev [<-|Hin]; [reflexivity|].
              revert ev Hin. apply Hwrites.
              intros ev Hin. apply Hevs in Hin.
              destruct Hin as (c & r & ->). exact I.
           ++ intros _ _. rewrite Hfill. simpl. tauto.
        -- eexists. eexists. eexists. split; [reflexivity|].
           simpl. rewrite Hlog, <- !app_assoc. simpl.
           split; [reflexivity|]. split.
           ++ intros ev [<-|Hin]; [reflexivity|].
              revert ev Hin. apply Hwrites.
              intros ev Hin. apply in_app_or in Hin.
              destruct Hin as [Hin|[<-|[]]]; [|exact I].
              apply Hevs in Hin. destruct Hin as (c & r & ->). exact I.
           ++ intros _ _. rewrite Hfill. simpl. tauto.
      * eexists. eexists. eexists. split; [reflexivity|].
        simpl. rewrite <- !app_assoc. simpl.
        split; [reflexivity|]. split.
        -- intros ev [<-|Hin]; [reflexivity|].
           revert ev Hin. apply Hwrites.
           intros ev [<-|[]]. exact I.
        -- intros _ _. rewrite Hfill. simpl. tauto.
  - intros Hpass Hmap Hrange Hlong.
    assert (Hout : write_within (mem_size (hypervisor_memory arg))
                                (EvMemcpy 0 (fw_size (hypervisor e))) = false).
    { unfold write_within. apply Bool.andb_false_iff. right.
      apply Z.leb_gt. lia. }
    split; [exact Hout|].
    apply Z.leb_gt in Hpass. unfold enable_needed in Hpass.
    apply Z.eqb_neq in Hmap. apply Z.eqb_eq in Hrange.
    unfold jailhouse_enable, create_cell.
    rewrite H1, H2, H3, H4, H5, H6, H7, H8. simpl. rewrite Hpass.
    unfold jailhouse_ioremap. rewrite Hmap, Hrange. simpl.
    rewrite Hmap, Hout. reflexivity.
Qed.

Lemma enable_size_check_witness :
  (exists s1,
      jailhouse_enable kind_env tight_system loaded_state
      = Some (- EINVAL, s1) /\
      vm_areas s1 = vm_areas loaded_state /\ log s1 = log loaded_state /\
      enabled s1 = false) /\
  (exists r s1 evs,
      jailhouse_enable kind_env demo_system loaded_state = Some (r, s1) /\
      log s1 = log loaded_state ++ evs /\
      (forall ev, In ev evs -> write_within 67108864 ev = true) /\
      (ioremap_addr kind_env <> 0 -> ioremap_range_err kind_env = 0 ->
       In (EvMemcpy 0 8192) evs /\
       In (EvMemset 8192 (67108864 - 8192)) evs)) /\
  (enable_needed (with_firmware long_firmware kind_env) tight_system
   < mem_size (hypervisor_memory tight_system) /\
   write_within 12288 (EvMemcpy 0 16384) = false /\
   jailhouse_enable (with_firmware long_firmware kind_env) tight_system
                    loaded_state = None).
Proof.
  split; [|split].
  - destruct (enable_size_check kind_env tight_system loaded_state eq_refl)
      as [Hsmall _].
    apply Hsmall. apply Z.leb_le. reflexivity.
  - destruct (enable_size_check kind_env demo_system loaded_state eq_refl)
      as (_ & Hfit & _).
    apply Hfit.
    + apply Z.ltb_lt. reflexivity.
    + reflexivity.
    + simpl. lia.
  - destruct (enable_size_check (with_firmware long_firmware kind_env)
                                tight_system loaded_state eq_refl)
      as (_ & _ & Hover).
    split; [apply Z.ltb_lt; reflexivity|].
    apply Hover.
    + apply Z.ltb_lt. reflexivity.
    + discriminate.
    + reflexivity.
    + apply Z.ltb_lt. reflexivity.
Defined.

(** ** The CPU loops *)

Lemma cpu_in_In (cpu : N) (cpus : list N) :
  cpu_in cpu cpus = true <-> In cpu cpus.
Proof.
  unfold cpu_in. rewrite existsb_exists. split.
  - intros [x [Hin Heq]]. apply N.eqb_eq in Heq. subst. exact Hin.
  - intros Hin. exists cpu. split; [exact Hin | apply N.eqb_refl].
Qed.

Lemma cpu_in_not_In (cpu : N) (cpus : list N) :
  cpu_in cpu cpus = false <-> ~ In cpu cpus.
Proof.
  rewrite <- cpu_in_In. destruct (cpu_in cpu cpus); split; intros H;
    try reflexivity; try discriminate; try congruence;
    exfalso; apply H; reflexivity.
Qed.

Lemma cpu_isset_set (a c : N) (m : cpumask) :
  cpu_isset c (cpu_set a m) = (c =? a)%N || cpu_isset c m.
Proof.
  unfold cpu_isset, cpu_set. rewrite N.setbit_eqb, (N.eqb_sym a c).
  reflexivity.
Qed.

Lemma cpu_isset_clear (a c : N) (m : cpumask) :
  cpu_isset c (cpu_clear a m) = cpu_isset c m && negb (c =? a)%N.
Proof.
  unfold cpu_isset, cpu_clear. rewrite N.clearbit_eqb, (N.eqb_sym a c).
  reflexivity.
Qed.

Lemma same_but_cpus_refl (s : state) : same_but_cpus s s.
Proof. constructor; reflexivity. Qed.

Lemma same_but_cpus_trans (s s1 s2 : state) :
  same_but_cpus s s1 -> same_but_cpus s1 s2 -> same_but_cpus s s2.
Proof. intros [] []. constructor; congruence. Qed.

Ltac bool_cases :=
  repeat match goal with
         | |- context [cpu_isset ?c ?m] => destruct (cpu_isset c m)
         | |- context [cpu_in ?c ?l] => destruct (cpu_in c l)
         | |- context [?x =? 0] => destruct (x =? 0)
         | |- context [cpu_online ?c ?s] => destruct (cpu_online c s)
         end; try reflexivity.

(** One round of the loop of jailhouse_cell_destroy. *)
Lemma destroy_cpu_up_step (e : env) (s : state) (a : N) :
  same_but_cpus s (destroy_cpu_up e s a) /\
  (forall c, cpu_isset c (offlined_cpus (destroy_cpu_up e s a))
             = cpu_isset c (offlined_cpus s) && negb (c =? a)%N) /\
  (forall c, cpu_online c (destroy_cpu_up e s a)
             = cpu_online c s
               || ((c =? a)%N && cpu_isset c (offlined_cpus s)
                   && (cpu_up_res e c =? 0))) /\
  exists evs,
    log (destroy_cpu_up e s a) = log s ++ evs /\
    forall c, cpu_up_logged c evs
              = (c =? a)%N && cpu_isset c (offlined_cpus s).
Proof.
  unfold destroy_cpu_up, cpu_up, cpu_online.
  destruct (cpu_isset a (offlined_cpus s)) eqn:Hset.
  - destruct (cpu_up_res e a =? 0) eqn:Hup; simpl;
      (split; [constructor; reflexivity|]);
      (split; [intros c; apply cpu_isset_clear|]);
      (split;
       [intros c; rewrite ?cpu_isset_set;
        destruct (N.eqb_spec c a) as [->|Hne]; simpl;
        rewrite ?Hset, ?Hup, ?Bool.orb_false_r; bool_cases
       |]);
      (eexists; split; [reflexivity|]; intros c; simpl;
       rewrite (N.eqb_sym a c);
       destruct (N.eqb_spec c a) as [->|Hne]; simpl;
       rewrite ?Hset; reflexivity).
  - split; [constructor; reflexivity|].
    split.
    { intros c. destruct (N.eqb_spec c a) as [->|Hne]; simpl.
      - rewrite Hset. reflexivity.
      - rewrite Bool.andb_true_r. reflexivity. }
    split.
    { intros c. destruct (N.eqb_spec c a) as [->|Hne]; simpl.
      - rewrite Hset. simpl. rewrite Bool.orb_false_r. reflexivity.
      - rewrite Bool.orb_false_r. reflexivity. }
    exists []. split; [rewrite app_nil_r; reflexivity|].
    intros c. simpl. destruct (N.eqb_spec c a) as [->|Hne]; simpl.
    + rewrite Hset. reflexivity.
    + reflexivity.
Qed.

(** The loop of jailhouse_cell_destroy: cpu_up is called on the CPUs of the
    list that are in offlined_cpus, they leave offlined_cpus, and those whose
    cpu_up succeeds are online. *)
Lemma destroy_loop (e : env) (cpus : list N) (s : state) :
  same_but_cpus s (fold_left (destroy_cpu_up e) cpus s) /\
  (forall c, cpu_isset c (offlined_cpus (fold_left (destroy_cpu_up e) cpus s))
             = cpu_isset c (offlined_cpus s) && negb (cpu_in c cpus)) /\
  (forall c, cpu_online c (fold_left (destroy_cpu_up e) cpus s)
             = cpu_online c s
               || (cpu_in c cpus && cpu_isset c (offlined_cpus s)
                   && (cpu_up_res e c =? 0))) /\
  exists evs,
    log (fold_left (destroy_cpu_up e) cpus s) = log s ++ evs /\
    forall c, cpu_up_logged c evs
              = cpu_in c cpus && cpu_isset c (offlined_cpus s).
Proof.
  revert s. induction cpus as [|a cpus IH]; intros s; simpl.
  - split; [apply same_but_cpus_refl|].
    split; [intros c; rewrite Bool.andb_true_r; reflexivity|].
    split; [intros c; rewrite Bool.orb_false_r; reflexivity|].
    exists []. split; [rewrite app_nil_r; reflexivity | reflexivity].
  - destruct (destroy_cpu_up_step e s a)
      as (Hsame & Hset & Hon & evs1 & Hlog1 & Hup1).
    destruct (IH (destroy_cpu_up e s a))
      as (Hsame' & Hset' & Hon' & evs2 & Hlog2 & Hup2).
    split; [eapply same_but_cpus_trans; eassumption|].
    split.
    { intros c. rewrite Hset', Hset.
      destruct (c =? a)%N; simpl; bool_cases. }
    split.
    { intros c. rewrite Hon', Hon, Hset.
      destruct (c =? a)%N; simpl; bool_cases. }
    exists (evs1 ++ evs2). split.
    + rewrite Hlog2, Hlog1, app_assoc. reflexivity.
    + intros c. unfold cpu_up_logged in *. rewrite existsb_app.
      rewrite Hup1, Hup2, Hset.
      destruct (c =? a)%N; simpl; bool_cases.
Qed.

(** One round of the loop at error_cpu_online. *)
Lemma rollback_cpu_up_step (e : env) (s : state) (a : N) :
  same_but_cpus s (rollback_cpu_up e s a) /\
  (forall c, cpu_online c (rollback_cpu_up e s a)
             = cpu_online c s || ((c =? a)%N && (cpu_up_res e c =? 0))) /\
  (forall c, cpu_isset c (offlined_cpus (rollback_cpu_up e s a))
             = cpu_isset c (offlined_cpus s)
               && negb ((c =? a)%N && negb (cpu_online c s)
                        && (cpu_up_res e c =? 0))).
Proof.
  unfold rollback_cpu_up, cpu_up.
  destruct (cpu_online a s) eqn:Hon; simpl.
  - split; [apply same_but_cpus_refl|]. split.
    + intros c. destruct (N.eqb_spec c a) as [->|Hne]; simpl.
      * rewrite Hon. reflexivity.
      * rewrite Bool.orb_false_r. reflexivity.
    + intros c. destruct (N.eqb_spec c a) as [->|Hne]; simpl.
      * rewrite Hon. simpl. rewrite Bool.andb_true_r. reflexivity.
      * rewrite Bool.andb_true_r. reflexivity.
  - destruct (cpu_up_res e a =? 0) eqn:Hup; simpl; rewrite ?Hup;
      (split; [constructor; reflexivity|]); split; intros c;
      unfold cpu_online in *; simpl; rewrite ?cpu_isset_set, ?cpu_isset_clear;
      destruct (N.eqb_spec c a) as [->|Hne]; simpl;
      rewrite ?Hon, ?Hup, ?Bool.orb_false_r, ?Bool.andb_true_r; bool_cases.
Qed.

(** The loop at error_cpu_online: every CPU of the list whose cpu_up
    succeeds is online afterwards, and those that were offline when the loop
    came to them leave offlined_cpus. *)
Lemma rollback_loop (e : env) (cpus : list N) (s : state) :
  same_but_cpus s (fold_left (rollback_cpu_up e) cpus s) /\
  (forall c, cpu_online c (fold_left (rollback_cpu_up e) cpus s)
             = cpu_online c s || (cpu_in c cpus && (cpu_up_res e c =? 0))) /\
  (forall c, cpu_isset c (offlined_cpus (fold_left (rollback_cpu_up e) cpus s))
             = cpu_isset c (offlined_cpus s)
               && negb (cpu_in c cpus && negb (cpu_online c s)
                        && (cpu_up_res e c =? 0))).
Proof.
  revert s. induction cpus as [|a cpus IH]; intros s; simpl.
  - split; [apply same_but_cpus_refl|].
    split; intros c; rewrite ?Bool.orb_false_r, ?Bool.andb_true_r;
      reflexivity.
  - destruct (rollback_cpu_up_step e s a) as (Hsame & Hon & Hset).
    destruct (IH (rollback_cpu_up e s a)) as (Hsame' & Hon' & Hset').
    split; [eapply same_but_cpus_trans; eassumption|].
    split; intros c; rewrite ?Hon', ?Hset', ?Hon, ?Hset;
      destruct (c =? a)%N; simpl; bool_cases.
Qed.

Lemma classic_online (cpus : list N) (s : state) :
  (exists c, In c cpus /\ cpu_online c s = true) \/
  (forall c, In c cpus -> cpu_online c s = false).
Proof.
  induction cpus as [|a cpus [IH|IH]].
  - right. intros c [].
  - left. destruct IH as (c & Hin & Hc). exists c. split; [right|]; auto.
  - destruct (cpu_online a s) eqn:Hon.
    + left. exists a. split; [left|]; auto.
    + right. intros c [<-|Hin]; auto.
Qed.

(** The first loop of jailhouse_cell_create.  [taken] are the CPUs it took
    down: online CPUs of the list, all of them when the loop runs to its
    end; it jumps exactly when a cpu_down fails. *)
Lemma offline_loop (e : env) (cpus : list N) (err : Z) (s : state) :
  exists taken,
    (forall c, cpu_in c taken = true ->
               cpu_in c cpus = true /\ cpu_online c s = true) /\
    same_but_cpus s (snd (offline_cell_cpus e cpus err s)) /\
    (forall c, cpu_online c (snd (offline_cell_cpus e cpus err s))
               = cpu_online c s && negb (cpu_in c taken)) /\
    (forall c, cpu_isset c (offlined_cpus
                              (snd (offline_cell_cpus e cpus err s)))
               = cpu_isset c (offlined_cpus s) || cpu_in c taken) /\
    match fst (offline_cell_cpus e cpus err s) with
    | Fallthrough err1 =>
        (forall c, cpu_in c cpus = true -> cpu_online c s = true ->
                   cpu_in c taken = true) /\
        ~ withdrawal_fails e cpus s /\
        ((forall c, In c cpus -> cpu_online c s = false) -> err1 = err) /\
        ((exists c, In c cpus /\ cpu_online c s = true) -> err1 = 0)
    | Jump err1 => err1 <> 0 /\ withdrawal_fails e cpus s
    end.
Proof.
  revert err s. induction cpus as [|a cpus IH]; intros err s; simpl.
  - exists []. simpl. split; [intros c Hc; discriminate|].
    split; [apply same_but_cpus_refl|].
    split; [intros c; rewrite Bool.andb_true_r; reflexivity|].
    split; [intros c; rewrite Bool.orb_false_r; reflexivity|].
    split; [intros c Hc; discriminate|].
    split; [intros (c & [] & _)|].
    split; [reflexivity | intros (c & [] & _)].
  - destruct (cpu_online a s) eqn:Hon.
    + unfold cpu_down.
      destruct (cpu_down_res e a =? 0) eqn:Hdown; simpl; rewrite ?Hdown;
        simpl.
      * match goal with
        | |- context [offline_cell_cpus e cpus ?err1 ?s1] =>
            destruct (IH err1 s1)
              as (taken & Hsub & Hsame & Hon1 & Hset1 & Hexit)
        end.
        exists (a :: taken).
        assert (Hstep : forall c,
                   cpu_online c
                     (set_offlined_cpus
                        (cpu_set a (offlined_cpus s))
                        (set_cpu_online_mask
                           (cpu_clear a (cpu_online_mask s))
                           (log_event (EvCpuDown a (cpu_down_res e a)) s)))
                   = cpu_online c s && negb (c =? a)%N)
          by (intros c; unfold cpu_online; simpl; apply cpu_isset_clear).
        split.
        { intros c. simpl. destruct (N.eqb_spec c a) as [->|Hne]; simpl.
          - auto.
          - intros Hc. destruct (Hsub c Hc) as [Hin Hc1].
            rewrite Hstep in Hc1. apply Bool.andb_true_iff in Hc1.
            tauto. }
        split.
        { eapply same_but_cpus_trans; [|exact Hsame].
          constructor; reflexivity. }
        split.
        { intros c. rewrite Hon1, Hstep. simpl.
          destruct (c =? a)%N; simpl; bool_cases. }
        split.
        { intros c. rewrite Hset1. simpl. rewrite cpu_isset_set.
          destruct (c =? a)%N; simpl; bool_cases. }
        destruct (fst (offline_cell_cpus e cpus _ _)) as [err1|err1].
        -- destruct Hexit as (Hall & Hnofail & Hkeep & Hzero).
           split.
           { intros c. simpl. destruct (N.eqb_spec c a) as [->|Hne]; simpl;
               [auto|].
             intros Hin Hc. apply Hall; [exact Hin|].
             rewrite Hstep, Hc. apply N.eqb_neq in Hne. rewrite Hne.
             reflexivity. }
           split.
           { intros (c & Hin & Hc & Hfail).
             destruct (N.eq_dec c a) as [->|Hne].
             - apply Z.eqb_eq in Hdown. contradiction.
             - destruct Hin as [Heq|Hin]; [congruence|].
               apply Hnofail. exists c. split; [exact Hin|].
               split; [|exact Hfail].
               rewrite Hstep, Hc. apply N.eqb_neq in Hne. rewrite Hne.
               reflexivity. }
           split.
           { intros Hoff. rewrite (Hoff a (or_introl eq_refl)) in Hon.
             discriminate. }
           { intros _.
             destruct (classic_online cpus
                         (set_offlined_cpus
                            (cpu_set a (offlined_cpus s))
                            (set_cpu_online_mask
                               (cpu_clear a (cpu_online_mask s))
                               (log_event (EvCpuDown a (cpu_down_res e a))
                                          s))))
               as [Hsome|Hnone].
             - apply Hzero. exact Hsome.
             - rewrite (Hkeep Hnone). apply Z.eqb_eq. exact Hdown. }
        -- destruct Hexit as (Hnz & c & Hin & Hc & Hfail).
           split; [exact Hnz|].
           exists c. split; [right; exact Hin|]. split; [|exact Hfail].
           rewrite Hstep in Hc. apply Bool.andb_true_iff in Hc. tauto.
      * exists []. simpl.
        split; [intros c Hc; discriminate|].
        split; [constructor; reflexivity|].
        split; [intros c; unfold cpu_online; simpl;
                rewrite Bool.andb_true_r; reflexivity|].
        split; [intros c; rewrite Bool.orb_false_r; reflexivity|].
        apply Z.eqb_neq in Hdown.
        split; [exact Hdown|].
        exists a. split; [left; reflexivity|]. split; assumption.
    + destruct (IH err s) as (taken & Hsub & Hsame & Hon1 & Hset1 & Hexit).
      exists taken.
      split.
      { intros c Hc. destruct (Hsub c Hc) as [Hin Hc1].
        rewrite Hin, Bool.orb_true_r. auto. }
      split; [exact Hsame|]. split; [exact Hon1|]. split; [exact Hset1|].
      destruct (fst (offline_cell_cpus e cpus err s)) as [err1|err1].
      * destruct Hexit as (Hall & Hnofail & Hkeep & Hzero).
        split.
        { intros c. destruct (N.eqb_spec c a) as [->|Hne]; simpl.
          - intros _ Hc. congruence.
          - apply Hall. }
        split.
        { intros (c & Hin & Hc & Hfail).
          destruct Hin as [<-|Hin]; [congruence|].
          apply Hnofail. exists c. auto. }
        split.
        { intros Hoff. apply Hkeep. intros c Hc. apply Hoff. right.
          exact Hc. }
        { intros (c & Hin & Hc). apply Hzero.
          destruct Hin as [<-|Hin]; [congruence|]. exists c. auto. }
      * destruct Hexit as (Hnz & c & Hin & Hc & Hfail).
        split; [exact Hnz|].
        exists c. split; [right; exact Hin|]. split; assumption.
Qed.

(** ** jailhouse_cell_create up to the CPU loop *)

(** An image that loads leaves only its trace in the log. *)
Lemma load_image_loads (config : jailhouse_cell_desc) (uimage : user_image)
      (s : state) :
  image_loads config uimage = true ->
  exists s1, load_image config uimage s = (0, s1) /\
             same_resources s s1 /\ error_code s1 = error_code s.
Proof.
  unfold image_loads, load_image. intros H.
  apply Bool.andb_true_iff in H. destruct H as [Hread H].
  rewrite Hread. simpl.
  destruct (image_region (image uimage) (mem_regions config))
    as [[m image_offset]|]; [|discriminate].
  apply Bool.andb_true_iff in H. destruct H as [H Hpay].
  apply Bool.andb_true_iff in H. destruct H as [Harea Hrange].
  apply Bool.negb_true_iff in Harea.
  unfold jailhouse_ioremap. rewrite Harea, Hrange. simpl.
  rewrite Harea, Hpay. simpl.
  eexists. split; [reflexivity|].
  split; [|reflexivity].
  constructor; simpl; try reflexivity. rewrite Z.eqb_refl. reflexivity.
Qed.

Lemma load_images_load (config : jailhouse_cell_desc)
      (images : list user_image) (err : Z) (s : state) :
  forallb (image_loads config) images = true ->
  exists err1 s1,
    load_images config images err s = (Fallthrough err1, s1) /\
    same_resources s s1 /\ error_code s1 = error_code s /\
    (images = [] -> err1 = err) /\ (images <> [] -> err1 = 0).
Proof.
  revert err s. induction images as [|u images IH]; intros err s Hall; simpl.
  - exists err, s. split; [reflexivity|].
    split; [apply same_resources_refl|]. split; [reflexivity|].
    split; [reflexivity | congruence].
  - simpl in Hall. apply Bool.andb_true_iff in Hall.
    destruct Hall as [Hu Hall].
    destruct (load_image_loads config u s Hu) as (s1 & Hload & Hsame & Herr).
    rewrite Hload. simpl.
    destruct (IH 0 s1 Hall) as (err2 & s2 & Hloads & Hsame2 & Herr2 & He & Hz).
    exists err2, s2. split; [exact Hloads|].
    split; [eapply same_resources_trans; eassumption|].
    split; [congruence|].
    split; [discriminate|]. intros _.
    destruct images; [apply He; reflexivity | apply Hz; discriminate].
Qed.

Lemma reaches_cpus (e : env) (arg : jailhouse_new_cell) (s : state) :
  create_reaches_cpus e arg s = true ->
  create_delivered e arg = true /\ enabled s = true /\
  find_cell (terminate_name (new_config arg)) s = None /\
  forallb (image_loads (terminate_name (new_config arg)))
          (preload_images arg) = true /\
  kzalloc_ok e = true /\ kobject_add_err e = 0.
Proof.
  unfold create_reaches_cpus. intros H.
  apply Bool.andb_true_iff in H. destruct H as [H Hko].
  apply Bool.andb_true_iff in H. destruct H as [H Hkz].
  apply Bool.andb_true_iff in H. destruct H as [H Himg].
  apply Bool.andb_true_iff in H. destruct H as [H Hfree].
  apply Bool.andb_true_iff in H. destruct H as [Hd Hen].
  apply Z.eqb_eq in Hko.
  destruct (find_cell (terminate_name (new_config arg)) s);
    [discriminate | auto 10].
Qed.

(** From the CPU loop on: jailhouse_cell_create is the loop, the hypercall
    and either the registration or the rollback, run from a state that
    differs from the one of the call by the new kobject and the log. *)
Lemma create_from_cpus (e : env) (arg : jailhouse_new_cell) (s : state) :
  create_reaches_cpus e arg s = true ->
  let config := terminate_name (new_config arg) in
  let c := mkCell (kobject_set_name (c_string (name config))) 0 in
  exists err s_img,
    same_resources s s_img /\ error_code s_img = error_code s /\
    (preload_images arg = [] -> err = stack_garbage e) /\
    (preload_images arg <> [] -> err = 0) /\
    jailhouse_cell_create e arg s
    = match offline_cell_cpus e (for_each_cell_cpu (new_config arg)) err
              (set_kobjects (kobject_name c :: kobjects s_img) s_img) with
      | (Jump err1, s_b) => (err1, error_cpu_online e config c s_b)
      | (Fallthrough err1, s_b) =>
          let (id, s_c) :=
            jailhouse_call1 e JAILHOUSE_HC_CELL_CREATE (config_pa e) s_b in
          if id <? 0 then (id, error_cpu_online e config c s_c)
          else (err1, register_cell (mkCell (kobject_name c) id) s_c)
      end.
Proof.
  intros Hreach config c.
  destruct (reaches_cpus _ _ _ Hreach) as (Hd & Hen & Hfree & Himg & Hkz & Hko).
  destruct (delivered_create _ _ Hd) as (H1 & H2 & H3 & H4).
  destruct (load_images_load config (preload_images arg) (stack_garbage e) s
                             Himg)
    as (err & s_img & Hload & Hsame & Herr & Hnil & Hcons).
  exists err, s_img.
  split; [exact Hsame|]. split; [exact Herr|].
  split; [exact Hnil|]. split; [exact Hcons|].
  unfold jailhouse_cell_create.
  rewrite H1, H2, H3, H4, Hen. cbn [negb]. cbv zeta.
  rewrite Hfree. fold config. rewrite Hload.
  unfold create_cell. rewrite Hkz, Hko. cbn [negb Z.eqb]. cbv zeta.
  fold c. unfold config at 1. rewrite for_each_cell_cpu_name.
  reflexivity.
Qed.

Lemma cpu_online_log_event (c : N) (ev : event) (s : state) :
  cpu_online c (log_event ev s) = cpu_online c s.
Proof. reflexivity. Qed.

Lemma kobject_put_frame (n : list byte) (s : state) :
  cells (kobject_put n s) = cells s /\
  enabled (kobject_put n s) = enabled s /\
  vm_areas (kobject_put n s) = vm_areas s /\
  (forall c, cpu_online c (kobject_put n s) = cpu_online c s) /\
  offlined_cpus (kobject_put n s) = offlined_cpus s /\
  log (kobject_put n s) = log s.
Proof. unfold kobject_put, cpu_online. simpl. auto 10. Qed.

(** A create that fails in the CPU loop or at the hypercall: what it
    returns and what the rollback leaves.  [taken] are the CPUs the call
    took down before it failed. *)
Lemma create_failure_effects (e : env) (arg : jailhouse_new_cell) (s : state) :
  create_reaches_cpus e arg s = true ->
  withdrawal_fails e (for_each_cell_cpu (new_config arg)) s \/
  hc_res e JAILHOUSE_HC_CELL_CREATE (config_pa e) < 0 ->
  exists r s1 taken,
    jailhouse_cell_create e arg s = (r, s1) /\
    r <> 0 /\
    cells s1 = cells s /\ kobjects s1 = kobjects s /\
    enabled s1 = enabled s /\ vm_areas s1 = vm_areas s /\
    (forall c, cpu_in c taken = true ->
               cpu_in c (for_each_cell_cpu (new_config arg)) = true /\
               cpu_online c s = true) /\
    (forall c, cpu_online c s1
               = cpu_online c s && negb (cpu_in c taken)
                 || (cpu_in c (for_each_cell_cpu (new_config arg))
                     && (cpu_up_res e c =? 0))) /\
    (forall c, cpu_isset c (offlined_cpus s1)
               = (cpu_isset c (offlined_cpus s) || cpu_in c taken)
                 && negb (cpu_in c (for_each_cell_cpu (new_config arg))
                          && negb (cpu_online c s && negb (cpu_in c taken))
                          && (cpu_up_res e c =? 0))).
Proof.
  intros Hreach Hfail.
  destruct (create_from_cpus e arg s Hreach)
    as (err & s_img & Hsame & _ & _ & _ & Hcall).
  cbv zeta in Hcall. rewrite Hcall. clear Hcall.
  set (name1 := kobject_set_name (c_string (name (terminate_name (new_config arg))))) in *.
  set (cpus := for_each_cell_cpu (new_config arg)) in *.
  simpl kobject_name.
  set (s_a := set_kobjects (name1 :: kobjects s_img) s_img) in *.
  assert (Hon_a : forall c, cpu_online c s_a = cpu_online c s)
    by (intros c; unfold cpu_online, s_a; simpl;
        rewrite (same_cpu_online_mask _ _ Hsame); reflexivity).
  assert (Hoff_a : offlined_cpus s_a = offlined_cpus s)
    by (unfold s_a; simpl; apply (same_offlined_cpus _ _ Hsame)).
  assert (Hwf : withdrawal_fails e cpus s_a <-> withdrawal_fails e cpus s).
  { unfold withdrawal_fails. split; intros (c & Hin & Hc & Hf); exists c;
      rewrite Hon_a in *; auto. }
  destruct (offline_loop e cpus err s_a)
    as (taken & Hsub & Hsbc & Hon1 & Hset1 & Hexit).
  destruct (offline_cell_cpus e cpus err s_a) as [[err1|err1] s_b];
    simpl in Hsbc, Hon1, Hset1, Hexit.
  - destruct Hexit as (_ & Hnofail & _).
    destruct Hfail as [Hfail|Hrej]; [apply Hwf in Hfail; contradiction|].
    unfold jailhouse_call1.
    apply Z.ltb_lt in Hrej. rewrite Hrej. apply Z.ltb_lt in Hrej.
    unfold error_cpu_online.
    match goal with
    | |- context [fold_left (rollback_cpu_up e) ?l ?s0] =>
        destruct (rollback_loop e l s0) as (Hsbc2 & Hon2 & Hset2);
        set (s_r := fold_left (rollback_cpu_up e) l s0) in *
    end.
    rewrite for_each_cell_cpu_name in *. fold cpus in Hon2, Hset2.
    destruct (kobject_put_frame name1 s_r) as (K1 & K2 & K3 & K4 & K5 & _).
    eexists. eexists. exists taken. split; [reflexivity|].
    split; [lia|].
    destruct Hsbc, Hsbc2, Hsame. simpl in *.
    split; [congruence|].
    split.
    { unfold kobject_put. simpl. rewrite sbc_kobjects1, sbc_kobjects0.
      unfold s_a. simpl. rewrite list_byte_eqb_refl. congruence. }
    split; [congruence|]. split; [congruence|].
    split; [intros c Hc; rewrite <- Hon_a; apply Hsub; exact Hc|].
    split.
    + intros c. rewrite K4, Hon2, cpu_online_log_event, Hon1, Hon_a.
      reflexivity.
    + intros c.
      rewrite Hset2, cpu_online_log_event, Hset1, Hon1, Hoff_a, Hon_a.
      reflexivity.
  - destruct Hexit as (Hnz & _).
    unfold error_cpu_online.
    match goal with
    | |- context [fold_left (rollback_cpu_up e) ?l ?s0] =>
        destruct (rollback_loop e l s0) as (Hsbc2 & Hon2 & Hset2);
        set (s_r := fold_left (rollback_cpu_up e) l s0) in *
    end.
    rewrite for_each_cell_cpu_name in *. fold cpus in Hon2, Hset2.
    destruct (kobject_put_frame name1 s_r) as (K1 & K2 & K3 & K4 & K5 & _).
    eexists. eexists. exists taken. split; [reflexivity|].
    split; [exact Hnz|].
    destruct Hsbc, Hsbc2, Hsame. simpl in *.
    split; [congruence|].
    split.
    { unfold kobject_put. simpl. rewrite sbc_kobjects1, sbc_kobjects0.
      unfold s_a. simpl. rewrite list_byte_eqb_refl. congruence. }
    split; [congruence|]. split; [congruence|].
    split; [intros c Hc; rewrite <- Hon_a; apply Hsub; exact Hc|].
    split.
    + intros c. rewrite K4, Hon2, Hon1, Hon_a. reflexivity.
    + intros c. rewrite Hset2, Hset1, Hon1, Hoff_a, Hon_a. reflexivity.
Qed.

(** A create that gets through the CPU loop and is accepted by the
    hypervisor: the cell is registered, the online CPUs of its set are
    offline and recorded, and [err] is 0 when an image was loaded or a CPU
    taken down. *)
Lemma create_success_effects (e : env) (arg : jailhouse_new_cell) (s : state) :
  create_reaches_cpus e arg s = true ->
  ~ withdrawal_fails e (for_each_cell_cpu (new_config arg)) s ->
  0 <= hc_res e JAILHOUSE_HC_CELL_CREATE (config_pa e) ->
  exists r s1,
    jailhouse_cell_create e arg s = (r, s1) /\
    cells s1
    = cells s ++ [mkCell
        (kobject_set_name (c_string (name (terminate_name (new_config arg)))))
        (hc_res e JAILHOUSE_HC_CELL_CREATE (config_pa e))] /\
    enabled s1 = enabled s /\
    (forall c, cpu_online c s1
               = cpu_online c s
                 && negb (cpu_in c (for_each_cell_cpu (new_config arg)))) /\
    (forall c, cpu_isset c (offlined_cpus s1)
               = cpu_isset c (offlined_cpus s)
                 || (cpu_in c (for_each_cell_cpu (new_config arg))
                     && cpu_online c s)) /\
    ((exists c, In c (for_each_cell_cpu (new_config arg)) /\
                cpu_online c s = true) \/ preload_images arg <> [] ->
     r = 0).
Proof.
  intros Hreach Hnofail Hacc.
  destruct (create_from_cpus e arg s Hreach)
    as (err & s_img & Hsame & _ & _ & Himg & Hcall).
  cbv zeta in Hcall. rewrite Hcall. clear Hcall.
  set (name1 := kobject_set_name (c_string (name (terminate_name (new_config arg))))) in *.
  set (cpus := for_each_cell_cpu (new_config arg)) in *.
  simpl kobject_name.
  set (s_a := set_kobjects (name1 :: kobjects s_img) s_img) in *.
  assert (Hon_a : forall c, cpu_online c s_a = cpu_online c s)
    by (intros c; unfold cpu_online, s_a; simpl;
        rewrite (same_cpu_online_mask _ _ Hsame); reflexivity).
  assert (Hoff_a : offlined_cpus s_a = offlined_cpus s)
    by (unfold s_a; simpl; apply (same_offlined_cpus _ _ Hsame)).
  destruct (offline_loop e cpus err s_a)
    as (taken & Hsub & Hsbc & Hon1 & Hset1 & Hexit).
  destruct (offline_cell_cpus e cpus err s_a) as [[err1|err1] s_b];
    simpl in Hsbc, Hon1, Hset1, Hexit.
  - destruct Hexit as (Hall & _ & Hkeep & Hzero).
    assert (Htaken : forall c, cpu_in c taken
                               = cpu_in c cpus && cpu_online c s).
    { intros c. specialize (Hsub c). specialize (Hall c).
      rewrite Hon_a in Hsub, Hall.
      destruct (cpu_in c taken), (cpu_in c cpus), (cpu_online c s);
        simpl; try reflexivity; try tauto;
        try (destruct Hsub; [reflexivity | discriminate]);
        try (symmetry; apply Hall; reflexivity). }
    unfold jailhouse_call1.
    apply Z.ltb_ge in Hacc. rewrite Hacc.
    eexists. eexists. split; [reflexivity|].
    split.
    { simpl. rewrite (sbc_cells _ _ Hsbc). unfold s_a. simpl.
      rewrite (same_cells _ _ Hsame). reflexivity. }
    split.
    { simpl. rewrite (sbc_enabled _ _ Hsbc). unfold s_a. simpl.
      apply (same_enabled _ _ Hsame). }
    split.
    { intros c.
      change (cpu_online c (register_cell ?a (log_event ?b s_b)))
        with (cpu_online c s_b).
      rewrite Hon1, Hon_a, Htaken. bool_cases. }
    split.
    { intros c.
      change (offlined_cpus (register_cell ?a (log_event ?b s_b)))
        with (offlined_cpus s_b).
      rewrite Hset1, Htaken, (same_offlined_cpus _ _ Hsame). reflexivity. }
    intros [(c & Hin & Hc)|Hsome].
    + apply Hzero. exists c. rewrite Hon_a. auto.
    + destruct (classic_online cpus s_a) as [Hone|Hnone].
      * apply Hzero. exact Hone.
      * rewrite (Hkeep Hnone). apply Himg. exact Hsome.
  - destruct Hexit as (_ & c & Hin & Hc & Hf). exfalso. apply Hnofail.
    exists c. rewrite <- Hon_a. auto.
Qed.

(** ** Rollback of a failed create (C1) *)

(** C1 as the code has it: when jailhouse_cell_create fails in the CPU loop
    or at the create hypercall, it returns the nonzero error, the cell list
    and the kobjects are those before the call, no CPU outside the set of
    the configuration is touched, every CPU of the set whose cpu_up succeeds
    is online and out of offlined_cpus afterwards, and a CPU of the set
    that is still in offlined_cpus is one that is offline because cpu_up
    failed on it.  The CPUs in offlined_cpus are taken to be offline before
    the call. *)
Theorem create_failure_rollback (e : env) (arg : jailhouse_new_cell)
        (s : state) :
  create_reaches_cpus e arg s = true ->
  withdrawal_fails e (for_each_cell_cpu (new_config arg)) s \/
  hc_res e JAILHOUSE_HC_CELL_CREATE (config_pa e) < 0 ->
  (forall c, cpu_isset c (offlined_cpus s) = true -> cpu_online c s = false) ->
  exists r s1,
    jailhouse_cell_create e arg s = (r, s1) /\
    r <> 0 /\
    cells s1 = cells s /\ kobjects s1 = kobjects s /\
    (forall c, ~ In c (for_each_cell_cpu (new_config arg)) ->
               cpu_online c s1 = cpu_online c s /\
               cpu_isset c (offlined_cpus s1)
               = cpu_isset c (offlined_cpus s)) /\
    (forall c, In c (for_each_cell_cpu (new_config arg)) ->
               cpu_up_res e c = 0 ->
               cpu_online c s1 = true /\
               cpu_isset c (offlined_cpus s1) = false) /\
    (forall c, In c (for_each_cell_cpu (new_config arg)) ->
               cpu_isset c (offlined_cpus s1) = true ->
               cpu_online c s1 = false /\ cpu_up_res e c <> 0).
Proof.
  intros Hreach Hfail Hinv.
  destruct (create_failure_effects e arg s Hreach Hfail)
    as (r & s1 & taken & Hcall & Hnz & Hcells & Hkobj & _ & _ & Hsub
        & Hon & Hset).
  exists r, s1. split; [exact Hcall|]. split; [exact Hnz|].
  split; [exact Hcells|]. split; [exact Hkobj|].
  assert (Hcases : forall c,
             cpu_in c (for_each_cell_cpu (new_config arg)) = true ->
             (cpu_up_res e c =? 0) = true ->
             cpu_online c s1 = true /\
             cpu_isset c (offlined_cpus s1) = false).
  { intros c Hin Hup. rewrite Hon, Hset, Hin, Hup.
    specialize (Hinv c). specialize (Hsub c).
    destruct (cpu_isset c (offlined_cpus s)), (cpu_in c taken),
      (cpu_online c s); simpl; split; try reflexivity;
      try (discriminate Hinv; reflexivity);
      try (destruct Hsub; [reflexivity | discriminate]). }
  split; [|split].
  - intros c Hout. apply cpu_in_not_In in Hout.
    rewrite Hon, Hset, Hout. specialize (Hsub c). rewrite Hout in Hsub.
    destruct (cpu_in c taken).
    + destruct Hsub; [reflexivity | discriminate].
    + split; bool_cases.
  - intros c Hin Hup. apply Hcases.
    + apply cpu_in_In. exact Hin.
    + apply Z.eqb_eq. exact Hup.
  - intros c Hin Htracked. apply cpu_in_In in Hin.
    destruct (cpu_up_res e c =? 0) eqn:Hup.
    + destruct (Hcases c Hin Hup) as [_ Hout]. congruence.
    + apply Z.eqb_neq in Hup. split; [|exact Hup].
      apply Z.eqb_neq in Hup.
      rewrite Hset in Htracked. rewrite Hon, Hin, Hup. simpl.
      rewrite Bool.orb_false_r.
      specialize (Hinv c).
      destruct (cpu_isset c (offlined_cpus s)), (cpu_in c taken),
        (cpu_online c s); simpl in *; try reflexivity; try discriminate.
      discriminate Hinv. reflexivity.
Qed.

Lemma masks_apart (a b : cpumask) :
  N.land a b = 0%N ->
  forall c, cpu_isset c a = true -> cpu_isset c b = false.
Proof.
  intros Hland c Ha. unfold cpu_isset in *.
  assert (Hc : N.testbit (N.land a b) c = false)
    by (rewrite Hland; apply N.bits_0).
  rewrite N.land_spec, Ha in Hc. exact Hc.
Qed.

Lemma create_failure_rollback_witness :
  exists r s1,
    jailhouse_cell_create rejecting_env (mkNewCell true true (cell_B 10) [])
                          state_with_A = (r, s1) /\
    r <> 0 /\ cells s1 = cells state_with_A /\
    cpu_online 3 s1 = true /\ cpu_isset 3 (offlined_cpus s1) = false /\
    cpu_online 0 s1 = cpu_online 0 state_with_A.
Proof.
  destruct (create_failure_rollback rejecting_env
              (mkNewCell true true (cell_B 10) []) state_with_A)
    as (r & s1 & Hcall & Hnz & Hcells & _ & Hout & Hin & _).
  - reflexivity.
  - right. simpl. unfold EBUSY. lia.
  - apply masks_apart. reflexivity.
  - exists r, s1. split; [exact Hcall|]. split; [exact Hnz|].
    split; [exact Hcells|].
    destruct (Hin 3%N) as [H3 H3'];
      [right; left; reflexivity | reflexivity |].
    destruct (Hout 0%N) as [H0 _].
    + cbn [new_config].
      replace (for_each_cell_cpu (cell_B 10)) with [1%N; 3%N]
        by (vm_compute; reflexivity).
      intros [H|[H|[]]]; discriminate.
    + auto.
Defined.

(** C1 as stated fails.  Cell A holds CPUs 2 and 3; a cell claiming CPUs 1
    and 3 is rejected by the hypervisor and cpu_up fails on CPU 1: after the
    call CPU 1, which the failed cell claimed, is still in offlined_cpus,
    and CPU 3, offlined for cell A, is online and no longer recorded. *)
Lemma create_rollback_keeps_and_oversteps :
  for_each_cell_cpu (cell_B 10) = [1%N; 3%N] /\
  In (mkCell [x41] 1) (cells state_with_A) /\
  cpu_isset 3 (offlined_cpus state_with_A) = true /\
  cpu_online 3 state_with_A = false /\
  fst (jailhouse_cell_create rejecting_env
         (mkNewCell true true (cell_B 10) []) state_with_A) = - EBUSY /\
  cpu_isset 1 (offlined_cpus
                 (snd (jailhouse_cell_create rejecting_env
                         (mkNewCell true true (cell_B 10) []) state_with_A)))
  = true /\
  cpu_isset 3 (offlined_cpus
                 (snd (jailhouse_cell_create rejecting_env
                         (mkNewCell true true (cell_B 10) []) state_with_A)))
  = false /\
  cpu_online 3 (snd (jailhouse_cell_create rejecting_env
                       (mkNewCell true true (cell_B 10) []) state_with_A))
  = true.
Proof.
  split; [reflexivity|]. split; [simpl; tauto|].
  repeat split; vm_compute; reflexivity.
Qed.

(** ** A create that claims a CPU another cell holds (C2) *)

(** A create that takes no CPU down and loads no image assigns nothing to
    [err] before it registers the cell. *)
Lemma create_success_unassigned (e : env) (arg : jailhouse_new_cell)
      (s : state) :
  create_reaches_cpus e arg s = true ->
  0 <= hc_res e JAILHOUSE_HC_CELL_CREATE (config_pa e) ->
  preload_images arg = [] ->
  (forall c, In c (for_each_cell_cpu (new_config arg)) ->
             cpu_online c s = false) ->
  fst (jailhouse_cell_create e arg s) = stack_garbage e.
Proof.
  intros Hreach Hacc Himg Hoff.
  destruct (create_from_cpus e arg s Hreach)
    as (err & s_img & Hsame & _ & Hnil & _ & Hcall).
  cbv zeta in Hcall. rewrite Hcall. clear Hcall.
  rewrite offline_cell_cpus_none_online.
  - unfold jailhouse_call1. apply Z.ltb_ge in Hacc. rewrite Hacc.
    simpl. apply Hnil. exact Himg.
  - intros c Hc. unfold cpu_online. simpl.
    rewrite (same_cpu_online_mask _ _ Hsame). apply Hoff. exact Hc.
Qed.

(** C2 as the code has it, for a create that gets as far as the CPU loop: a
    CPU of the set that is not online is skipped by the first loop, so the
    call does not fail on its account.  When no cpu_down of an online CPU of
    the set fails and the hypervisor accepts, the cell is registered under
    the name of its kobject, the CPU is offline as before and no more
    recorded than before, and the call returns 0 when it took a CPU down or
    loaded an image (what [err] held on entry when it did neither).  When a
    cpu_down fails or the hypervisor rejects, the call returns the nonzero
    error, registers nothing, and every CPU of the set whose cpu_up
    succeeds is online afterwards. *)
Theorem create_claiming_offline_cpu (e : env) (arg : jailhouse_new_cell)
        (s : state) (cpu0 : N) :
  create_reaches_cpus e arg s = true ->
  In cpu0 (for_each_cell_cpu (new_config arg)) ->
  cpu_online cpu0 s = false ->
  (~ withdrawal_fails e (for_each_cell_cpu (new_config arg)) s ->
   0 <= hc_res e JAILHOUSE_HC_CELL_CREATE (config_pa e) ->
   exists r s1,
     jailhouse_cell_create e arg s = (r, s1) /\
     cells s1
     = cells s ++ [mkCell (kobject_set_name
                             (c_string
                                (name (terminate_name (new_config arg)))))
                          (hc_res e JAILHOUSE_HC_CELL_CREATE (config_pa e))] /\
     cpu_online cpu0 s1 = false /\
     cpu_isset cpu0 (offlined_cpus s1) = cpu_isset cpu0 (offlined_cpus s) /\
     ((exists c, In c (for_each_cell_cpu (new_config arg)) /\
                 cpu_online c s = true) \/ preload_images arg <> [] ->
      r = 0) /\
     ((forall c, In c (for_each_cell_cpu (new_config arg)) ->
                 cpu_online c s = false) -> preload_images arg = [] ->
      r = stack_garbage e)) /\
  (withdrawal_fails e (for_each_cell_cpu (new_config arg)) s \/
   hc_res e JAILHOUSE_HC_CELL_CREATE (config_pa e) < 0 ->
   exists r s1,
     jailhouse_cell_create e arg s = (r, s1) /\
     r <> 0 /\ cells s1 = cells s /\
     forall c, In c (for_each_cell_cpu (new_config arg)) ->
               cpu_up_res e c = 0 -> cpu_online c s1 = true).
Proof.
  intros Hreach Hin0 Hoff0. split.
  - intros Hnofail Hacc.
    destruct (create_success_effects e arg s Hreach Hnofail Hacc)
      as (r & s1 & Hcall & Hcells & _ & Hon & Hset & Hzero).
    exists r, s1. split; [exact Hcall|]. split; [exact Hcells|].
    rewrite Hon, Hset, Hoff0. simpl.
    rewrite Bool.andb_false_r, Bool.orb_false_r.
    split; [reflexivity|]. split; [reflexivity|]. split; [exact Hzero|].
    intros Hnone Himg.
    pose proof (create_success_unassigned e arg s Hreach Hacc Himg Hnone)
      as Hr.
    rewrite Hcall in Hr. exact Hr.
  - intros Hfail.
    destruct (create_failure_effects e arg s Hreach Hfail)
      as (r & s1 & taken & Hcall & Hnz & Hcells & _ & _ & _ & _ & Hon & _).
    exists r, s1. split; [exact Hcall|]. split; [exact Hnz|].
    split; [exact Hcells|].
    intros c Hin Hup. apply cpu_in_In in Hin. apply Z.eqb_eq in Hup.
    rewrite Hon, Hin, Hup. apply Bool.orb_true_r.
Qed.

Lemma create_claiming_offline_cpu_witness :
  (exists s1,
      jailhouse_cell_create kind_env (mkNewCell true true (cell_B 24) [])
                            state_with_A = (0, s1) /\
      cells s1 = cells state_with_A ++ [mkCell [x42] 1] /\
      cpu_online 3 s1 = false /\
      cpu_isset 3 (offlined_cpus s1)
      = cpu_isset 3 (offlined_cpus state_with_A)) /\
  (exists r s1,
      jailhouse_cell_create (with_hc_res (fun _ _ => - EBUSY) kind_env)
                            (mkNewCell true true (cell_B 24) [])
                            state_with_A = (r, s1) /\
      r <> 0 /\ cells s1 = cells state_with_A /\
      forall c, In c (for_each_cell_cpu (cell_B 24)) ->
                cpu_online c s1 = true).
Proof.
  split.
  - destruct (create_claiming_offline_cpu kind_env
                (mkNewCell true true (cell_B 24) []) state_with_A 3%N)
      as [Hok _]; [reflexivity | left; reflexivity | reflexivity |].
    destruct Hok as (r & s1 & Hcall & Hcells & Hon & Hset & Hzero & _).
    + intros (c & _ & _ & Hf). apply Hf. reflexivity.
    + simpl. lia.
    + assert (Hr : r = 0).
      { apply Hzero. left. exists 4%N.
        split; [right; left; reflexivity | reflexivity]. }
      subst r. exists s1. auto.
  - destruct (create_claiming_offline_cpu
                (with_hc_res (fun _ _ => - EBUSY) kind_env)
                (mkNewCell true true (cell_B 24) []) state_with_A 3%N)
      as [_ Hrej]; [reflexivity | left; reflexivity | reflexivity |].
    destruct Hrej as (r & s1 & Hcall & Hnz & Hcells & Hup).
    + right. simpl. unfold EBUSY. lia.
    + exists r, s1. split; [exact Hcall|]. split; [exact Hnz|].
      split; [exact Hcells|].
      intros c Hin. apply Hup; [exact Hin | reflexivity].
Defined.

(** C2 as stated fails.  Cell A holds CPUs 2 and 3; a create for a cell
    claiming CPUs 3 and 4 skips CPU 3, takes CPU 4 down and, the hypervisor
    accepting, returns 0 with the cell registered. *)
Lemma create_over_claimed_cpu_succeeds :
  for_each_cell_cpu (cell_B 24) = [3%N; 4%N] /\
  In (mkCell [x41] 1) (cells state_with_A) /\
  cpu_isset 3 (offlined_cpus state_with_A) = true /\
  fst (jailhouse_cell_create kind_env (mkNewCell true true (cell_B 24) [])
                             state_with_A) = 0 /\
  In (mkCell [x42] 1)
     (cells (snd (jailhouse_cell_create kind_env
                    (mkNewCell true true (cell_B 24) []) state_with_A))).
Proof.
  split; [reflexivity|]. split; [simpl; tauto|].
  split; [reflexivity|]. split; [reflexivity|].
  vm_compute. tauto.
Qed.

(** ** What a destroy brings back online (C10) *)

(** A return of 0 from jailhouse_cell_destroy: the cell was found, the
    hypervisor answered 0, the cell was deleted and the loop ran. *)
Lemma destroy_zero (e : env) (arg : jailhouse_cell) (s s1 : state) :
  jailhouse_cell_destroy e arg s = (0, s1) ->
  enabled s = true /\
  exists c,
    find_cell (terminate_name (cell_config arg)) s = Some c /\
    hc_res e JAILHOUSE_HC_CELL_DESTROY (id c) = 0 /\
    s1 = fold_left (destroy_cpu_up e) (for_each_cell_cpu (cell_config arg))
           (delete_cell c
              (log_event (EvHypercall JAILHOUSE_HC_CELL_DESTROY (id c) 0) s)).
Proof.
  unfold jailhouse_cell_destroy, EFAULT, ENOMEM, EINTR, EINVAL, ENOENT.
  destruct (cell_readable arg); simpl; [|discriminate].
  destruct (kmalloc_ok e); simpl; [|discriminate].
  destruct (cell_config_readable arg); simpl; [|discriminate].
  destruct (lock_acquired e); simpl; [|discriminate].
  destruct (enabled s); simpl; [|discriminate].
  destruct (find_cell _ s) as [c|]; [|discriminate].
  destruct (Z.eqb_spec (hc_res e JAILHOUSE_HC_CELL_DESTROY (id c)) 0)
    as [Hz|Hnz]; simpl.
  - intros H. injection H as _ Hs. split; [reflexivity|].
    exists c. split; [reflexivity|]. split; [exact Hz|].
    rewrite for_each_cell_cpu_name, Hz in Hs. symmetry. exact Hs.
  - intros H. injection H as Hr _. contradiction.
Qed.


(** C10 as the code has it: after a destroy that returned 0, cpu_up was
    called on exactly the CPUs of the supplied configuration that were in
    offlined_cpus; all of them left offlined_cpus and those whose cpu_up
    succeeded are online; no other CPU changed.  [created] stands for the
    CPU set the cell was created with, which the driver does not keep: a
    recorded CPU of [created] that the supplied set misses stays recorded
    with its online status unchanged, and a recorded CPU of the supplied set
    outside [created] leaves offlined_cpus (and is online when its cpu_up
    succeeds). *)
Theorem destroy_restores_supplied_set (e : env) (arg : jailhouse_cell)
        (s s1 : state) :
  jailhouse_cell_destroy e arg s = (0, s1) ->
  (exists c evs,
      find_cell (terminate_name (cell_config arg)) s = Some c /\
      log s1
      = log s ++ EvHypercall JAILHOUSE_HC_CELL_DESTROY (id c) 0 :: evs /\
      forall cpu,
        cpu_up_logged cpu evs
        = cpu_in cpu (for_each_cell_cpu (cell_config arg))
          && cpu_isset cpu (offlined_cpus s)) /\
  (forall cpu,
      cpu_online cpu s1
      = cpu_online cpu s
        || (cpu_in cpu (for_each_cell_cpu (cell_config arg))
            && cpu_isset cpu (offlined_cpus s)
            && (cpu_up_res e cpu =? 0))) /\
  (forall cpu,
      cpu_isset cpu (offlined_cpus s1)
      = cpu_isset cpu (offlined_cpus s)
        && negb (cpu_in cpu (for_each_cell_cpu (cell_config arg)))) /\
  (forall (created : list N) (cpu : N),
      cpu_isset cpu (offlined_cpus s) = true ->
      (In cpu created ->
       ~ In cpu (for_each_cell_cpu (cell_config arg)) ->
       cpu_isset cpu (offlined_cpus s1) = true /\
       cpu_online cpu s1 = cpu_online cpu s) /\
      (~ In cpu created ->
       In cpu (for_each_cell_cpu (cell_config arg)) ->
       cpu_isset cpu (offlined_cpus s1) = false /\
       (cpu_up_res e cpu = 0 -> cpu_online cpu s1 = true))).
Proof.
  intros Hcall.
  destruct (destroy_zero e arg s s1 Hcall) as (_ & c & Hfind & Hhc & ->).
  set (s_d := delete_cell c
                (log_event (EvHypercall JAILHOUSE_HC_CELL_DESTROY (id c) 0) s)).
  assert (Hon_d : forall cpu, cpu_online cpu s_d = cpu_online cpu s)
    by reflexivity.
  assert (Hoff_d : offlined_cpus s_d = offlined_cpus s) by reflexivity.
  assert (Hlog_d : log s_d
                   = log s ++ [EvHypercall JAILHOUSE_HC_CELL_DESTROY (id c) 0])
    by reflexivity.
  destruct (destroy_loop e (for_each_cell_cpu (cell_config arg)) s_d)
    as (_ & Hset & Hon & evs & Hlog & Hup).
  assert (Hon' : forall cpu,
             cpu_online cpu
               (fold_left (destroy_cpu_up e)
                          (for_each_cell_cpu (cell_config arg)) s_d)
             = cpu_online cpu s
               || (cpu_in cpu (for_each_cell_cpu (cell_config arg))
                   && cpu_isset cpu (offlined_cpus s)
                   && (cpu_up_res e cpu =? 0))).
  { intros cpu. rewrite Hon, Hon_d, Hoff_d. reflexivity. }
  assert (Hset' : forall cpu,
             cpu_isset cpu
               (offlined_cpus
                  (fold_left (destroy_cpu_up e)
                             (for_each_cell_cpu (cell_config arg)) s_d))
             = cpu_isset cpu (offlined_cpus s)
               && negb (cpu_in cpu (for_each_cell_cpu (cell_config arg)))).
  { intros cpu. rewrite Hset, Hoff_d. reflexivity. }
  split; [|split; [exact Hon'|split; [exact Hset'|]]].
  - exists c, evs. split; [exact Hfind|]. split.
    + rewrite Hlog, Hlog_d, <- app_assoc. reflexivity.
    + intros cpu. rewrite Hup, Hoff_d. reflexivity.
  - intros created cpu Htracked. split.
    + intros _ Hout. apply cpu_in_not_In in Hout.
      rewrite Hset', Hon', Hout, Htracked. simpl.
      rewrite Bool.orb_false_r. auto.
    + intros _ Hin. apply cpu_in_In in Hin.
      rewrite Hset', Hon', Hin, Htracked. simpl. split; [reflexivity|].
      intros Hok. apply Z.eqb_eq in Hok. rewrite Hok.
      apply Bool.orb_true_r.
Qed.

Lemma destroy_restores_supplied_set_witness :
  cpu_isset 2 (offlined_cpus
                 (snd (jailhouse_cell_destroy kind_env
                         (mkCellArg true true (cell_A 12)) state_with_A)))
  = false /\
  cpu_online 2 (snd (jailhouse_cell_destroy kind_env
                       (mkCellArg true true (cell_A 12)) state_with_A))
  = true.
Proof.
  destruct (destroy_restores_supplied_set kind_env
              (mkCellArg true true (cell_A 12)) state_with_A
              (snd (jailhouse_cell_destroy kind_env
                      (mkCellArg true true (cell_A 12)) state_with_A))
              eq_refl) as (_ & Hon & Hset & _).
  rewrite Hon, Hset. split; reflexivity.
Defined.

(** C10 as stated fails in two ways.  Cell A was created on CPUs 2 and 3,
    the only recorded CPUs.  A destroy that supplies CPUs 2, 3 and 7 differs
    from the set of the creation, yet leaves no CPU of the cell offlined and
    restores no CPU of another cell.  And in a destroy that supplies CPUs 2
    and 3 while cpu_up fails on CPU 2, CPU 2 is in the intersection and is
    not brought back online. *)
Lemma destroy_supplied_set_differs_or_fails :
  (for_each_cell_cpu (cell_A 12) = [2%N; 3%N] /\
   for_each_cell_cpu (cell_A 140) = [2%N; 3%N; 7%N] /\
   offlined_cpus state_with_A = 12%N /\
   fst (jailhouse_cell_destroy kind_env (mkCellArg true true (cell_A 140))
                               state_with_A) = 0 /\
   offlined_cpus
     (snd (jailhouse_cell_destroy kind_env (mkCellArg true true (cell_A 140))
                                  state_with_A)) = 0%N /\
   cpu_online_mask
     (snd (jailhouse_cell_destroy kind_env (mkCellArg true true (cell_A 140))
                                  state_with_A)) = 255%N) /\
  (fst (jailhouse_cell_destroy
          (with_cpu_up_res (fun cpu => if (cpu =? 2)%N then - EBUSY else 0)
                           kind_env)
          (mkCellArg true true (cell_A 12)) state_with_A) = 0 /\
   cpu_isset 2 (offlined_cpus state_with_A) = true /\
   cpu_online 2
     (snd (jailhouse_cell_destroy
             (with_cpu_up_res (fun cpu => if (cpu =? 2)%N then - EBUSY else 0)
                              kind_env)
             (mkCellArg true true (cell_A 12)) state_with_A)) = false).
Proof. repeat split; vm_compute; reflexivity. Qed.

(** ** CPU conservation (C8) *)

Lemma load_image_zero (config : jailhouse_cell_desc) (uimage : user_image)
      (s : state) :
  fst (load_image config uimage s) = 0 -> image_loads config uimage = true.
Proof.
  unfold load_image, image_loads, jailhouse_ioremap, EFAULT, EINVAL, EBUSY.
  destruct (image_readable uimage); simpl; [|discriminate].
  destruct (image_region (image uimage) (mem_regions config))
    as [[m image_offset]|]; simpl; [|discriminate].
  destruct (image_area uimage =? 0) eqn:Harea; simpl; rewrite ?Harea;
    [discriminate|].
  destruct (image_range_err uimage =? 0); simpl; rewrite ?Harea;
    [|discriminate].
  destruct (payload_readable uimage); simpl; intros H;
    [reflexivity | discriminate H].
Qed.

(** The image loop jumps with a nonzero error or every image loaded. *)
Lemma load_images_cases (config : jailhouse_cell_desc)
      (images : list user_image) (err : Z) (s : state) :
  match fst (load_images config images err s) with
  | Jump err1 => err1 <> 0
  | Fallthrough _ => forallb (image_loads config) images = true
  end.
Proof.
  revert err s. induction images as [|u images IH]; intros err s; simpl.
  - reflexivity.
  - pose proof (load_image_zero config u s) as Hzero.
    destruct (load_image config u s) as [err1 s1]. simpl in Hzero.
    destruct (Z.eqb_spec err1 0) as [Hz|Hnz]; simpl.
    + rewrite (Hzero Hz). simpl. apply IH.
    + exact Hnz.
Qed.

(** A return of 0 from jailhouse_cell_create is a success: the call got to
    the CPU loop, no cpu_down failed and the hypervisor accepted. *)
Lemma create_zero_reaches (e : env) (arg : jailhouse_new_cell) (s s1 : state) :
  jailhouse_cell_create e arg s = (0, s1) ->
  create_reaches_cpus e arg s = true /\
  ~ withdrawal_fails e (for_each_cell_cpu (new_config arg)) s /\
  0 <= hc_res e JAILHOUSE_HC_CELL_CREATE (config_pa e).
Proof.
  intros H.
  assert (Hreach : create_reaches_cpus e arg s = true).
  { unfold create_reaches_cpus, create_delivered.
    unfold jailhouse_cell_create, EFAULT, ENOMEM, EINTR, EINVAL, EEXIST in H.
    destruct (new_cell_readable arg); cbn [negb Z.opp] in H; [|discriminate H].
    destruct (kmalloc_ok e); cbn [negb Z.opp] in H; [|discriminate H].
    destruct (new_config_readable arg); cbn [negb Z.opp] in H; [|discriminate H].
    cbv zeta in H.
    destruct (lock_acquired e); cbn [negb Z.opp] in H; [|discriminate H].
    destruct (enabled s); cbn [negb Z.opp] in H; [|discriminate H].
    destruct (find_cell (terminate_name (new_config arg)) s);
      cbn [Z.opp] in H; [discriminate H|].
    pose proof (load_images_cases (terminate_name (new_config arg))
                  (preload_images arg) (stack_garbage e) s) as Himg.
    destruct (load_images (terminate_name (new_config arg))
                          (preload_images arg) (stack_garbage e) s)
      as [[err|err] s_img]; simpl in Himg.
    - rewrite Himg. unfold create_cell, ENOMEM in H.
      destruct (kzalloc_ok e); cbn [negb Z.opp] in H; [|discriminate H].
      destruct (Z.eqb_spec (kobject_add_err e) 0) as [Hz|Hnz];
        cbn [negb Z.opp] in H; [reflexivity|].
      injection H as Hr _. contradiction.
    - injection H as Hr _. contradiction. }
  split; [exact Hreach|]. split.
  - intros Hfail.
    destruct (create_failure_effects e arg s Hreach (or_introl Hfail))
      as (r & s2 & _ & Hcall & Hnz & _).
    rewrite H in Hcall. injection Hcall as Hr _. congruence.
  - destruct (Z.lt_ge_cases (hc_res e JAILHOUSE_HC_CELL_CREATE (config_pa e))
                            0) as [Hrej|Hacc]; [|exact Hacc].
    destruct (create_failure_effects e arg s Hreach (or_intror Hrej))
      as (r & s2 & _ & Hcall & Hnz & _).
    rewrite H in Hcall. injection Hcall as Hr _. congruence.
Qed.

Lemma owned_app (os : list owner) (o : owner) (cpu : N) :
  owned (os ++ [o]) cpu <-> owned os cpu \/ In cpu (snd o).
Proof.
  unfold owned. split.
  - intros (o' & Hin & Hc). apply in_app_or in Hin.
    destruct Hin as [Hin|[<-|[]]]; [left; eauto | right; exact Hc].
  - intros [(o' & Hin & Hc)|Hc].
    + exists o'. split; [apply in_or_app; left; exact Hin | exact Hc].
    + exists o. split; [apply in_or_app; right; left; reflexivity | exact Hc].
Qed.

Lemma owned_cons (o : owner) (os : list owner) (cpu : N) :
  owned (o :: os) cpu <-> In cpu (snd o) \/ owned os cpu.
Proof.
  unfold owned. split.
  - intros (o' & [<-|Hin] & Hc); [left; exact Hc | right; eauto].
  - intros [Hc|(o' & Hin & Hc)].
    + exists o. split; [left; reflexivity | exact Hc].
    + exists o'. split; [right; exact Hin | exact Hc].
Qed.

Lemma pairwise_disjoint_snoc (os : list owner) (o : owner) :
  pairwise_disjoint os ->
  (forall cpu, owned os cpu -> ~ In cpu (snd o)) ->
  pairwise_disjoint (os ++ [o]).
Proof.
  induction 1 as [|o' os Hhead Htail IH]; intros Hnew; simpl.
  - constructor; [|constructor]. intros cpu _ (x & [] & _).
  - constructor.
    + intros cpu Hc Howned. apply owned_app in Howned.
      destruct Howned as [Howned|Hin].
      * exact (Hhead cpu Hc Howned).
      * apply (Hnew cpu); [|exact Hin].
        apply owned_cons. left. exact Hc.
    + apply IH. intros cpu Howned. apply Hnew. apply owned_cons. right.
      exact Howned.
Qed.

Lemma forget_owner_In (c : cell) (os : list owner) (o : owner) :
  In o (forget_owner c os) -> In o os.
Proof.
  induction os as [|o' os IH]; simpl; [tauto|].
  destruct (cell_eqb c (fst o')); simpl; [tauto|].
  intros [<-|Hin]; [left; reflexivity | right; apply IH; exact Hin].
Qed.

Lemma pairwise_disjoint_forget (c : cell) (os : list owner) :
  pairwise_disjoint os -> pairwise_disjoint (forget_owner c os).
Proof.
  induction 1 as [|o os Hhead Htail IH]; simpl; [constructor|].
  destruct (cell_eqb c (fst o)); [exact Htail|].
  constructor; [|exact IH].
  intros cpu Hc (o' & Hin & Hc'). apply (Hhead cpu Hc).
  exists o'. split; [eapply forget_owner_In; exact Hin | exact Hc'].
Qed.

(** Forgetting the entry of a cell takes its CPUs, and only those, out of
    the owned ones. *)
Lemma owned_forget (c : cell) (cpus : list N) (os : list owner) :
  pairwise_disjoint os ->
  owner_cpus c os = Some cpus ->
  forall cpu,
    (owned os cpu <-> In cpu cpus \/ owned (forget_owner c os) cpu) /\
    (In cpu cpus -> ~ owned (forget_owner c os) cpu).
Proof.
  induction 1 as [|o os Hhead Htail IH]; intros Hcpus cpu;
    [discriminate|].
  simpl in *. destruct (cell_eqb c (fst o)).
  - injection Hcpus as <-. split.
    + apply owned_cons.
    + intros Hc. apply Hhead. exact Hc.
  - destruct (IH Hcpus cpu) as [Hiff Hnot].
    split.
    + rewrite !owned_cons, Hiff. tauto.
    + intros Hc Howned. apply owned_cons in Howned.
      destruct Howned as [Hco|Howned]; [|exact (Hnot Hc Howned)].
      apply (Hhead cpu Hco). apply Hiff. left. exact Hc.
Qed.


Lemma cell_eqb_name (a b : cell) :
  cell_eqb a b = true -> kobject_name a = kobject_name b.
Proof.
  unfold cell_eqb. intros H. apply Bool.andb_true_iff in H.
  destruct H as [H _]. apply list_byte_eqb_eq. exact H.
Qed.

Lemma cell_eqb_refl (a : cell) : cell_eqb a a = true.
Proof.
  unfold cell_eqb. rewrite list_byte_eqb_refl, Z.eqb_refl. reflexivity.
Qed.

Lemma cell_eqb_eq (a b : cell) : cell_eqb a b = true -> a = b.
Proof.
  unfold cell_eqb. intros H. apply Bool.andb_true_iff in H.
  destruct H as [Hn Hi]. apply list_byte_eqb_eq in Hn. apply Z.eqb_eq in Hi.
  destruct a, b. simpl in *. congruence.
Qed.

(** Deleting a cell from the list and forgetting its entry go together. *)
Lemma remove_first_aligned (os : list owner) (c : cell) :
  map fst (forget_owner c os) = remove_first cell_eqb c (map fst os).
Proof.
  induction os as [|o os IH]; simpl; [reflexivity|].
  destruct (cell_eqb c (fst o)); [reflexivity|].
  simpl. rewrite IH. reflexivity.
Qed.


Lemma find_cell_free (config : jailhouse_cell_desc) (s : state) (c : cell) :
  find_cell config s = None ->
  In c (cells s) ->
  c_string (kobject_name c) <> c_string (name config).
Proof.
  unfold find_cell. intros H Hin Heq.
  apply (find_none _ _ H) in Hin. apply strcmp_zero in Heq.
  rewrite Heq in Hin. discriminate.
Qed.

(** A successful create of a cell on online CPUs keeps the conservation. *)
Lemma conserved_create (e : env) (arg : jailhouse_new_cell) (s s1 : state)
      (os : list owner) :
  conserved s os ->
  jailhouse_cell_create e arg s = (0, s1) ->
  (forall cpu, In cpu (for_each_cell_cpu (new_config arg)) ->
               cpu_online cpu s = true) ->
  conserved s1 (os ++ [owner_of e (new_config arg)]).
Proof.
  intros [Hroot Htracked Hoffline Hdisj] Hcall Honline.
  destruct (create_zero_reaches e arg s s1 Hcall) as (Hreach & Hnofail & Hacc).
  destruct (create_success_effects e arg s Hreach Hnofail Hacc)
    as (r & s2 & Hcall2 & Hcells & _ & Hon & Hset & _).
  rewrite Hcall in Hcall2. injection Hcall2 as _ <-.
  set (cpus := for_each_cell_cpu (new_config arg)) in *.
  assert (Hin_cpus : forall cpu, cpu_in cpu cpus = true ->
                                 cpu_online cpu s = true)
    by (intros cpu Hc; apply Honline, cpu_in_In; exact Hc).
  constructor.
  - destruct Hroot as (root & others & Hs & Hmap).
    exists root, (others ++ [fst (owner_of e (new_config arg))]).
    split; [rewrite Hcells, Hs; reflexivity|].
    rewrite <- Hmap, map_app. reflexivity.
  - intros cpu. rewrite Hset, owned_app. simpl. fold cpus.
    rewrite <- Htracked, <- cpu_in_In. specialize (Hin_cpus cpu).
    destruct (cpu_isset cpu (offlined_cpus s)), (cpu_in cpu cpus); simpl;
      tauto.
  - intros cpu. rewrite Hset, Hon. specialize (Hoffline cpu).
    destruct (cpu_isset cpu (offlined_cpus s)), (cpu_in cpu cpus); simpl;
      intros H; try discriminate; try (rewrite Hoffline by reflexivity);
      try reflexivity; apply Bool.andb_false_r.
  - apply pairwise_disjoint_snoc; [exact Hdisj|].
    intros cpu Howned Hin. simpl in Hin. fold cpus in Hin.
    apply Htracked in Howned. apply Hoffline in Howned.
    rewrite (Honline cpu Hin) in Howned. discriminate.
Qed.

(** A successful destroy of a cell other than the root cell that supplies
    the CPU set of the creation keeps the conservation. *)
Lemma conserved_destroy (e : env) (arg : jailhouse_cell) (s s1 : state)
      (os : list owner) (c : cell) :
  conserved s os ->
  jailhouse_cell_destroy e arg s = (0, s1) ->
  find_cell (terminate_name (cell_config arg)) s = Some c ->
  hd_error (cells s) <> Some c ->
  owner_cpus c os = Some (for_each_cell_cpu (cell_config arg)) ->
  conserved s1 (forget_owner c os).
Proof.
  intros [Hroot Htracked Hoffline Hdisj] Hcall Hfind Hnotroot Hcpus.
  destruct (destroy_zero e arg s s1 Hcall) as (_ & c' & Hfind' & _ & Hs1).
  rewrite Hfind in Hfind'. injection Hfind' as <-.
  set (cpus := for_each_cell_cpu (cell_config arg)) in *.
  set (s_d := delete_cell c
                (log_event (EvHypercall JAILHOUSE_HC_CELL_DESTROY (id c) 0) s))
    in *.
  destruct (destroy_loop e cpus s_d) as (Hsbc & Hset & Hon & _).
  rewrite <- Hs1 in Hsbc, Hset, Hon.
  change (offlined_cpus s_d) with (offlined_cpus s) in Hset, Hon.
  assert (Hon' : forall cpu,
             cpu_online cpu s1
             = cpu_online cpu s
               || (cpu_in cpu cpus && cpu_isset cpu (offlined_cpus s)
                   && (cpu_up_res e cpu =? 0)))
    by (intros cpu; rewrite Hon; reflexivity).
  destruct Hroot as (root & others & Hs & Hmap).
  assert (Hroot_c : cell_eqb c root = false).
  { destruct (cell_eqb c root) eqn:Heq; [|reflexivity].
    apply cell_eqb_eq in Heq. subst root. rewrite Hs in Hnotroot.
    exfalso. apply Hnotroot. reflexivity. }
  assert (Hcells : cells s1 = root :: remove_first cell_eqb c others).
  { rewrite (sbc_cells _ _ Hsbc). unfold s_d. simpl. rewrite Hs. simpl.
    rewrite Hroot_c. reflexivity. }
  constructor.
  - exists root, (remove_first cell_eqb c others).
    split; [exact Hcells|]. rewrite <- Hmap. apply remove_first_aligned.
  - intros cpu. rewrite Hset.
    destruct (owned_forget c cpus os Hdisj Hcpus cpu) as [Hiff Hnot].
    rewrite <- cpu_in_In in Hiff, Hnot.
    specialize (Htracked cpu).
    destruct (cpu_isset cpu (offlined_cpus s)), (cpu_in cpu cpus); simpl;
      intuition discriminate.
  - intros cpu. rewrite Hset, Hon'. specialize (Hoffline cpu).
    destruct (cpu_isset cpu (offlined_cpus s)), (cpu_in cpu cpus); simpl;
      intros H; try discriminate.
    rewrite Hoffline by reflexivity. reflexivity.
  - apply pairwise_disjoint_forget. exact Hdisj.
Qed.

Lemma cpumask_list_complete (cpu : N) (mask : cpumask) :
  cpu_isset cpu mask = true -> In cpu (cpumask_list mask).
Proof.
  unfold cpumask_list, cpu_isset. intros Hset.
  apply filter_In. split; [|exact Hset].
  unfold N_range. apply in_map_iff. exists (N.to_nat cpu).
  split; [apply N2Nat.id|]. apply in_seq.
  assert (Hm : mask <> 0%N)
    by (intros ->; rewrite N.bits_0 in Hset; discriminate).
  assert (Hlt : (cpu < N.size mask)%N).
  { rewrite (N.size_log2 mask Hm).
    destruct (N.lt_ge_cases (N.log2 mask) cpu) as [Habove|Hle]; [|lia].
    rewrite (N.bits_above_log2 mask cpu Habove) in Hset. discriminate. }
  lia.
Qed.

(** The loop over offlined_cpus in jailhouse_disable clears the CPUs it
    visits and touches no cell. *)
Lemma disable_loop (e : env) (cpus : list N) (s : state) :
  same_but_cpus s (fold_left (disable_cpu_up e) cpus s) /\
  forall c, cpu_isset c (offlined_cpus (fold_left (disable_cpu_up e) cpus s))
            = cpu_isset c (offlined_cpus s) && negb (cpu_in c cpus).
Proof.
  revert s. induction cpus as [|a cpus IH]; intros s; simpl.
  - split; [apply same_but_cpus_refl|].
    intros c. rewrite Bool.andb_true_r. reflexivity.
  - destruct (IH (disable_cpu_up e s a)) as [Hsame Hset].
    assert (Hstep : same_but_cpus s (disable_cpu_up e s a) /\
                    offlined_cpus (disable_cpu_up e s a)
                    = cpu_clear a (offlined_cpus s)).
    { unfold disable_cpu_up, cpu_up.
      destruct (cpu_up_res e a =? 0); simpl;
        (split; [constructor; reflexivity | reflexivity]). }
    destruct Hstep as [Hsame1 Hoff1].
    split; [eapply same_but_cpus_trans; eassumption|].
    intros c. rewrite Hset, Hoff1, cpu_isset_clear.
    destruct (c =? a)%N; simpl; bool_cases.
Qed.

(** Deleting every cell of the list leaves it empty. *)
Lemma delete_all_cells (l : list cell) (s : state) :
  cells s = l ->
  cells (fold_left (fun s c => delete_cell c s) l s) = [] /\
  offlined_cpus (fold_left (fun s c => delete_cell c s) l s)
  = offlined_cpus s.
Proof.
  revert s. induction l as [|c l IH]; intros s Hl; simpl.
  - auto.
  - destruct (IH (delete_cell c s)) as [Hcells Hoff].
    + unfold delete_cell, kobject_put. simpl. rewrite Hl. simpl.
      rewrite cell_eqb_refl. reflexivity.
    + split; [exact Hcells|]. rewrite Hoff. reflexivity.
Qed.

(** A return of 0 from jailhouse_disable: no CPU is recorded, no cell is
    left, the system is disabled. *)
Lemma disable_zero (e : env) (s s1 : state) :
  jailhouse_disable e s = Some (0, s1) ->
  offlined_cpus s1 = 0%N /\ cells s1 = [] /\ enabled s1 = false.
Proof.
  unfold jailhouse_disable, EINTR, EINVAL.
  destruct (lock_acquired e); simpl; [|discriminate].
  destruct (enabled s); simpl; [|discriminate].
  destruct (on_each_cpu (leave_hypervisor e) (barrier_order e)
                        (set_error_code 0 s)) as [s2|]; [|discriminate].
  destruct (Z.eqb_spec (error_code s2) 0) as [Hz|Hnz]; simpl.
  - intros H. injection H as _ <-.
    set (s3 := vunmap (hypervisor_mem s2) s2).
    destruct (disable_loop e (cpumask_list (offlined_cpus s3)) s3)
      as [Hsame Hset].
    set (s4 := fold_left (disable_cpu_up e)
                         (cpumask_list (offlined_cpus s3)) s3) in *.
    destruct (delete_all_cells (cells s4) s4 eq_refl) as [Hcells Hoff].
    split; [|split; [exact Hcells | reflexivity]].
    change (offlined_cpus
              (fold_left (fun s c => delete_cell c s) (cells s4) s4) = 0%N).
    rewrite Hoff. apply N.bits_inj_0. intros c.
    change (N.testbit (offlined_cpus s4) c)
      with (cpu_isset c (offlined_cpus s4)).
    rewrite Hset.
    destruct (cpu_isset c (offlined_cpus s3)) eqn:Hc; [|reflexivity].
    apply cpumask_list_complete, cpu_in_In in Hc. rewrite Hc. reflexivity.
  - intros H. injection H as Hr _. contradiction.
Qed.

(** C8 as the code has it: through a run of create and destroy calls that
    all return 0, in which every create claims CPUs that are online when it
    is called and every destroy names a registered cell other than the root
    cell and supplies the CPU set that cell was created with, the CPUs in
    offlined_cpus are exactly those of the CPU sets of the registered
    non-root cells (the owner list holds the cells after the root cell, each
    with the CPU set of its creation); and after a disable that returns 0,
    offlined_cpus is empty, the cell list is empty and the system is
    disabled. *)
Theorem cpu_conservation :
  (forall s os calls s1 os1,
      conserved s os ->
      matched_run s os calls s1 os1 ->
      conserved s1 os1 /\
      (forall cpu, cpu_isset cpu (offlined_cpus s1) = true <-> owned os1 cpu) /\
      map fst os1 = tl (cells s1)) /\
  (forall e s s1,
      jailhouse_disable e s = Some (0, s1) ->
      offlined_cpus s1 = 0%N /\ cells s1 = [] /\ enabled s1 = false).
Proof.
  split.
  - intros s os calls s1 os1 Hc Hrun.
    assert (Hend : conserved s1 os1).
    { induction Hrun as [s os
                        | s os e arg s1 calls s2 os2 Hcall Honline Hrun IH
                        | s os e arg c s1 calls s2 os2 Hcall Hfind Hnotroot
                            Hcpus Hrun IH].
      - exact Hc.
      - apply IH. eapply conserved_create; eassumption.
      - apply IH. eapply conserved_destroy; eassumption. }
    split; [exact Hend|]. split; [apply (cons_tracked _ _ Hend)|].
    destruct (cons_root _ _ Hend) as (root & others & Hcells & Hmap).
    rewrite Hcells. exact Hmap.
  - intros e s s1. apply disable_zero.
Qed.

(** The state after enable, with no cell but the root cell, is conserved. *)
Lemma conserved_enabled_state : conserved enabled_state [].
Proof.
  constructor.
  - exists (mkCell root_name 0), []. split; reflexivity.
  - intros cpu. change (offlined_cpus enabled_state) with 0%N.
    unfold cpu_isset. rewrite N.bits_0. split.
    + discriminate.
    + intros (o & [] & _).
  - intros cpu. change (offlined_cpus enabled_state) with 0%N.
    unfold cpu_isset. rewrite N.bits_0. discriminate.
  - constructor.
Qed.

Lemma cpu_conservation_witness :
  (conserved state_with_A [owner_of kind_env (cell_A 12)] /\
   (cpu_isset 2 (offlined_cpus state_with_A) = true
    <-> owned [owner_of kind_env (cell_A 12)] 2%N)) /\
  (forall cpu,
      cpu_isset cpu
        (offlined_cpus
           (snd (jailhouse_cell_destroy kind_env
                   (mkCellArg true true (cell_A 12)) state_with_A))) = true
      <-> owned [] cpu) /\
  offlined_cpus (state_of (jailhouse_disable kind_env state_with_A)
                          state_with_A) = 0%N.
Proof.
  destruct cpu_conservation as [Hrun Hdis].
  assert (Hcreate : matched_run
                      enabled_state []
                      [Create kind_env (mkNewCell true true (cell_A 12) [])]
                      state_with_A [owner_of kind_env (cell_A 12)]).
  { eapply run_create.
    - vm_compute. reflexivity.
    - cbn [new_config].
      replace (for_each_cell_cpu (cell_A 12)) with [2%N; 3%N]
        by (vm_compute; reflexivity).
      intros cpu [<-|[<-|[]]]; reflexivity.
    - apply run_nil. }
  split; [|split].
  - destruct (Hrun _ _ _ _ _ conserved_enabled_state Hcreate)
      as (Hc & Ht & _).
    split; [exact Hc | apply Ht].
  - destruct (Hrun state_with_A [owner_of kind_env (cell_A 12)]
                   [Destroy kind_env (mkCellArg true true (cell_A 12))]
                   (snd (jailhouse_cell_destroy kind_env
                           (mkCellArg true true (cell_A 12)) state_with_A))
                   [])
      as (_ & Ht & _).
    + destruct (Hrun _ _ _ _ _ conserved_enabled_state Hcreate)
        as (Hc & _).
      exact Hc.
    + apply (run_destroy _ _ _ _ (mkCell [x41] 1)
                         (snd (jailhouse_cell_destroy kind_env
                                 (mkCellArg true true (cell_A 12))
                                 state_with_A))).
      * vm_compute. reflexivity.
      * vm_compute. reflexivity.
      * vm_compute. discriminate.
      * vm_compute. reflexivity.
      * apply run_nil.
    + exact Ht.
  - destruct (Hdis kind_env state_with_A
                   (state_of (jailhouse_disable kind_env state_with_A)
                             state_with_A) eq_refl) as (Hoff & _).
    exact Hoff.
Defined.

(** C8 as stated fails in three ways.  Cell A is created on CPUs 2 and 3 and
    destroyed with a configuration that names CPU 2 only: both calls return
    0, no cell but the root cell is left, and CPU 3 is still in
    offlined_cpus.  With CPU 5 offline beforehand, a cell created on CPU 5
    is registered by a call that takes no CPU down: offlined_cpus stays
    empty while the cell's set holds CPU 5.  And a destroy that names the
    root cell with the root cell's CPU set, which the driver passes on to
    the hypervisor like any other, returns 0 when the hypervisor answers 0:
    offlined_cpus is empty afterwards while cell A, created on CPUs 2 and 3,
    is still registered. *)
Lemma cpu_conservation_broken :
  (jailhouse_cell_create kind_env (mkNewCell true true (cell_A 12) [])
                         enabled_state = (0, state_with_A) /\
   fst (jailhouse_cell_destroy kind_env (mkCellArg true true (cell_A 4))
                               state_with_A) = 0 /\
   cells (snd (jailhouse_cell_destroy kind_env
                 (mkCellArg true true (cell_A 4)) state_with_A))
   = [mkCell root_name 0] /\
   offlined_cpus (snd (jailhouse_cell_destroy kind_env
                         (mkCellArg true true (cell_A 4)) state_with_A))
   = 8%N) /\
  (for_each_cell_cpu (cell_A 32) = [5%N] /\
   cpu_online 5 state_cpu5_offline = false /\
   offlined_cpus state_cpu5_offline = 0%N /\
   cells (snd (jailhouse_cell_create
                 (with_stack_garbage 0 kind_env)
                 (mkNewCell true true (cell_A 32) []) state_cpu5_offline))
   = [mkCell root_name 0; mkCell [x41] 1] /\
   fst (jailhouse_cell_create
          (with_stack_garbage 0 kind_env)
          (mkNewCell true true (cell_A 32) []) state_cpu5_offline) = 0 /\
   offlined_cpus (snd (jailhouse_cell_create
                         (with_stack_garbage 0 kind_env)
                         (mkNewCell true true (cell_A 32) [])
                         state_cpu5_offline)) = 0%N) /\
  (cells state_with_A = [mkCell root_name 0; mkCell [x41] 1] /\
   offlined_cpus state_with_A = 12%N /\
   fst (jailhouse_cell_destroy kind_env
          (mkCellArg true true (small_config root_name 255)) state_with_A)
   = 0 /\
   cells (snd (jailhouse_cell_destroy kind_env
                 (mkCellArg true true (small_config root_name 255))
                 state_with_A))
   = [mkCell [x41] 1] /\
   offlined_cpus (snd (jailhouse_cell_destroy kind_env
                         (mkCellArg true true (small_config root_name 255))
                         state_with_A))
   = 0%N).
Proof. repeat split; vm_compute; reflexivity. Qed.

(** * Further properties of the driver *)

(** ** The iteration over a cell's CPU set *)

Lemma N_range_seq (a n : nat) :
  map N.of_nat (seq a n) = N_seq (N.of_nat a) n.
Proof.
  revert a. induction n as [|n IH]; intros a; simpl; [reflexivity|].
  rewrite IH. rewrite Nat2N.inj_succ, N.add_1_r. reflexivity.
Qed.

(** find_next_bit splits the bits from [offset] on into zeros, the bit it
    returns, and the rest. *)
Lemma find_next_bit_from_filter (addr size : N) (fuel : nat) (offset : N) :
  (N.to_nat (size - offset) <= fuel)%nat ->
  let r := find_next_bit_from fuel addr size offset in
  (r = size \/ (offset <= r < size)%N) /\
  filter (N.testbit addr) (N_seq offset (N.to_nat (size - offset)))
  = if (r <? size)%N
    then r :: filter (N.testbit addr)
                     (N_seq (r + 1) (N.to_nat (size - (r + 1))))
    else [].
Proof.
  revert offset. induction fuel as [|fuel IH]; intros offset Hfuel; simpl.
  - rewrite N.ltb_irrefl. split; [left; reflexivity|].
    replace (N.to_nat (size - offset)) with 0%nat by lia. reflexivity.
  - destruct (N.leb_spec size offset) as [Hle|Hlt].
    + rewrite N.ltb_irrefl. split; [left; reflexivity|].
      replace (N.to_nat (size - offset)) with 0%nat by lia. reflexivity.
    + replace (N.to_nat (size - offset))
        with (S (N.to_nat (size - (offset + 1)))) by lia.
      simpl. destruct (N.testbit addr offset) eqn:Hbit.
      * split; [right; lia|].
        destruct (N.ltb_spec offset size); [reflexivity | lia].
      * destruct (IH (offset + 1)%N ltac:(lia)) as [Hr Hfilter].
        split; [destruct Hr as [Hr|Hr]; [left; exact Hr | right; lia]|].
        exact Hfilter.
Qed.

Lemma int_of_uint_small (u : N) : (u < 2 ^ 31)%N -> int_of_uint u = Z.of_N u.
Proof.
  intros Hu. unfold int_of_uint, UINT_MODULUS.
  assert (Hz : 0 <= Z.of_N u < 2 ^ 31).
  { split; [lia|]. change (2 ^ 31) with (Z.of_N (2 ^ 31)). lia. }
  rewrite Z.mod_small by lia.
  destruct (Z.ltb_spec (Z.of_N u) (2 ^ 31)); [reflexivity | lia].
Qed.

(** The rounds of for_each_cell_cpu from a CPU whose successor is
    [offset]: the set bits from [offset] to the end of the bitmap. *)
Lemma for_each_cell_cpu_from_filter (config : jailhouse_cell_desc)
      (fuel : nat) (cpu offset : N) :
  (cpu_set_bits config <= 2 ^ 31)%N ->
  ulong_of_int (int_of_uint cpu + 1) = offset ->
  (N.to_nat (cpu_set_bits config - offset) < fuel)%nat ->
  for_each_cell_cpu_from fuel cpu config
  = filter (N.testbit (cell_cpu_set config))
           (N_seq offset (N.to_nat (cpu_set_bits config - offset))).
Proof.
  intros Hbits. revert cpu offset.
  induction fuel as [|fuel IH]; intros cpu offset Hnext Hfuel; [lia|].
  simpl. unfold cell_cpumask_next, find_next_bit. rewrite Hnext.
  destruct (find_next_bit_from_filter (cell_cpu_set config)
              (cpu_set_bits config)
              (N.to_nat (cpu_set_bits config - offset)) offset (le_n _))
    as [Hr Hfilter].
  cbv zeta in Hr, Hfilter.
  set (r := find_next_bit_from (N.to_nat (cpu_set_bits config - offset))
                               (cell_cpu_set config) (cpu_set_bits config)
                               offset) in *.
  assert (Hsmall : (r <= 2 ^ 31)%N) by (destruct Hr; lia).
  assert (Hcast : uint_of_ulong r = r).
  { unfold uint_of_ulong. apply N.mod_small.
    assert ((2 ^ 31 < 2 ^ 32)%N) by reflexivity. lia. }
  rewrite Hcast, Hfilter.
  destruct (N.ltb_spec r (cpu_set_bits config)) as [Hlt|Hge];
    [|reflexivity].
  f_equal. apply IH.
  - rewrite int_of_uint_small by lia.
    unfold ulong_of_int, ULONG_MODULUS.
    assert (Hz : 0 <= Z.of_N r + 1 < 2 ^ 64).
    { split; [lia|].
      assert (Z.of_N r <= Z.of_N (2 ^ 31)) by lia.
      change (Z.of_N (2 ^ 31)) with (2 ^ 31) in *.
      assert (2 ^ 31 + 1 < 2 ^ 64) by reflexivity. lia. }
    rewrite Z.mod_small by exact Hz. lia.
  - destruct Hr as [Hr|Hr]; lia.
Qed.

(** for_each_cell_cpu on a bitmap of at most 2^31 bits visits the set bits
    below [cpu_set_size * 8], each once, in ascending order; no CPU is
    visited when the bitmap is empty. *)
Theorem for_each_cell_cpu_set_bits (config : jailhouse_cell_desc) :
  (cpu_set_bits config <= 2 ^ 31)%N ->
  for_each_cell_cpu config
  = filter (N.testbit (cell_cpu_set config))
           (N_range (N.to_nat (cpu_set_bits config))) /\
  (forall cpu, In cpu (for_each_cell_cpu config) <->
               (cpu < cpu_set_bits config)%N /\
               N.testbit (cell_cpu_set config) cpu = true) /\
  NoDup (for_each_cell_cpu config).
Proof.
  intros Hbits.
  assert (Heq : for_each_cell_cpu config
                = filter (N.testbit (cell_cpu_set config))
                         (N_range (N.to_nat (cpu_set_bits config)))).
  { unfold for_each_cell_cpu, N_range. rewrite N_range_seq.
    rewrite (for_each_cell_cpu_from_filter config _ _ 0%N Hbits).
    - rewrite N.sub_0_r. reflexivity.
    - reflexivity.
    - rewrite N.sub_0_r. lia. }
  split; [exact Heq|]. split.
  - intros cpu. rewrite Heq, filter_In. unfold N_range.
    rewrite in_map_iff. split.
    + intros [(n & <- & Hn) Hbit]. apply in_seq in Hn.
      split; [lia | exact Hbit].
    + intros [Hlt Hbit]. split; [|exact Hbit].
      exists (N.to_nat cpu). split; [apply N2Nat.id|].
      apply in_seq. lia.
  - rewrite Heq. apply NoDup_filter. unfold N_range.
    apply Injective_map_NoDup.
    + intros a b Hab. apply Nat2N.inj. exact Hab.
    + apply seq_NoDup.
Qed.

Lemma for_each_cell_cpu_set_bits_witness :
  for_each_cell_cpu (cell_A 12)
  = filter (N.testbit 12) (N_range 8) /\
  (In 3%N (for_each_cell_cpu (cell_A 12)) <->
   (3 < 8)%N /\ N.testbit 12 3 = true).
Proof.
  destruct (for_each_cell_cpu_set_bits (cell_A 12)) as (Heq & Hin & _).
  - vm_compute. discriminate.
  - split; [exact Heq | apply Hin].
Defined.

(** ** Loading a preload image *)








(** ** Create followed by destroy *)

Lemma find_app_none (A : Type) (f : A -> bool) (l l' : list A) :
  find f l = None -> find f (l ++ l') = find f l'.
Proof.
  induction l as [|x l IH]; simpl; [reflexivity|].
  destruct (f x); [discriminate | exact IH].
Qed.

Lemma remove_first_last (A : Type) (eqb : A -> A -> bool) (x : A)
      (l : list A) :
  (forall y, In y l -> eqb x y = false) ->
  eqb x x = true ->
  remove_first eqb x (l ++ [x]) = l.
Proof.
  intros Hfresh Hrefl. induction l as [|y l IH]; simpl.
  - rewrite Hrefl. reflexivity.
  - rewrite (Hfresh y (or_introl eq_refl)). f_equal.
    apply IH. intros z Hz. apply Hfresh. right. exact Hz.
Qed.

(** What a successful create leaves besides the cell list and the CPUs: the
    kobject of the cell, and nothing else. *)
Lemma create_success_frame (e : env) (arg : jailhouse_new_cell) (s : state) :
  create_reaches_cpus e arg s = true ->
  ~ withdrawal_fails e (for_each_cell_cpu (new_config arg)) s ->
  0 <= hc_res e JAILHOUSE_HC_CELL_CREATE (config_pa e) ->
  kobjects (snd (jailhouse_cell_create e arg s))
  = kobject_set_name (c_string (name (terminate_name (new_config arg))))
    :: kobjects s /\
  vm_areas (snd (jailhouse_cell_create e arg s)) = vm_areas s /\
  module_refs (snd (jailhouse_cell_create e arg s)) = module_refs s /\
  hypervisor_mem (snd (jailhouse_cell_create e arg s)) = hypervisor_mem s /\
  hv_core_percpu_size (snd (jailhouse_cell_create e arg s))
  = hv_core_percpu_size s.
Proof.
  intros Hreach Hnofail Hacc.
  destruct (create_from_cpus e arg s Hreach)
    as (err & s_img & Hsame & _ & _ & _ & Hcall).
  cbv zeta in Hcall. rewrite Hcall. clear Hcall.
  set (name1 := kobject_set_name (c_string (name (terminate_name (new_config arg))))) in *.
  set (cpus := for_each_cell_cpu (new_config arg)) in *.
  simpl kobject_name.
  set (s_a := set_kobjects (name1 :: kobjects s_img) s_img) in *.
  assert (Hon_a : forall c, cpu_online c s_a = cpu_online c s)
    by (intros c; unfold cpu_online, s_a; simpl;
        rewrite (same_cpu_online_mask _ _ Hsame); reflexivity).
  destruct (offline_loop e cpus err s_a)
    as (taken & _ & Hsbc & _ & _ & Hexit).
  destruct (offline_cell_cpus e cpus err s_a) as [[err1|err1] s_b];
    simpl in Hsbc, Hexit.
  - unfold jailhouse_call1. apply Z.ltb_ge in Hacc. rewrite Hacc.
    destruct Hsbc, Hsame. unfold s_a in *. simpl in *.
    repeat split; congruence.
  - destruct Hexit as (_ & c & Hin & Hc & Hf). exfalso. apply Hnofail.
    exists c. rewrite <- Hon_a. auto.
Qed.

(** Destroying a cell right after it was created on online CPUs, with the
    configuration it was created with.  When the name holds no '/', the
    destroy finds that cell, hands the id the hypervisor gave it to the
    destroy hypercall and, when the hypervisor agrees and every cpu_up
    succeeds, puts the cell list, the kobjects, the online mask and
    offlined_cpus back as they were before the create.  When the name holds
    a '/', the kobject was named with '!' in its place and find_cell, which
    compares the kobject's name with the configuration's, does not find the
    cell: the destroy returns -ENOENT and changes nothing. *)
Theorem create_destroy_round_trip (e1 e2 : env) (arg : jailhouse_new_cell)
        (darg : jailhouse_cell) (s s1 : state) :
  jailhouse_cell_create e1 arg s = (0, s1) ->
  (forall cpu, In cpu (for_each_cell_cpu (new_config arg)) ->
               cpu_online cpu s = true) ->
  (forall cpu, cpu_isset cpu (offlined_cpus s) = true ->
               cpu_online cpu s = false) ->
  destroy_delivered e2 darg = true ->
  cell_config darg = new_config arg ->
  (slash_free (c_string (name (terminate_name (new_config arg)))) = true ->
   hc_res e2 JAILHOUSE_HC_CELL_DESTROY
          (hc_res e1 JAILHOUSE_HC_CELL_CREATE (config_pa e1)) = 0 ->
   (forall cpu, In cpu (for_each_cell_cpu (new_config arg)) ->
                cpu_up_res e2 cpu = 0) ->
   exists s2,
     jailhouse_cell_destroy e2 darg s1 = (0, s2) /\
     In (EvHypercall JAILHOUSE_HC_CELL_DESTROY
                     (hc_res e1 JAILHOUSE_HC_CELL_CREATE (config_pa e1)) 0)
        (log s2) /\
     cells s2 = cells s /\ kobjects s2 = kobjects s /\
     cpu_online_mask s2 = cpu_online_mask s /\
     offlined_cpus s2 = offlined_cpus s /\
     enabled s2 = enabled s /\ vm_areas s2 = vm_areas s /\
     module_refs s2 = module_refs s) /\
  (slash_free (c_string (name (terminate_name (new_config arg)))) = false ->
   jailhouse_cell_destroy e2 darg s1 = (- ENOENT, s1)).
Proof.
  intros Hcreate Honline Hinv Hd Hcfg.
  destruct (create_zero_reaches e1 arg s s1 Hcreate)
    as (Hreach & Hnofail & Hacc).
  destruct (reaches_cpus _ _ _ Hreach) as (_ & Hen & Hfree & _).
  destruct (create_success_effects e1 arg s Hreach Hnofail Hacc)
    as (r & s1' & Hcall & Hcells & Hen1 & Hon1 & Hset1 & _).
  destruct (create_success_frame e1 arg s Hreach Hnofail Hacc)
    as (Hkobj & Hvm & Hmod & _).
  rewrite Hcreate in Hcall, Hkobj, Hvm, Hmod.
  injection Hcall as _ <-. simpl in Hkobj, Hvm, Hmod.
  set (config := terminate_name (new_config arg)) in *.
  set (idc := hc_res e1 JAILHOUSE_HC_CELL_CREATE (config_pa e1)) in *.
  set (c := mkCell (kobject_set_name (c_string (name config))) idc) in *.
  set (cpus := for_each_cell_cpu (new_config arg)) in *.
  assert (Hmatch : strcmp (kobject_name c) (name config) = 0
                   <-> slash_free (c_string (name config)) = true).
  { rewrite strcmp_zero. simpl. rewrite kobject_name_plain.
    apply kobject_set_name_same. }
  destruct (delivered_destroy _ _ Hd) as (D1 & D2 & D3 & D4).
  split.
  - intros Hplain Hhc Hup.
    apply Hmatch in Hplain. apply Z.eqb_eq in Hplain.
    assert (Hfind : find_cell (terminate_name (cell_config darg)) s1 = Some c).
    { rewrite Hcfg. fold config. unfold find_cell in *. rewrite Hcells.
      rewrite find_app_none by exact Hfree. cbn [find]. rewrite Hplain.
      reflexivity. }
    assert (Hdel : remove_first cell_eqb c (cells s ++ [c]) = cells s).
    { apply remove_first_last; [|apply cell_eqb_refl].
      intros y Hy. destruct (cell_eqb c y) eqn:Heq; [|reflexivity].
      exfalso. apply cell_eqb_name in Heq.
      apply (find_none _ _ Hfree) in Hy.
      rewrite <- Heq, Hplain in Hy. discriminate. }
    unfold jailhouse_cell_destroy.
    rewrite D1, D2, D3, D4, Hen1, Hen. cbn [negb]. cbv zeta.
    rewrite Hfind. unfold jailhouse_call1. cbn [id c].
    rewrite Hhc. cbn [Z.eqb negb].
    rewrite for_each_cell_cpu_name, Hcfg. fold cpus.
    set (s_d := delete_cell c
                  (log_event (EvHypercall JAILHOUSE_HC_CELL_DESTROY idc 0) s1)).
    destruct (destroy_loop e2 cpus s_d)
      as (Hsbc & Hset & Hon & evs & Hlog & _).
    eexists. split; [reflexivity|].
    assert (Hmask : forall m1 m2 : cpumask,
               (forall cpu, cpu_isset cpu m1 = cpu_isset cpu m2) -> m1 = m2)
      by (intros m1 m2 Hbits; apply N.bits_inj; exact Hbits).
    assert (Hcpus : forall cpu, cpu_in cpu cpus = true ->
                                cpu_online cpu s = true
                                /\ (cpu_up_res e2 cpu =? 0) = true
                                /\ cpu_isset cpu (offlined_cpus s) = false).
    { intros cpu Hc. apply cpu_in_In in Hc.
      split; [apply Honline; exact Hc|].
      split; [apply Z.eqb_eq, Hup; exact Hc|].
      destruct (cpu_isset cpu (offlined_cpus s)) eqn:Ht; [|reflexivity].
      specialize (Honline cpu Hc). rewrite (Hinv cpu Ht) in Honline.
      discriminate. }
    split.
    { rewrite Hlog. apply in_or_app. left. unfold s_d. simpl.
      apply in_or_app. right. left. reflexivity. }
    destruct Hsbc. unfold s_d in *. simpl in *.
    split; [rewrite sbc_cells0, Hcells; exact Hdel|].
    split.
    { rewrite sbc_kobjects0. unfold kobject_put. simpl.
      rewrite Hkobj. simpl. rewrite list_byte_eqb_refl. reflexivity. }
    split.
    { apply Hmask. intros cpu.
      change (cpu_isset cpu (cpu_online_mask ?x)) with (cpu_online cpu x).
      rewrite Hon. unfold cpu_online at 1. simpl.
      change (cpu_isset cpu (cpu_online_mask s1)) with (cpu_online cpu s1).
      rewrite Hon1, Hset1. specialize (Hcpus cpu).
      destruct (cpu_in cpu cpus); simpl.
      - destruct Hcpus as (Ho & Hu & _); [reflexivity|].
        rewrite Ho, Hu. simpl. rewrite Bool.orb_true_r. reflexivity.
      - rewrite Bool.andb_true_r, Bool.orb_false_r. reflexivity. }
    split.
    { apply Hmask. intros cpu. rewrite Hset, Hset1. specialize (Hcpus cpu).
      destruct (cpu_in cpu cpus); simpl.
      - destruct Hcpus as (_ & _ & Ht); [reflexivity|].
        rewrite Ht, Bool.andb_false_r. reflexivity.
      - rewrite Bool.orb_false_r, Bool.andb_true_r. reflexivity. }
    repeat split; congruence.
  - intros Hslash.
    assert (Hfind : find_cell (terminate_name (cell_config darg)) s1 = None).
    { rewrite Hcfg. fold config. unfold find_cell in *. rewrite Hcells.
      rewrite find_app_none by exact Hfree. cbn [find].
      destruct (Z.eqb_spec (strcmp (kobject_name c) (name config)) 0)
        as [Hz|Hnz]; [|reflexivity].
      apply Hmatch in Hz. congruence. }
    unfold jailhouse_cell_destroy.
    rewrite D1, D2, D3, D4, Hen1, Hen. cbn [negb]. cbv zeta.
    rewrite Hfind. reflexivity.
Qed.

Lemma create_destroy_round_trip_witness :
  (exists s2,
      jailhouse_cell_destroy kind_env (mkCellArg true true (cell_A 12))
                             state_with_A = (0, s2) /\
      cells s2 = cells enabled_state /\
      cpu_online_mask s2 = cpu_online_mask enabled_state /\
      offlined_cpus s2 = offlined_cpus enabled_state) /\
  jailhouse_cell_destroy
    kind_env (mkCellArg true true (small_config [x61; x2f; x62] 12))
    (snd (jailhouse_cell_create
            kind_env (mkNewCell true true (small_config [x61; x2f; x62] 12) [])
            enabled_state))
  = (- ENOENT,
     snd (jailhouse_cell_create
            kind_env (mkNewCell true true (small_config [x61; x2f; x62] 12) [])
            enabled_state)).
Proof.
  split.
  - destruct (create_destroy_round_trip kind_env kind_env
                (mkNewCell true true (cell_A 12) [])
                (mkCellArg true true (cell_A 12)) enabled_state state_with_A)
      as [Hback _].
    + vm_compute. reflexivity.
    + cbn [new_config].
      replace (for_each_cell_cpu (cell_A 12)) with [2%N; 3%N]
        by (vm_compute; reflexivity).
      intros cpu [<-|[<-|[]]]; reflexivity.
    + apply masks_apart. reflexivity.
    + reflexivity.
    + reflexivity.
    + destruct Hback as (s2 & Hcall & _ & Hcells & _ & Hon & Hoff & _).
      * reflexivity.
      * reflexivity.
      * intros cpu _. reflexivity.
      * exists s2. auto.
  - destruct (create_destroy_round_trip kind_env kind_env
                (mkNewCell true true (small_config [x61; x2f; x62] 12) [])
                (mkCellArg true true (small_config [x61; x2f; x62] 12))
                enabled_state
                (snd (jailhouse_cell_create
                        kind_env
                        (mkNewCell true true
                                   (small_config [x61; x2f; x62] 12) [])
                        enabled_state)))
      as [_ Hlost].
    + vm_compute. reflexivity.
    + cbn [new_config].
      replace (for_each_cell_cpu (small_config [x61; x2f; x62] 12))
        with [2%N; 3%N] by (vm_compute; reflexivity).
      intros cpu [<-|[<-|[]]]; reflexivity.
    + intros cpu H. vm_compute in H. destruct cpu; discriminate H.
    + reflexivity.
    + reflexivity.
    + apply Hlost. reflexivity.
Defined.

(** ** The outcomes of enable *)

Lemma barrier_result_clean (status : N -> Z) (cpus : list N) (init : Z) :
  (forall cpu, In cpu cpus -> status cpu = 0) ->
  barrier_result status cpus init = init.
Proof.
  intros Hzero.
  destruct (barrier_result_cases status cpus init)
    as [[Hres _]|(cpu & Hin & Hnz & _)]; [exact Hres|].
  exfalso. apply Hnz. apply Hzero. exact Hin.
Qed.





(** Every nonzero return of jailhouse_enable leaves the system as it found
    it: whatever step failed, the mapping, the root cell's kobject and the
    module reference taken before it are released again, no cell is
    registered and no CPU is touched. *)
Theorem enable_failure_releases (e : env) (arg : jailhouse_system)
        (s s1 : state) (r : Z) :
  jailhouse_enable e arg s = Some (r, s1) ->
  r <> 0 ->
  enabled s1 = enabled s /\ cells s1 = cells s /\
  kobjects s1 = kobjects s /\ vm_areas s1 = vm_areas s /\
  module_refs s1 = module_refs s /\
  offlined_cpus s1 = offlined_cpus s /\
  cpu_online_mask s1 = cpu_online_mask s.
Proof.
  assert (Hrelease : forall n a,
             remove_first list_byte_eqb n (n :: kobjects s) = kobjects s /\
             remove_first Z.eqb a (a :: vm_areas s) = vm_areas s /\
             module_refs s + 1 - 1 = module_refs s).
  { intros n a. simpl. rewrite list_byte_eqb_refl, Z.eqb_refl.
    repeat split. lia. }
  unfold jailhouse_enable, create_cell.
  destruct (system_readable arg); simpl;
    [|intros H; injection H as <- <-; auto 10].
  destruct (lock_acquired e); simpl;
    [|intros H; injection H as <- <-; auto 10].
  destruct (enabled s || negb (try_module_get_ok e)); simpl;
    [intros H; injection H as <- <-; auto 10|].
  destruct (kzalloc_ok e); simpl; [|discriminate].
  destruct (kobject_add_err e =? 0); simpl; [|discriminate].
  set (n := kobject_set_name (c_string (removelast (name (system arg)) ++ [x00]))).
  destruct (Hrelease n (ioremap_addr e)) as (Hk & Hv & Hm).
  simpl in Hk, Hv.
  destruct (request_firmware_err e =? 0); simpl;
    [|intros H Hnz; injection H as <- <-;
      unfold error_free_cell, error_put_module, module_put, kobject_put;
      simpl; rewrite list_byte_eqb_refl; auto 10].
  destruct (fw_signature_ok (hypervisor e)); simpl;
    [|intros H Hnz; injection H as <- <-;
      unfold error_release_fw, error_free_cell, error_put_module, module_put,
        kobject_put; simpl; rewrite list_byte_eqb_refl; auto 10].
  match goal with
  | |- context [if ?b then _ else _] => destruct b
  end;
    [intros H Hnz; injection H as <- <-;
     unfold error_release_fw, error_free_cell, error_put_module, module_put,
       kobject_put; simpl; rewrite list_byte_eqb_refl; auto 10|].
  unfold jailhouse_ioremap.
  destruct (ioremap_addr e =? 0) eqn:Hmap; simpl; rewrite ?Hmap;
    [intros H Hnz; injection H as <- <-;
     unfold error_release_fw, error_free_cell, error_put_module, module_put,
       kobject_put; simpl; rewrite list_byte_eqb_refl; auto 10|].
  destruct (ioremap_range_err e =? 0); simpl; rewrite ?Hmap;
    [|intros H Hnz; injection H as <- <-;
      unfold error_release_fw, error_free_cell, error_put_module, module_put,
        kobject_put, vunmap; simpl;
      rewrite list_byte_eqb_refl, Z.eqb_refl; auto 10].
  match goal with
  | |- context [if negb ?b then None else _] => destruct b
  end; simpl; [|discriminate].
  match goal with
  | |- context [if negb ?b then None else _] => destruct b
  end; simpl; [|discriminate].
  destruct (system_config_readable arg); simpl;
    [|intros H Hnz; injection H as <- <-;
      unfold error_unmap, error_release_fw, error_free_cell,
        error_put_module, module_put, kobject_put, vunmap; simpl;
      rewrite list_byte_eqb_refl, Z.eqb_refl; auto 10].
  match goal with
  | |- context [on_each_cpu ?f ?cpus ?s0] =>
      destruct (enter_barrier (hypervisor e) cpus s0)
        as (s_b & Hrun & Hsame & _)
  end.
  rewrite Hrun. cbv beta iota.
  destruct Hsame. simpl in *.
  destruct (error_code s_b =? 0); simpl.
  - intros H Hnz. injection H as <- _. contradiction.
  - intros H Hnz. injection H as _ <-.
    unfold error_unmap, error_release_fw, error_free_cell, error_put_module,
      module_put, kobject_put, vunmap. simpl.
    rewrite same_enabled0, same_vm_areas0, same_kobjects0, same_cells0,
      same_module_refs0, same_offlined_cpus0, same_cpu_online_mask0,
      same_hypervisor_mem0.
    simpl. rewrite list_byte_eqb_refl, Z.eqb_refl. auto 10.
Qed.

Lemma enable_failure_releases_witness :
  enabled (state_of (jailhouse_enable kind_env tight_system loaded_state)
                    enabled_state) = false /\
  vm_areas (state_of (jailhouse_enable kind_env tight_system loaded_state)
                     enabled_state) = [] /\
  module_refs (state_of (jailhouse_enable kind_env tight_system loaded_state)
                        enabled_state) = 0.
Proof.
  destruct (enable_failure_releases kind_env tight_system loaded_state
              (state_of (jailhouse_enable kind_env tight_system loaded_state)
                        enabled_state)
              (- EINVAL)) as (Hen & _ & _ & Hvm & Hmod & _).
  - vm_compute. reflexivity.
  - unfold EINVAL. lia.
  - rewrite Hen, Hvm, Hmod. auto.
Defined.

(** ** The outcomes of disable *)

Lemma cpumask_list_isset (cpu : N) (mask : cpumask) :
  cpu_in cpu (cpumask_list mask) = cpu_isset cpu mask.
Proof.
  destruct (cpu_isset cpu mask) eqn:Hset.
  - apply cpu_in_In, cpumask_list_complete. exact Hset.
  - apply cpu_in_not_In. intros Hin. unfold cpumask_list in Hin.
    apply filter_In in Hin. destruct Hin as [_ Hin]. congruence.
Qed.

Lemma disable_loop_online (e : env) (cpus : list N) (s : state) :
  forall c, cpu_online c (fold_left (disable_cpu_up e) cpus s)
            = cpu_online c s || (cpu_in c cpus && (cpu_up_res e c =? 0)).
Proof.
  revert s. induction cpus as [|a cpus IH]; intros s c; simpl.
  - rewrite Bool.orb_false_r. reflexivity.
  - rewrite IH.
    assert (Hstep : cpu_online c (disable_cpu_up e s a)
                    = cpu_online c s
                      || ((c =? a)%N && (cpu_up_res e c =? 0))).
    { unfold disable_cpu_up, cpu_up, cpu_online.
      destruct (N.eqb_spec c a) as [->|Hne]; simpl.
      - destruct (cpu_up_res e a =? 0); simpl.
        + rewrite cpu_isset_set, N.eqb_refl, Bool.orb_true_r. reflexivity.
        + rewrite Bool.orb_false_r. reflexivity.
      - destruct (cpu_up_res e a =? 0); simpl;
          rewrite ?cpu_isset_set, ?Bool.orb_false_r; try reflexivity.
        apply N.eqb_neq in Hne. rewrite Hne. reflexivity. }
    rewrite Hstep. destruct (c =? a)%N; simpl; bool_cases.
Qed.

Lemma delete_all_frame (l : list cell) (s : state) :
  kobjects (fold_left (fun s c => delete_cell c s) l s)
  = fold_left (fun k c => remove_first list_byte_eqb (kobject_name c) k) l
              (kobjects s) /\
  vm_areas (fold_left (fun s c => delete_cell c s) l s) = vm_areas s /\
  cpu_online_mask (fold_left (fun s c => delete_cell c s) l s)
  = cpu_online_mask s /\
  module_refs (fold_left (fun s c => delete_cell c s) l s) = module_refs s.
Proof.
  revert s. induction l as [|c l IH]; intros s; simpl; [auto|].
  destruct (IH (delete_cell c s)) as (Hk & Hv & Ho & Hm).
  rewrite Hk, Hv, Ho, Hm. unfold delete_cell, kobject_put. simpl. auto.
Qed.

(** When the system is enabled and every CPU leaves the hypervisor with
    status 0, jailhouse_disable returns 0: the system is disabled, the
    region at hypervisor_mem is unmapped, the module reference is dropped,
    the kobject of every cell is put and the cell list is empty,
    offlined_cpus is empty, and a CPU is online afterwards exactly when it
    was online or was in offlined_cpus and its cpu_up succeeded. *)
Theorem disable_success (e : env) (s : state) :
  lock_acquired e = true ->
  enabled s = true ->
  hv_core_percpu_size s mod PAGE_SIZE = 0 ->
  (forall cpu, In cpu (barrier_order e) -> hc_disable_res e cpu = 0) ->
  exists s1,
    jailhouse_disable e s = Some (0, s1) /\
    enabled s1 = false /\ cells s1 = [] /\ offlined_cpus s1 = 0%N /\
    vm_areas s1 = remove_first Z.eqb (hypervisor_mem s) (vm_areas s) /\
    module_refs s1 = module_refs s - 1 /\
    kobjects s1
    = fold_left (fun k c => remove_first list_byte_eqb (kobject_name c) k)
                (cells s) (kobjects s) /\
    forall cpu, cpu_online cpu s1
                = cpu_online cpu s
                  || (cpu_isset cpu (offlined_cpus s)
                      && (cpu_up_res e cpu =? 0)).
Proof.
  intros Hlock Hen Hpages Hzero.
  destruct (leave_barrier e (barrier_order e) (set_error_code 0 s) Hpages)
    as (s2 & Hrun & Hsame & Herr).
  simpl in Herr. rewrite (barrier_result_clean _ _ 0 Hzero) in Herr.
  assert (Hcall : jailhouse_disable e s
                  = Some (0,
                          module_put
                            (set_enabled false
                               (fold_left (fun s c => delete_cell c s)
                                  (cells
                                     (fold_left (disable_cpu_up e)
                                        (cpumask_list
                                           (offlined_cpus
                                              (vunmap (hypervisor_mem s2) s2)))
                                        (vunmap (hypervisor_mem s2) s2)))
                                  (fold_left (disable_cpu_up e)
                                     (cpumask_list
                                        (offlined_cpus
                                           (vunmap (hypervisor_mem s2) s2)))
                                     (vunmap (hypervisor_mem s2) s2)))))).
  { unfold jailhouse_disable. rewrite Hlock, Hen. simpl.
    rewrite Hrun. cbv beta iota zeta. rewrite Herr. reflexivity. }
  destruct (disable_zero e s _ Hcall) as (Hoff & Hcells & Hdis).
  eexists. split; [exact Hcall|].
  split; [exact Hdis|]. split; [exact Hcells|]. split; [exact Hoff|].
  set (s3 := vunmap (hypervisor_mem s2) s2) in *.
  set (s4 := fold_left (disable_cpu_up e)
                       (cpumask_list (offlined_cpus s3)) s3) in *.
  destruct (delete_all_frame (cells s4) s4) as (Hk & Hv & Ho & Hm).
  destruct (disable_loop e (cpumask_list (offlined_cpus s3)) s3)
    as [Hsbc _].
  fold s4 in Hsbc.
  assert (Hon4 : forall cpu,
             cpu_online cpu s4
             = cpu_online cpu s
               || (cpu_isset cpu (offlined_cpus s)
                   && (cpu_up_res e cpu =? 0))).
  { intros cpu. unfold s4. rewrite disable_loop_online, cpumask_list_isset.
    unfold s3, cpu_online. simpl.
    rewrite (same_cpu_online_mask _ _ Hsame), (same_offlined_cpus _ _ Hsame).
    reflexivity. }
  assert (Hvm4 : vm_areas s4
                 = remove_first Z.eqb (hypervisor_mem s) (vm_areas s)).
  { rewrite (sbc_vm_areas _ _ Hsbc). unfold s3. simpl.
    rewrite (same_vm_areas _ _ Hsame), (same_hypervisor_mem _ _ Hsame).
    reflexivity. }
  assert (Hmod4 : module_refs s4 = module_refs s).
  { rewrite (sbc_module_refs _ _ Hsbc). unfold s3. simpl.
    apply (same_module_refs _ _ Hsame). }
  assert (Hkobj4 : kobjects s4 = kobjects s /\ cells s4 = cells s).
  { rewrite (sbc_kobjects _ _ Hsbc), (sbc_cells _ _ Hsbc). unfold s3. simpl.
    split; [apply (same_kobjects _ _ Hsame) | apply (same_cells _ _ Hsame)]. }
  destruct Hkobj4 as [Hkobj4 Hcells4].
  unfold module_put, set_module_refs, set_enabled.
  cbn [vm_areas module_refs kobjects].
  rewrite Hk, Hv, Hm, Hvm4, Hmod4, Hkobj4.
  split; [reflexivity|]. split; [reflexivity|].
  split; [rewrite Hcells4; reflexivity|].
  intros cpu. unfold cpu_online at 1. cbn [cpu_online_mask]. rewrite Ho.
  apply Hon4.
Qed.

Lemma disable_success_witness :
  exists s1,
    jailhouse_disable kind_env state_with_A = Some (0, s1) /\
    enabled s1 = false /\ cells s1 = [] /\ offlined_cpus s1 = 0%N /\
    vm_areas s1 = [] /\ cpu_online 2 s1 = true.
Proof.
  destruct (disable_success kind_env state_with_A)
    as (s1 & Hcall & Hen & Hcells & Hoff & Hvm & _ & _ & Hon).
  - reflexivity.
  - reflexivity.
  - reflexivity.
  - intros cpu _. reflexivity.
  - exists s1. rewrite Hon. auto 10.
Defined.

(** Enable followed by disable, both successful, from a disabled system
    without cells: the mapping, the kobjects, the module reference count and
    the online mask are back as they were, no cell is left and offlined_cpus
    is empty. *)
Theorem enable_disable_round_trip (e1 e2 : env) (arg : jailhouse_system)
        (s : state) :
  enable_reaches_barrier e1 arg s = true ->
  (forall cpu, In cpu (barrier_order e1) -> entry (hypervisor e1) cpu = 0) ->
  cells s = [] ->
  offlined_cpus s = 0%N ->
  lock_acquired e2 = true ->
  ulong (PAGE_ALIGN (core_size (hypervisor e1)) +
         ulong (num_possible_cpus e1 * percpu_size (hypervisor e1)))
  mod PAGE_SIZE = 0 ->
  (forall cpu, In cpu (barrier_order e2) -> hc_disable_res e2 cpu = 0) ->
  exists s1 s2,
    jailhouse_enable e1 arg s = Some (0, s1) /\
    jailhouse_disable e2 s1 = Some (0, s2) /\
    enabled s2 = false /\ cells s2 = [] /\ offlined_cpus s2 = 0%N /\
    kobjects s2 = kobjects s /\ vm_areas s2 = vm_areas s /\
    module_refs s2 = module_refs s /\
    cpu_online_mask s2 = cpu_online_mask s.
Proof.
  intros Hreach Hzero Hcells Hoff Hlock Hpages Hleave.
  destruct (reaches_barrier _ _ _ Hreach) as (Hcheck & Hsz & Hmap & Hcfg).
  destruct (reaches_barrier_writes _ _ _ Hreach) as (Hrange & W1 & W2 & W3).
  destruct (reaches_check _ _ _ Hcheck)
    as (H1 & H2 & H3 & H4 & H5 & H6 & H7 & H8).
  assert (Hcall : exists s1,
             jailhouse_enable e1 arg s = Some (0, s1) /\
             enabled s1 = true /\
             cells s1
             = [mkCell
                 (kobject_set_name (c_string (name (terminate_name (system arg))))) 0] /\
             kobjects s1
             = kobject_set_name (c_string (name (terminate_name (system arg))))
               :: kobjects s /\
             vm_areas s1 = ioremap_addr e1 :: vm_areas s /\
             hypervisor_mem s1 = ioremap_addr e1 /\
             module_refs s1 = module_refs s + 1 /\
             offlined_cpus s1 = 0%N /\
             cpu_online_mask s1 = cpu_online_mask s /\
             hv_core_percpu_size s1
             = ulong (PAGE_ALIGN (core_size (hypervisor e1)) +
                      ulong (num_possible_cpus e1
                             * percpu_size (hypervisor e1)))).
  { unfold jailhouse_enable, create_cell.
    rewrite H1, H2, H3, H4, H5, H6, H7, H8. simpl.
    unfold enable_needed in Hsz. rewrite Hsz.
    unfold jailhouse_ioremap. rewrite Hmap, Hrange. simpl.
    rewrite Hmap, W1, W2, W3, Hcfg. simpl.
    match goal with
    | |- context [on_each_cpu ?f ?cpus ?s0] =>
        destruct (enter_barrier (hypervisor e1) cpus s0)
          as (s_b & Hrun & Hsame & Herr)
    end.
    rewrite Hrun. cbv beta iota. simpl in Herr.
    rewrite (barrier_result_clean _ _ 0 Hzero) in Herr. rewrite Herr. simpl.
    eexists. split; [reflexivity|]. destruct Hsame. simpl in *.
    rewrite same_cells0, same_kobjects0, same_vm_areas0, same_hypervisor_mem0,
      same_module_refs0, same_offlined_cpus0, same_cpu_online_mask0,
      same_hv_core_percpu_size0, Hcells, Hoff.
    auto 12. }
  destruct Hcall as (s1 & Hcall & Hen1 & Hcells1 & Hkobj1 & Hvm1 & Hmem1
                     & Hmod1 & Hoff1 & Hon1 & Hcore1).
  rewrite <- Hcore1 in Hpages.
  destruct (leave_barrier e2 (barrier_order e2) (set_error_code 0 s1) Hpages)
    as (s2 & Hrun & Hsame & Herr).
  simpl in Herr. rewrite (barrier_result_clean _ _ 0 Hleave) in Herr.
  exists s1. eexists. split; [exact Hcall|].
  unfold jailhouse_disable. rewrite Hlock, Hen1. simpl.
  rewrite Hrun. cbv beta iota zeta. rewrite Herr. cbn [Z.eqb negb].
  split; [reflexivity|].
  destruct Hsame. simpl in *.
  rewrite same_offlined_cpus0, Hoff1. cbn [cpumask_list].
  change (cpumask_list 0%N) with (@nil N). cbn [fold_left].
  unfold vunmap. simpl.
  rewrite same_cells0, Hcells1. simpl.
  unfold kobject_put. simpl.
  rewrite same_kobjects0, Hkobj1, same_vm_areas0, Hvm1, same_hypervisor_mem0,
    Hmem1, same_module_refs0, Hmod1, same_offlined_cpus0, Hoff1,
    same_cpu_online_mask0, Hon1.
  simpl. rewrite list_byte_eqb_refl, Z.eqb_refl.
  rewrite same_cells0, Hcells1. cbn [remove_first]. rewrite cell_eqb_refl.
  repeat split; try reflexivity. lia.
Qed.

Lemma enable_disable_round_trip_witness :
  exists s1 s2,
    jailhouse_enable kind_env demo_system loaded_state = Some (0, s1) /\
    jailhouse_disable kind_env s1 = Some (0, s2) /\
    enabled s2 = false /\ cells s2 = [] /\
    vm_areas s2 = vm_areas loaded_state /\
    module_refs s2 = module_refs loaded_state.
Proof.
  destruct (enable_disable_round_trip kind_env kind_env demo_system
                                      loaded_state)
    as (s1 & s2 & He & Hd & Hen & Hcells & _ & _ & Hvm & Hmod & _);
    try reflexivity.
  exists s1, s2. auto 10.
Defined.

(** ** What every run of ioctls keeps *)


Lemma remove_first_absent (n : list byte) (l : list (list byte)) :
  ~ In n l -> remove_first list_byte_eqb n l = l.
Proof.
  induction l as [|y l IH]; intros Hout; simpl; [reflexivity|].
  destruct (list_byte_eqb n y) eqn:Heq.
  - apply list_byte_eqb_eq in Heq. exfalso. apply Hout. left. auto.
  - rewrite IH; [reflexivity|]. intros Hin. apply Hout. right. exact Hin.
Qed.












(** When the CPUs have all left the hypervisor code, only [error_code] and
    the log have changed. *)
Lemma leave_done (e : env) (cpus : list N) (s s1 : state) :
  on_each_cpu (leave_hypervisor e) cpus s = Some s1 ->
  same_resources s s1.
Proof.
  revert s. induction cpus as [|c cpus IH]; intros s; simpl.
  - intros H. injection H as <-. apply same_resources_refl.
  - unfold leave_hypervisor at 1.
    destruct (hv_core_percpu_size s mod PAGE_SIZE =? 0); cbn [negb];
      [|discriminate].
    intros H. apply IH in H.
    eapply same_resources_trans; [|exact H].
    destruct (hc_disable_res e c =? 0); constructor; reflexivity.
Qed.







(** ** Names are cut at the last byte of the array *)

Lemma c_string_nul (l : list byte) : c_string (l ++ [x00]) = c_string l.
Proof.
  induction l as [|b l IH]; simpl; [reflexivity|].
  destruct (is_nul b); [reflexivity | rewrite IH; reflexivity].
Qed.

Lemma c_string_length (l : list byte) :
  (length (c_string l) <= length l)%nat.
Proof.
  induction l as [|b l IH]; simpl; [lia|].
  destruct (is_nul b); simpl; lia.
Qed.

(** The write of 0 to [name[JAILHOUSE_CELL_NAME_MAXLEN]] cuts the name: the
    cell that a successful jailhouse_cell_create registers is named by the
    characters before the first NUL among all bytes of the array but the
    last ('/' replaced by '!'), so the name is shorter than the array
    whatever the array holds; and, when those characters hold no '/', a
    later create whose name array differs from the first one in the last
    byte only returns -EEXIST and leaves the state as it is. *)
Theorem created_name_cut (e e2 : env) (arg arg2 : jailhouse_new_cell)
        (s s1 : state) :
  jailhouse_cell_create e arg s = (0, s1) ->
  create_delivered e2 arg2 = true ->
  removelast (name (new_config arg2)) = removelast (name (new_config arg)) ->
  (exists c, cells s1 = cells s ++ [c] /\
             kobject_name c
             = kobject_set_name
                 (c_string (removelast (name (new_config arg)))) /\
             (length (kobject_name c)
              <= length (name (new_config arg)) - 1)%nat) /\
  (slash_free (c_string (removelast (name (new_config arg)))) = true ->
   jailhouse_cell_create e2 arg2 s1 = (- EEXIST, s1)).
Proof.
  intros Hcall Hd Hsame.
  destruct (create_zero_reaches _ _ _ _ Hcall) as (Hreach & Hnofail & Hacc).
  destruct (create_success_effects e arg s Hreach Hnofail Hacc)
    as (r & s1' & Hcall' & Hcells & Hen & _).
  rewrite Hcall in Hcall'. injection Hcall' as _ <-.
  destruct (reaches_cpus _ _ _ Hreach) as (_ & Hen0 & _).
  unfold terminate_name in Hcells. simpl name in Hcells.
  rewrite c_string_nul in Hcells.
  set (c := mkCell (kobject_set_name
                      (c_string (removelast (name (new_config arg)))))
                   (hc_res e JAILHOUSE_HC_CELL_CREATE (config_pa e))) in *.
  assert (Hin : In c (cells s1))
    by (rewrite Hcells; apply in_or_app; right; left; reflexivity).
  split.
  - exists c. split; [exact Hcells|]. split; [reflexivity|].
    simpl. unfold kobject_set_name. rewrite length_map.
    etransitivity; [apply c_string_length|].
    rewrite removelast_firstn_len, length_firstn. lia.
  - intros Hplain. apply kobject_set_name_same in Hplain.
    destruct (delivered_create _ _ Hd) as (H1 & H2 & H3 & H4).
    assert (Hname : c_string (kobject_name c)
                    = c_string (name (terminate_name (new_config arg2)))).
    { unfold terminate_name. simpl. rewrite c_string_nul, Hsame, Hplain.
      apply c_string_idem. }
    destruct (find_cell_some _ _ _ Hin Hname) as [c' Hf].
    unfold jailhouse_cell_create.
    rewrite H1, H2, H3, H4, Hen, Hen0, Hf. reflexivity.
Qed.

Lemma created_name_cut_witness :
  jailhouse_cell_create
    kind_env (mkNewCell true true (long_name_cell x42) [])
    (snd (jailhouse_cell_create
            kind_env (mkNewCell true true (long_name_cell x41) [])
            enabled_state))
  = (- EEXIST,
     snd (jailhouse_cell_create
            kind_env (mkNewCell true true (long_name_cell x41) [])
            enabled_state)).
Proof.
  destruct (created_name_cut
              kind_env kind_env
              (mkNewCell true true (long_name_cell x41) [])
              (mkNewCell true true (long_name_cell x42) [])
              enabled_state
              (snd (jailhouse_cell_create
                      kind_env (mkNewCell true true (long_name_cell x41) [])
                      enabled_state))) as [_ H];
    [vm_compute; reflexivity | reflexivity | reflexivity |].
  apply H. reflexivity.
Defined.

(** ** The reboot notifier *)

Lemma leave_done_code (e : env) (cpus : list N) (s s1 : state) :
  on_each_cpu (leave_hypervisor e) cpus s = Some s1 ->
  error_code s1 = barrier_result (hc_disable_res e) cpus (error_code s).
Proof.
  unfold barrier_result.
  revert s. induction cpus as [|c cpus IH]; intros s; simpl.
  - intros H. injection H as <-. reflexivity.
  - unfold leave_hypervisor at 1.
    destruct (hv_core_percpu_size s mod PAGE_SIZE =? 0); cbn [negb];
      [|discriminate].
    intros H. apply IH in H. rewrite H.
    destruct (hc_disable_res e c =? 0); reflexivity.
Qed.

(** jailhouse_shutdown_notify returns NOTIFY_DONE whenever it returns, and
    its silence does not mean that the hypervisor is off: when no emergency
    message was printed, either the system is disabled, or it is enabled as
    before, nothing released, and the disable hypercall came back with
    -EINVAL on some CPU, the one code the notifier takes for "was not
    enabled". *)
Theorem shutdown_notify_silent (e : env) (s s1 : state) (r : Z) :
  jailhouse_shutdown_notify e s = Some (r, false, s1) ->
  r = NOTIFY_DONE /\
  (enabled s1 = false \/
   (enabled s1 = true /\ same_resources s s1 /\
    exists cpu, In cpu (barrier_order e) /\
                hc_disable_res e cpu = - EINVAL)).
Proof.
  unfold jailhouse_shutdown_notify.
  destruct (jailhouse_disable e s) as [[err s2]|] eqn:Hdis; [|discriminate].
  intros H. injection H as <- Hquiet <-.
  split; [reflexivity|].
  destruct (Z.eqb_spec err 0) as [->|Hnz].
  - left. apply disable_zero in Hdis. tauto.
  - simpl in Hquiet. apply Bool.negb_false_iff, Z.eqb_eq in Hquiet.
    subst err. revert Hdis. unfold jailhouse_disable.
    destruct (lock_acquired e); cbn [negb];
      [|unfold EINTR, EINVAL; discriminate].
    destruct (enabled s) eqn:Hen; cbn [negb];
      [|intros H; injection H as <-; left; exact Hen].
    cbv zeta.
    destruct (on_each_cpu (leave_hypervisor e) (barrier_order e)
                          (set_error_code 0 s)) as [s3|] eqn:Hbar;
      [|discriminate].
    pose proof (leave_done_code _ _ _ _ Hbar) as Hcode.
    apply leave_done in Hbar.
    destruct (error_code s3 =? 0) eqn:Hz; cbn [negb];
      [intros H; injection H as H _; apply Z.eqb_eq in Hz;
       unfold EINVAL in H; lia|].
    intros H. injection H as Herr <-. right.
    split; [rewrite (same_enabled _ _ Hbar); exact Hen|].
    split; [eapply same_resources_trans; [|exact Hbar];
            constructor; reflexivity|].
    destruct (barrier_result_cases (hc_disable_res e) (barrier_order e)
                (error_code (set_error_code 0 s)))
      as [[Hres _]|(cpu & Hin & _ & Hres)].
    + rewrite Hres in Hcode. simpl in Hcode. rewrite Hcode in Hz.
      discriminate.
    + exists cpu. split; [exact Hin|].
      rewrite <- Hres, <- Hcode. exact Herr.
Qed.

Lemma shutdown_notify_silent_witness :
  exists s1,
    jailhouse_shutdown_notify
      (with_barrier (fun _ => 0) leave_invalid_on_1 kind_env) enabled_state
    = Some (NOTIFY_DONE, false, s1) /\
    enabled s1 = true /\
    hc_disable_res (with_barrier (fun _ => 0) leave_invalid_on_1 kind_env) 1
    = - EINVAL.
Proof.
  eexists. split; [vm_compute; reflexivity|].
  destruct (shutdown_notify_silent
              (with_barrier (fun _ => 0) leave_invalid_on_1 kind_env)
              enabled_state
              (state_of (jailhouse_disable
                           (with_barrier (fun _ => 0) leave_invalid_on_1
                                         kind_env) enabled_state)
                        enabled_state)
              NOTIFY_DONE) as [_ [Hoff|(Hon & _)]].
  - vm_compute. reflexivity.
  - vm_compute in Hoff. discriminate Hoff.
  - split; [reflexivity | reflexivity].
Defined.

(** ** Loading and unloading the module *)

(** jailhouse_init registers everything or nothing: it returns 0 exactly
    when the four registrations that can fail succeeded, and then the root
    device, the attribute group, the cells directory, the misc device and
    the reboot notifier are registered, and jailhouse_exit removes exactly
    these; whenever it returns another value, what it had registered up to
    the failure is unregistered again.  The error pointer of
    root_device_register carries a nonzero code. *)
Theorem init_all_or_nothing (ie : init_env) (regs regs1 : list registration)
        (r : Z) :
  (forall err, root_device_register_res ie = IS_ERR err -> err <> 0) ->
  jailhouse_init ie regs = (r, regs1) ->
  (r = 0 <->
   (exists dev, root_device_register_res ie = PTR dev) /\
   sysfs_create_group_err ie = 0 /\ kobject_create_and_add_ok ie = true /\
   misc_register_err ie = 0) /\
  (r <> 0 -> regs1 = regs) /\
  (r = 0 ->
   regs1 = [RebootNotifier; MiscDevice; CellsDir; AttributeGroup; RootDevice]
           ++ regs /\
   jailhouse_exit regs1 = regs).
Proof.
  intros Hptr. unfold jailhouse_init.
  destruct (root_device_register_res ie) as [err|dev] eqn:Hdev.
  - intros H. injection H as <- <-.
    specialize (Hptr err eq_refl).
    split; [split; [contradiction | intros [[dev Hd] _]; discriminate]|].
    split; [reflexivity | contradiction].
  - cbv zeta.
    destruct (Z.eqb_spec (sysfs_create_group_err ie) 0) as [Hg|Hg];
      cbn [negb].
    2:{ intros H. injection H as <- <-.
        split; [split; [contradiction | tauto]|].
        split; [reflexivity | contradiction]. }
    destruct (kobject_create_and_add_ok ie) eqn:Hk; cbn [negb].
    2:{ intros H. injection H as <- <-.
        split; [split; [unfold ENOMEM; lia
                       | intros (_ & _ & Hc & _); discriminate]|].
        split; [reflexivity | unfold ENOMEM; lia]. }
    destruct (Z.eqb_spec (misc_register_err ie) 0) as [Hm|Hm]; cbn [negb].
    2:{ intros H. injection H as <- <-.
        split; [split; [contradiction | tauto]|].
        split; [reflexivity | contradiction]. }
    intros H. injection H as <- <-.
    split; [split; [intros _; eauto | reflexivity]|].
    split; [intros Hnz; contradiction | intros _; split; reflexivity].
Qed.

Lemma init_all_or_nothing_witness :
  jailhouse_exit (snd (jailhouse_init kind_init_env [])) = [] /\
  snd (jailhouse_init (mkInitEnv (PTR 1) 0 true (- EBUSY)) []) = [].
Proof.
  split.
  - destruct (init_all_or_nothing kind_init_env []
                (snd (jailhouse_init kind_init_env [])) 0)
      as (_ & _ & Hok); [discriminate | reflexivity|].
    destruct (Hok eq_refl) as [_ Hexit]. exact Hexit.
  - destruct (init_all_or_nothing (mkInitEnv (PTR 1) 0 true (- EBUSY)) []
                (snd (jailhouse_init (mkInitEnv (PTR 1) 0 true (- EBUSY)) []))
                (- EBUSY))
      as (_ & Hfail & _); [discriminate | reflexivity|].
    apply Hfail. unfold EBUSY. lia.
Defined.

(** ** Calls without a defined outcome *)

Lemma leave_stuck (e : env) (cpus : list N) (s : state) :
  on_each_cpu (leave_hypervisor e) cpus s = None <->
  cpus <> [] /\ hv_core_percpu_size s mod PAGE_SIZE <> 0.
Proof.
  destruct (Z.eq_dec (hv_core_percpu_size s mod PAGE_SIZE) 0) as [Hz|Hnz].
  - destruct (leave_barrier e cpus s Hz) as (s1 & Hrun & _).
    rewrite Hrun. split; [discriminate | tauto].
  - destruct cpus as [|c cpus]; simpl.
    + split; [discriminate | intros [H _]; contradiction].
    + unfold leave_hypervisor. apply Z.eqb_neq in Hnz. rewrite Hnz.
      simpl. split; [intros _; split; [discriminate|] | reflexivity].
      apply Z.eqb_neq. exact Hnz.
Qed.



(** ** Disable after an enable with an odd per-CPU size *)

Lemma ulong_mod_page (x : Z) : ulong x mod PAGE_SIZE = x mod PAGE_SIZE.
Proof.
  unfold ulong. apply Z.mod_mod_divide.
  exists (2 ^ 52). reflexivity.
Qed.

Lemma PAGE_ALIGN_multiple (x : Z) : PAGE_ALIGN x mod PAGE_SIZE = 0.
Proof.
  unfold PAGE_ALIGN, PAGE_MASK.
  rewrite <- Z.ldiff_land.
  change (PAGE_SIZE - 1) with (Z.ones 12).
  rewrite Z.ldiff_ones_r by lia.
  rewrite Z.shiftl_mul_pow2 by lia.
  change (2 ^ 12) with PAGE_SIZE.
  apply Z.mod_mul. discriminate.
Qed.

Lemma core_percpu_mod_page (core n percpu : Z) :
  ulong (PAGE_ALIGN core + ulong (n * percpu)) mod PAGE_SIZE
  = (n * percpu) mod PAGE_SIZE.
Proof.
  rewrite ulong_mod_page, Z.add_mod by discriminate.
  rewrite PAGE_ALIGN_multiple, ulong_mod_page. simpl.
  apply Z.mod_mod. discriminate.
Qed.

(** What hv_core_percpu_size holds after a successful enable. *)
Lemma enable_zero_size (e : env) (arg : jailhouse_system) (s s1 : state) :
  jailhouse_enable e arg s = Some (0, s1) ->
  hv_core_percpu_size s1
  = ulong (PAGE_ALIGN (core_size (hypervisor e)) +
           ulong (num_possible_cpus e * percpu_size (hypervisor e))).
Proof.
  unfold jailhouse_enable, create_cell, EFAULT, EINTR, EBUSY, EINVAL.
  destruct (system_readable arg); cbn [negb Z.opp]; [|discriminate].
  cbv zeta.
  destruct (lock_acquired e); cbn [negb Z.opp]; [|discriminate].
  destruct (enabled s || negb (try_module_get_ok e)); [discriminate|].
  destruct (kzalloc_ok e); cbn [negb]; [|discriminate].
  destruct (kobject_add_err e =? 0); cbn [negb]; [|discriminate].
  destruct (Z.eqb_spec (request_firmware_err e) 0) as [_|Hfw]; cbn [negb];
    [|intros H; injection H as H _; contradiction].
  destruct (fw_signature_ok (hypervisor e)); cbn [negb]; [|discriminate].
  match goal with
  | |- context [if ?b then _ else _] => destruct b
  end; [discriminate|].
  unfold jailhouse_ioremap. cbv zeta.
  destruct (ioremap_addr e =? 0) eqn:Hmap; cbn [fst snd]; rewrite ?Hmap;
    [discriminate|].
  destruct (ioremap_range_err e =? 0); cbn [negb fst snd]; rewrite ?Hmap;
    [|discriminate].
  match goal with
  | |- context [if negb ?b then None else _] => destruct b
  end; cbn [negb]; [|discriminate].
  match goal with
  | |- context [if negb ?b then None else _] => destruct b
  end; cbn [negb]; [|discriminate].
  destruct (system_config_readable arg); cbn [negb]; [|discriminate].
  match goal with
  | |- context [on_each_cpu ?f ?cpus ?s0] =>
      destruct (enter_barrier (hypervisor e) cpus s0)
        as (s_b & Hrun & Hsame & _)
  end.
  rewrite Hrun. cbv beta iota.
  destruct (Z.eqb_spec (error_code s_b) 0) as [_|Herr]; cbn [negb].
  - intros H. injection H as <-.
    unfold register_cell. simpl.
    rewrite (same_hv_core_percpu_size _ _ Hsame). reflexivity.
  - intros H. injection H as H _. contradiction.
Qed.

(** The per-CPU size of the firmware header decides whether the system can
    be disabled again: after a successful jailhouse_enable, a
    jailhouse_disable that takes the lock and runs the barrier on at least
    one CPU has no defined outcome when num_possible_cpus() * percpu_size is
    no multiple of the page size (the core size is page-aligned by the
    driver, the per-CPU part is not, and the loop of leave_hypervisor that
    touches the pages then counts past 0 and on beyond the mapping), and
    returns otherwise. *)
Theorem disable_stuck_after_enable (e1 e2 : env) (arg : jailhouse_system)
        (s s1 : state) :
  jailhouse_enable e1 arg s = Some (0, s1) ->
  lock_acquired e2 = true ->
  barrier_order e2 <> [] ->
  (jailhouse_disable e2 s1 = None <->
   (num_possible_cpus e1 * percpu_size (hypervisor e1)) mod PAGE_SIZE <> 0).
Proof.
  intros Hcall Hlock Hcpus.
  pose proof (enable_zero_enabled _ _ _ _ Hcall) as Hen.
  pose proof (enable_zero_size _ _ _ _ Hcall) as Hsize.
  pose proof (leave_stuck e2 (barrier_order e2) (set_error_code 0 s1))
    as Hstuck.
  change (hv_core_percpu_size (set_error_code 0 s1))
    with (hv_core_percpu_size s1) in Hstuck.
  rewrite Hsize, core_percpu_mod_page in Hstuck.
  unfold jailhouse_disable. rewrite Hlock, Hen. cbn [negb]. cbv zeta.
  destruct (on_each_cpu (leave_hypervisor e2) (barrier_order e2)
                        (set_error_code 0 s1)) as [s2|].
  - split.
    + destruct (negb (error_code s2 =? 0)); discriminate.
    + intros H. assert (Hnone : @None state = None) by reflexivity.
      destruct Hstuck as [_ Hback].
      specialize (Hback (conj Hcpus H)). discriminate.
  - split; [|reflexivity]. intros _.
    destruct Hstuck as [Hthere _]. apply Hthere. reflexivity.
Qed.

Lemma disable_stuck_after_enable_witness :
  jailhouse_disable
    kind_env
    (state_of (jailhouse_enable (with_firmware odd_firmware kind_env)
                                demo_system loaded_state) loaded_state)
  = None.
Proof.
  apply (disable_stuck_after_enable
           (with_firmware odd_firmware kind_env) kind_env demo_system
           loaded_state).
  - vm_compute. reflexivity.
  - reflexivity.
  - discriminate.
  - vm_compute. discriminate.
Defined.
